(** * event-to-insight: the helpdesk search backend, embedded in Rocq

    The Go backend (packages [models], [database], [ai], [service] and
    [handlers]) is translated into executable definitions: Go strings are
    byte strings ([string]), Go [int] is [Z] restricted to the 64-bit
    range where the code depends on it, a Go slice is a possibly-nil list,
    a value of type [error] is a small inductive, and code that talks to
    the SQLite file threads the database state explicitly.  *)

From Stdlib Require Import ZArith List String Ascii Bool Lia Permutation.
From Stdlib Require Import Numbers.DecimalString Numbers.DecimalZ Numbers.DecimalPos.
Import ListNotations.
Open Scope string_scope.
Open Scope Z_scope.

(** ** Go runtime values *)

(** Go's [error]: [errors.New] and [fmt.Errorf] without [%w] build an
    [errorString]; [fmt.Errorf("...: %w", err)] builds a [wrapError] that
    keeps the formatted message and the wrapped error. *)
Inductive error : Type :=
| errorString (msg : string)
| wrapError (msg : string) (err : error).

Definition Error (e : error) : string :=
  match e with
  | errorString msg => msg
  | wrapError msg _ => msg
  end.

(** [fmt.Errorf(prefix ++ ": %w", err)]. *)
Definition Errorf_w (prefix : string) (err : error) : error :=
  wrapError (prefix ++ ": " ++ Error err) err.


(** A Go function returning [(T, error)]. *)
Inductive result (A : Type) : Type :=
| Ok (a : A)
| Err (e : error).
Arguments Ok {A} a.
Arguments Err {A} e.

(** A Go slice: [None] is the nil slice, [Some l] a non-nil slice with
    elements [l] ([Some []] is the empty non-nil slice [[]T{}]). *)
Definition slice (A : Type) : Type := option (list A).

Definition elems {A} (s : slice A) : list A :=
  match s with
  | None => []
  | Some l => l
  end.

Definition len {A} (s : slice A) : Z := Z.of_nat (List.length (elems s)).

(** The built-in [append(s, x)]: the result is never nil. *)
Definition append {A} (s : slice A) (x : A) : slice A := Some (elems s ++ [x])%list.

(** A slice declared with [var] and filled by [append] in a loop: it stays
    nil when nothing was appended. *)
Definition collect {A} (l : list A) : slice A :=
  match l with
  | [] => None
  | _ => Some l
  end.

(** Go's [int] on the 64-bit targets the service is built for. *)
Definition int : Type := Z.
Definition minInt : Z := - 2 ^ 63.
Definition maxInt : Z := 2 ^ 63 - 1.
Definition is_int (z : Z) : bool := (minInt <=? z) && (z <=? maxInt).

(** ** Package [strings] and [strconv], as far as the backend calls them *)

Module strings.

Definition bytes (s : string) : list ascii := list_ascii_of_string s.
Definition of_bytes (l : list ascii) : string := string_of_list_ascii l.

(** [strings.HasPrefix]. *)
Fixpoint HasPrefix (s prefix : string) : bool :=
  match prefix, s with
  | EmptyString, _ => true
  | String p prefix', String c s' => Ascii.eqb c p && HasPrefix s' prefix'
  | String _ _, EmptyString => false
  end.

(** The slice expression [s[n:]], for [n] up to the length of [s]. *)
Fixpoint drop (n : nat) (s : string) : string :=
  match n, s with
  | O, _ => s
  | S n', String _ s' => drop n' s'
  | S _, EmptyString => EmptyString
  end.

(** [strings.TrimPrefix]. *)
Definition TrimPrefix (s prefix : string) : string :=
  if HasPrefix s prefix then drop (String.length prefix) s else s.

(** [strings.Contains]: [substr] occurs somewhere in [s]. *)
Fixpoint Contains (s substr : string) : bool :=
  HasPrefix s substr ||
  match s with
  | EmptyString => false
  | String _ s' => Contains s' substr
  end.

(** [strings.Split(s, sep)] for a one-byte separator, which is what both
    call sites pass (a line feed and a comma): the pieces between the
    occurrences of [sep], one more piece than there are occurrences. *)
Fixpoint Split (s : string) (sep : ascii) : list string :=
  match s with
  | EmptyString => [EmptyString]
  | String c s' =>
      if Ascii.eqb c sep then EmptyString :: Split s' sep
      else match Split s' sep with
           | piece :: rest => String c piece :: rest
           | [] => [String c EmptyString]
           end
  end.

(** The pieces written one after the other with [sep] between them, as
    [strings.Join] does; the encoder of ID lists below separates the
    numbers this way. *)
Fixpoint Join (l : list string) (sep : ascii) : string :=
  match l with
  | [] => EmptyString
  | [x] => x
  | x :: rest => x ++ String sep (Join rest sep)
  end.

(** The six ASCII bytes of [asciiSpace]: tab, line feed, vertical tab, form
    feed, carriage return and space. *)
Definition asciiSpace (c : ascii) : bool :=
  let n := nat_of_ascii c in
  ((9 <=? n) && (n <=? 13))%nat || (n =? 32)%nat.

(** [unicode.IsSpace] on the UTF-8 encodings of the non-ASCII code points
    with the White_Space property: U+0085 and U+00A0 take two bytes ... *)
Definition space2 (a b : ascii) : bool :=
  let x := nat_of_ascii a in
  let y := nat_of_ascii b in
  ((x =? 194) && ((y =? 133) || (y =? 160)))%nat.

(** ... and U+1680, U+2000..U+200A, U+2028, U+2029, U+202F, U+205F and
    U+3000 take three. *)
Definition space3 (a b c : ascii) : bool :=
  let x := nat_of_ascii a in
  let y := nat_of_ascii b in
  let z := nat_of_ascii c in
  (((x =? 225) && (y =? 154) && (z =? 128))
   || ((x =? 226) && (y =? 128)
       && (((128 <=? z) && (z <=? 138)) || (z =? 168) || (z =? 169) || (z =? 175)))
   || ((x =? 226) && (y =? 129) && (z =? 159))
   || ((x =? 227) && (y =? 128) && (z =? 128)))%nat.

(** [TrimLeftFunc(s, unicode.IsSpace)]: drop leading white-space runes.  A
    byte sequence that is not the encoding of a white-space rune (an
    invalid encoding decodes to U+FFFD) stops the scan. *)
Fixpoint trimLeft (l : list ascii) : list ascii :=
  match l with
  | [] => []
  | a :: l1 =>
      if asciiSpace a then trimLeft l1
      else match l1 with
           | [] => l
           | b :: l2 =>
               if space2 a b then trimLeft l2
               else match l2 with
                    | [] => l
                    | c :: l3 => if space3 a b c then trimLeft l3 else l
                    end
           end
  end.

(** The same scan from the end, on the reversed bytes, as
    [TrimRightFunc] does with [utf8.DecodeLastRune]. *)
Fixpoint trimLeftRev (l : list ascii) : list ascii :=
  match l with
  | [] => []
  | a :: l1 =>
      if asciiSpace a then trimLeftRev l1
      else match l1 with
           | [] => l
           | b :: l2 =>
               if space2 b a then trimLeftRev l2
               else match l2 with
                    | [] => l
                    | c :: l3 => if space3 c b a then trimLeftRev l3 else l
                    end
           end
  end.

Definition trimRight (l : list ascii) : list ascii := rev (trimLeftRev (rev l)).

(** [strings.TrimSpace]: leading and trailing white space removed. *)
Definition TrimSpace (s : string) : string :=
  of_bytes (trimRight (trimLeft (bytes s))).

(** The ASCII fast path of [strings.ToLower]: on a string of bytes below
    0x80 Go maps 'A'..'Z' to 'a'..'z' and keeps every other byte. *)
Definition lowerByte (c : ascii) : ascii :=
  let n := nat_of_ascii c in
  if ((65 <=? n) && (n <=? 90))%nat then ascii_of_nat (n + 32) else c.

Fixpoint ToLowerASCII (s : string) : string :=
  match s with
  | EmptyString => EmptyString
  | String c s' => String (lowerByte c) (ToLowerASCII s')
  end.

End strings.

Module strconv.

Definition ErrSyntax : error := errorString "invalid syntax".
Definition ErrRange : error := errorString "value out of range".

Definition digit (c : ascii) : option Z :=
  let n := nat_of_ascii c in
  if ((48 <=? n) && (n <=? 57))%nat then Some (Z.of_nat n - 48) else None.

(** The digit loop of [Atoi]/[ParseInt] in base 10: [n = n*10 + d], any
    other byte is a syntax error. *)
Fixpoint digits (s : string) (acc : Z) : option Z :=
  match s with
  | EmptyString => Some acc
  | String c s' =>
      match digit c with
      | Some d => digits s' (acc * 10 + d)
      | None => None
      end
  end.

(** The unsigned part: at least one digit. *)
Definition unsigned (s : string) : option Z :=
  match s with
  | EmptyString => None
  | _ => digits s 0
  end.

(** [if s[0] == '-' || s[0] == '+' { s = s[1:] }]: the sign, and the rest. *)
Definition splitSign (s : string) : bool * string :=
  match s with
  | EmptyString => (false, s)
  | String c s' =>
      if Ascii.eqb c "-" then (true, s')
      else if Ascii.eqb c "+" then (false, s')
      else (false, s)
  end.

(** [strconv.Atoi]: an optional sign, then decimal digits; a value outside
    the [int] range is an error as well. *)
Definition Atoi (s : string) : result int :=
  let '(neg, body) := splitSign s in
  match unsigned body with
  | None => Err ErrSyntax
  | Some n =>
      let v := if neg then - n else n in
      if is_int v then Ok v else Err ErrRange
  end.

(** [strconv.Itoa] (also what [%d] prints): shortest decimal form. *)
Definition Itoa (z : int) : string := NilZero.string_of_int (Z.to_int z).

End strconv.

(** ** Package [models] *)

(** [time.Time], as an instant on the server's clock. *)
Definition Time : Type := Z.

Module Article.
Record t : Type := mk { ID : int; Title : string; Content : string }.
End Article.

Module Query.
Record t : Type := mk { ID : int; Query : string; CreatedAt : Time }.
End Query.

Module SearchResult.
Record t : Type := mk {
  ID : int;
  QueryID : int;
  AISummaryAnswer : string;
  AIRelevantArticles : slice int;
  CreatedAt : Time }.
End SearchResult.

Module SearchRequest.
Record t : Type := mk { Query : string }.
End SearchRequest.

Module SearchResponse.
Record t : Type := mk {
  Query : string;
  AISummaryAnswer : string;
  AIRelevantArticles : slice Article.t;
  QueryID : int;
  Timestamp : Time }.
End SearchResponse.

Module ErrorResponse.
Record t : Type := mk { Error : string; Message : string }.
End ErrorResponse.

(** ** Package [encoding/json] at type [[]int] *)

Module json.

(** [json.Marshal] of a [[]int]: [null] for the nil slice, otherwise the
    bracketed, comma-separated decimal numbers.  The error result exists
    in the signature only: no [[]int] fails to encode. *)
Definition Marshal (v : slice int) : result string :=
  match v with
  | None => Ok "null"
  | Some l => Ok ("[" ++ strings.Join (map strconv.Itoa l) "," ++ "]")
  end.

(** The four bytes JSON allows between tokens. *)
Definition isSpace (c : ascii) : bool :=
  let n := nat_of_ascii c in
  ((n =? 32) || (n =? 9) || (n =? 10) || (n =? 13))%nat.

Fixpoint skipSpace (l : list ascii) : list ascii :=
  match l with
  | [] => []
  | c :: l' => if isSpace c then skipSpace l' else l
  end.

Definition trim (s : string) : string :=
  strings.of_bytes (rev (skipSpace (rev (skipSpace (strings.bytes s))))).

(** A JSON number that fits a Go [int]: an optional minus sign, then
    either a single zero or digits that do not start with a zero; a
    fraction or an exponent does not convert to [int]. *)
Definition natural (s : string) : option Z :=
  match s with
  | EmptyString => None
  | String c s' =>
      if Ascii.eqb c "0" then (if String.eqb s' "" then Some 0 else None)
      else strconv.digits s 0
  end.

Definition number (s : string) : option Z :=
  match s with
  | EmptyString => None
  | String c s' => if Ascii.eqb c "-" then option_map Z.opp (natural s') else natural s
  end.

Definition syntaxError : error := errorString "json: cannot unmarshal into Go value of type []int".

(** One array element: [null] leaves the element at its zero value. *)
Definition element (tok : string) : result int :=
  if String.eqb tok "null" then Ok 0
  else match number tok with
       | Some z => if is_int z then Ok z else Err syntaxError
       | None => Err syntaxError
       end.

Fixpoint elements (toks : list string) : result (list int) :=
  match toks with
  | [] => Ok []
  | tok :: rest =>
      match element tok, elements rest with
      | Ok z, Ok l => Ok (z :: l)
      | Err e, _ => Err e
      | _, Err e => Err e
      end
  end.

(** The text between the brackets of [s], when [s] is bracketed. *)
Fixpoint untilClose (s : string) : option string :=
  match s with
  | EmptyString => None
  | String c s' =>
      if Ascii.eqb c "]" && String.eqb s' "" then Some EmptyString
      else option_map (String c) (untilClose s')
  end.

Definition unbracket (s : string) : option string :=
  match s with
  | EmptyString => None
  | String c s' => if Ascii.eqb c "[" then untilClose s' else None
  end.

(** [json.Unmarshal(data, &v)] for [v] a nil [[]int]: [null] leaves [v]
    nil, [[]] makes it empty and non-nil, an array of numbers fills it;
    anything else is an error. *)
Definition Unmarshal (data : string) : result (slice int) :=
  let t := trim data in
  if String.eqb t "null" then Ok None
  else match unbracket t with
       | None => Err syntaxError
       | Some body =>
           let body := trim body in
           if String.eqb body "" then Ok (Some [])
           else match elements (map trim (strings.Split body ",")) with
                | Ok l => Ok (Some l)
                | Err e => Err e
                end
       end.

End json.

(** ** Computations over a store *)

(** A method that works on a store [S] and returns [(T, error)]: the store
    after the call, and the result. *)
Definition M (S A : Type) : Type := S -> S * result A.

Definition ret {S A} (a : A) : M S A := fun s => (s, Ok a).

Definition bind {S A B} (c : M S A) (k : A -> M S B) : M S B :=
  fun s =>
    match c s with
    | (s', Ok a) => k a s'
    | (s', Err e) => (s', Err e)
    end.

(** [if err != nil { return nil, fmt.Errorf(prefix ++ ": %w", err) }]. *)
Definition wrap {S A} (prefix : string) (c : M S A) : M S A :=
  fun s =>
    match c s with
    | (s', Ok a) => (s', Ok a)
    | (s', Err e) => (s', Err (Errorf_w prefix e))
    end.

(** A call that does not touch the store. *)
Definition lift {S A} (r : result A) : M S A := fun s => (s, r).

Declare Scope go_scope.
Delimit Scope go_scope with go.
Notation "x <- c ;; k" := (bind c (fun x => k))
  (at level 61, c at next level, right associativity) : go_scope.
Open Scope go_scope.

(** ** Package [database] *)

Module database.

(** [DatabaseInterface]: the contract the service is written against.
    ([Close] is left out: nothing the service does calls it.) *)
Class DatabaseInterface (DB : Type) : Type := {
  GetAllArticles : M DB (slice Article.t);
  GetArticleByID : int -> M DB Article.t;
  GetArticlesByIDs : slice int -> M DB (slice Article.t);
  CreateQuery : string -> M DB Query.t;
  GetQueryByID : int -> M DB Query.t;
  CreateSearchResult : int -> string -> slice int -> M DB SearchResult.t;
  GetSearchResultByQueryID : int -> M DB SearchResult.t;
  Initialize : DB -> DB * option error
}.

End database.

(** *** The SQLite implementation *)

Module SQLiteDB.

(** The statements the implementation sends to the engine. *)
Inductive Stmt : Type :=
| PragmaForeignKeys
| CreateTables
| CountArticles
| InsertArticle
| SelectArticles
| SelectArticleByID
| SelectArticlesIn
| InsertQuery
| SelectQueryByID
| InsertSearchResult
| SelectSearchResultByID
| SelectSearchResultByQueryID.

(** A row of [search_results]: the ID list is stored as JSON text. *)
Record Row : Type := mkRow {
  id : int;
  query_id : int;
  ai_summary_answer : string;
  ai_relevant_articles : string;
  created_at : Time }.

(** The database behind a [*SQLiteDB]: the three tables with their rows
    in rowid order, whether the schema exists, the connection's
    [foreign_keys] setting, and the statements sent so far.  [fault n]
    says whether the engine fails the [n]-th statement (connection or I/O
    failure) and with which error; [clock n] is what [time.Now()] returns
    while the [n]-th statement is prepared. *)
Record t : Type := mk {
  fault : nat -> option error;
  clock : nat -> Time;
  foreign_keys : bool;
  schema : bool;
  articles : list Article.t;
  queries : list Query.t;
  search_results : list Row;
  journal : list Stmt }.

Definition ErrNoRows : error := errorString "sql: no rows in result set".
Definition errNoTable : error := errorString "no such table".
Definition errForeignKey : error := errorString "FOREIGN KEY constraint failed".

Definition with_journal (db : t) (j : list Stmt) : t :=
  mk (fault db) (clock db) (foreign_keys db) (schema db)
     (articles db) (queries db) (search_results db) j.

Definition with_foreign_keys (db : t) (b : bool) : t :=
  mk (fault db) (clock db) b (schema db)
     (articles db) (queries db) (search_results db) (journal db).

Definition with_schema (db : t) (b : bool) : t :=
  mk (fault db) (clock db) (foreign_keys db) b
     (articles db) (queries db) (search_results db) (journal db).

Definition with_articles (db : t) (l : list Article.t) : t :=
  mk (fault db) (clock db) (foreign_keys db) (schema db)
     l (queries db) (search_results db) (journal db).

Definition with_queries (db : t) (l : list Query.t) : t :=
  mk (fault db) (clock db) (foreign_keys db) (schema db)
     (articles db) l (search_results db) (journal db).

Definition with_search_results (db : t) (l : list Row) : t :=
  mk (fault db) (clock db) (foreign_keys db) (schema db)
     (articles db) (queries db) l (journal db).

Definition now (db : t) : Time := clock db (List.length (journal db)).

(** Sending one statement: it is journalled, and it fails when the engine
    does, or when it names a table that does not exist yet. *)
Definition send (st : Stmt) (db : t) : t * option error :=
  let db' := with_journal db (journal db ++ [st])%list in
  match fault db (List.length (journal db)) with
  | Some e => (db', Some e)
  | None =>
      match st with
      | PragmaForeignKeys | CreateTables => (db', None)
      | _ => if schema db then (db', None) else (db', Some errNoTable)
      end
  end.

(** [INTEGER PRIMARY KEY AUTOINCREMENT]: one more than the largest rowid
    in use. *)
Definition next_id (ids : list int) : int := fold_right Z.max 0 ids + 1.

(** A fresh database file opened by [NewSQLiteDB], which switches foreign
    keys on. *)
Definition empty (fault : nat -> option error) (clock : nat -> Time) : t :=
  mk fault clock false false [] [] [] [].

Definition NewSQLiteDB (fault : nat -> option error) (clock : nat -> Time) : result t :=
  match send PragmaForeignKeys (empty fault clock) with
  | (db, Some e) => Err (Errorf_w "failed to enable foreign keys" e)
  | (db, None) => Ok (with_foreign_keys db true)
  end.

(** [NewSQLiteDB] on the file at a path, which may hold tables from an
    earlier run: the connection is opened on what the file holds, and
    foreign keys are switched on. *)
Definition OpenSQLiteDB (file : t) : result t :=
  match send PragmaForeignKeys file with
  | (db, Some e) => Err (Errorf_w "failed to enable foreign keys" e)
  | (db, None) => Ok (with_foreign_keys db true)
  end.

(** [createTables]: three [CREATE TABLE IF NOT EXISTS]. *)
Definition createTables (db : t) : t * option error :=
  match send CreateTables db with
  | (db', Some e) => (db', Some e)
  | (db', None) => (with_schema db' true, None)
  end.

(** The catalog [seedArticles] inserts, without the IDs the engine
    assigns. *)
Definition seed : list (string * string) :=
  [ ("Password Reset Instructions",
     "To reset your password: 1) Go to the login page 2) Click 'Forgot Password' 3) Enter your email address 4) Check your email for reset instructions 5) Follow the link and create a new password. The reset link expires in 24 hours.");
    ("VPN Connection Setup",
     "Setting up VPN connection: 1) Download the VPN client from the IT portal 2) Install using admin credentials 3) Use your domain username and password 4) Connect to the 'Corporate-Main' server 5) Verify connection by accessing internal resources. Contact IT if you experience connectivity issues.");
    ("Software Installation Guidelines",
     "For software installation: 1) Check the approved software list on the IT portal 2) Submit a software request ticket if not approved 3) Admin rights are required for installation 4) IT will remotely install if you don't have admin access 5) All installations must be from official vendors only.");
    ("Email Configuration Troubleshooting",
     "Email setup issues: 1) Verify server settings - IMAP: mail.company.com port 993 SSL, SMTP: mail.company.com port 587 STARTTLS 2) Check username format: firstname.lastname@company.com 3) Ensure password is current 4) Clear email cache and restart client 5) For mobile devices, use app-specific passwords.");
    ("Multi-Factor Authentication Setup",
     "MFA setup process: 1) Install Microsoft Authenticator app 2) Log into company portal 3) Navigate to Security Settings 4) Click 'Add Authentication Method' 5) Scan QR code with authenticator app 6) Enter verification code 7) MFA is now required for all company logins.");
    ("Printer Connection Issues",
     "Printer troubleshooting: 1) Ensure printer is connected to corporate network 2) Install latest printer drivers from manufacturer website 3) Add printer using IP address: 192.168.1.100 4) Check print queue for stuck jobs 5) Restart print spooler service if needed 6) For Mac users, use CUPS interface.");
    ("File Share Access Problems",
     "File share access: 1) Connect using \\fileserver\shared 2) Use domain credentials when prompted 3) Map network drive for easier access 4) Check group membership for folder permissions 5) Clear credential cache if authentication fails 6) Contact IT for permission changes.");
    ("Remote Desktop Configuration",
     "Remote desktop setup: 1) Enable Remote Desktop on target computer 2) Add user to 'Remote Desktop Users' group 3) Configure firewall to allow RDP (port 3389) 4) Use Computer Name or IP address to connect 5) For external access, use VPN first 6) Use Network Level Authentication for security.");
    ("Antivirus Software Management",
     "Antivirus management: 1) Corporate antivirus is automatically deployed 2) Do not install additional antivirus software 3) Scans run automatically daily at 2 AM 4) Quarantine notifications appear in system tray 5) Report false positives to IT immediately 6) Never disable real-time protection.");
    ("Data Backup and Recovery",
     "Backup procedures: 1) OneDrive syncs user documents automatically 2) Critical data should be stored in designated share folders 3) Personal desktop/downloads are not backed up 4) File recovery available for 90 days 5) For urgent recovery, submit priority ticket 6) Test restore procedures quarterly.") ].

(** The [for _, article := range articles] loop of [seedArticles]: one
    [INSERT] per article, stopping at the first failure. *)
Fixpoint insertArticles (rows : list (string * string)) (db : t) : t * option error :=
  match rows with
  | [] => (db, None)
  | (title, content) :: rest =>
      match send InsertArticle db with
      | (db', Some e) =>
          (db', Some (Errorf_w ("failed to insert article '" ++ title ++ "'") e))
      | (db', None) =>
          let a := Article.mk (next_id (map Article.ID (articles db'))) title content in
          insertArticles rest (with_articles db' (articles db' ++ [a])%list)
      end
  end.

(** [seedArticles]: count the rows, and insert the catalog only when
    there is none. *)
Definition seedArticles (db : t) : t * option error :=
  match send CountArticles db with
  | (db', Some e) => (db', Some e)
  | (db', None) =>
      let count := Z.of_nat (List.length (articles db')) in
      if 0 <? count then (db', None)
      else insertArticles seed db'
  end.

Definition Initialize (db : t) : t * option error :=
  match createTables db with
  | (db1, Some e) => (db1, Some (Errorf_w "failed to create tables" e))
  | (db1, None) =>
      match seedArticles db1 with
      | (db2, Some e) => (db2, Some (Errorf_w "failed to seed articles" e))
      | (db2, None) => (db2, None)
      end
  end.

Definition GetAllArticles : M t (slice Article.t) :=
  fun db =>
    match send SelectArticles db with
    | (db', Some e) => (db', Err e)
    | (db', None) => (db', Ok (collect (articles db')))
    end.

Definition GetArticleByID (id : int) : M t Article.t :=
  fun db =>
    match send SelectArticleByID db with
    | (db', Some e) => (db', Err e)
    | (db', None) =>
        match find (fun a => Article.ID a =? id) (articles db') with
        | Some a => (db', Ok a)
        | None => (db', Err ErrNoRows)
        end
    end.

(** [WHERE id IN (?,...,?)]: the rows whose id is among the arguments,
    each row once. *)
Definition member (id : int) (ids : list int) : bool :=
  existsb (fun i => i =? id) ids.

Definition GetArticlesByIDs (ids : slice int) : M t (slice Article.t) :=
  fun db =>
    if len ids =? 0 then (db, Ok (Some []))
    else
      match send SelectArticlesIn db with
      | (db', Some e) => (db', Err e)
      | (db', None) =>
          (db', Ok (collect (filter (fun a => member (Article.ID a) (elems ids))
                                    (articles db'))))
      end.

Definition GetQueryByID (id : int) : M t Query.t :=
  fun db =>
    match send SelectQueryByID db with
    | (db', Some e) => (db', Err e)
    | (db', None) =>
        match find (fun q => Query.ID q =? id) (queries db') with
        | Some q => (db', Ok q)
        | None => (db', Err ErrNoRows)
        end
    end.

Definition CreateQuery (query : string) : M t Query.t :=
  fun db =>
    let created := now db in
    match send InsertQuery db with
    | (db', Some e) => (db', Err e)
    | (db', None) =>
        let id := next_id (map Query.ID (queries db')) in
        let db'' := with_queries db' (queries db' ++ [Query.mk id query created])%list in
        GetQueryByID id db''
    end.

(** Scanning a row of [search_results] and decoding its ID list. *)
Definition scanRow (r : Row) : result SearchResult.t :=
  match json.Unmarshal (ai_relevant_articles r) with
  | Err e => Err (Errorf_w "failed to unmarshal article IDs" e)
  | Ok l =>
      Ok (SearchResult.mk (id r) (query_id r) (ai_summary_answer r) l (created_at r))
  end.

Definition GetSearchResultByID (i : int) : M t SearchResult.t :=
  fun db =>
    match send SelectSearchResultByID db with
    | (db', Some e) => (db', Err e)
    | (db', None) =>
        match find (fun r => id r =? i) (search_results db') with
        | Some r => (db', scanRow r)
        | None => (db', Err ErrNoRows)
        end
    end.

(** [QueryRow] takes the first row the scan of the table meets. *)
Definition GetSearchResultByQueryID (queryID : int) : M t SearchResult.t :=
  fun db =>
    match send SelectSearchResultByQueryID db with
    | (db', Some e) => (db', Err e)
    | (db', None) =>
        match find (fun r => query_id r =? queryID) (search_results db') with
        | Some r => (db', scanRow r)
        | None => (db', Err ErrNoRows)
        end
    end.

Definition CreateSearchResult (queryID : int) (summary : string)
    (relevantArticleIDs : slice int) : M t SearchResult.t :=
  fun db =>
    match json.Marshal relevantArticleIDs with
    | Err e => (db, Err (Errorf_w "failed to marshal article IDs" e))
    | Ok articleIDsJSON =>
        let created := now db in
        match send InsertSearchResult db with
        | (db', Some e) => (db', Err e)
        | (db', None) =>
            if foreign_keys db'
               && negb (existsb (fun q => Query.ID q =? queryID) (queries db'))
            then (db', Err errForeignKey)
            else
              let i := next_id (map id (search_results db')) in
              let r := mkRow i queryID summary articleIDsJSON created in
              GetSearchResultByID i
                (with_search_results db' (search_results db' ++ [r])%list)
        end
    end.

#[global] Instance SQLiteDB_DatabaseInterface : database.DatabaseInterface t := {|
  database.GetAllArticles := GetAllArticles;
  database.GetArticleByID := GetArticleByID;
  database.GetArticlesByIDs := GetArticlesByIDs;
  database.CreateQuery := CreateQuery;
  database.GetQueryByID := GetQueryByID;
  database.CreateSearchResult := CreateSearchResult;
  database.GetSearchResultByQueryID := GetSearchResultByQueryID;
  database.Initialize := Initialize
|}.

End SQLiteDB.

(** ** Package [ai] *)

Module ai.

Record AIAnalysisResult : Type := mkResult {
  Summary : string;
  RelevantArticles : slice int }.

(** [AIServiceInterface]: the contract of the relevance analysis. *)
Class AIServiceInterface (AI : Type) : Type := {
  AnalyzeQuery : AI -> string -> slice Article.t -> result AIAnalysisResult
}.

End ai.

(** *** The keyword heuristic *)

Module MockAIService.

(** [MockAIService] is an empty struct. *)
Inductive t : Type := NewMockAIService.

Definition summaryPassword : string :=
  "To reset your password, go to the login page, click 'Forgot Password', enter your email address, and follow the instructions sent to your email. The reset link expires in 24 hours.".
Definition summaryVPN : string :=
  "To set up VPN connection, download the VPN client from the IT portal, install it with admin credentials, and connect to the 'Corporate-Main' server using your domain username and password.".
Definition summaryEmail : string :=
  "For email configuration, use IMAP: mail.company.com port 993 SSL and SMTP: mail.company.com port 587 STARTTLS. Ensure your username format is firstname.lastname@company.com.".
Definition summaryPrinter : string :=
  "For printer issues, ensure the printer is connected to the corporate network, install latest drivers, and add printer using IP address 192.168.1.100.".
Definition summaryFound : string :=
  "I found relevant information in our knowledge base that should help with your query. Please review the articles below for detailed instructions.".
Definition summaryNotFound : string :=
  "I couldn't find specific information for your query in our knowledge base. Please contact IT support for further assistance, or try rephrasing your question.".

Section WithToLower.

(** [strings.ToLower] follows the Unicode case tables on strings that are
    not pure ASCII; the heuristic is embedded over whatever it computes.
    [strings.ToLowerASCII] is what it computes on ASCII text. *)
Variable ToLower : string -> string.

(** The body of the [for _, article := range articles] loop: the
    [if]/[else if] chain over the keywords, on the lower-cased query. *)
Definition visit (query : string) (relevantArticles : slice int) (article : Article.t)
  : slice int :=
  let articleText := ToLower (Article.Title article ++ " " ++ Article.Content article) in
  if strings.Contains query "password" && strings.Contains articleText "password" then
    append relevantArticles (Article.ID article)
  else if strings.Contains query "vpn" && strings.Contains articleText "vpn" then
    append relevantArticles (Article.ID article)
  else if strings.Contains query "email" && strings.Contains articleText "email" then
    append relevantArticles (Article.ID article)
  else if strings.Contains query "printer" && strings.Contains articleText "printer" then
    append relevantArticles (Article.ID article)
  else if strings.Contains query "software" && strings.Contains articleText "software" then
    append relevantArticles (Article.ID article)
  else if strings.Contains query "backup" && strings.Contains articleText "backup" then
    append relevantArticles (Article.ID article)
  else if strings.Contains query "antivirus" && strings.Contains articleText "antivirus" then
    append relevantArticles (Article.ID article)
  else if strings.Contains query "remote" && strings.Contains articleText "remote" then
    append relevantArticles (Article.ID article)
  else relevantArticles.

Definition AnalyzeQuery (m : t) (query : string) (articles : slice Article.t)
  : result ai.AIAnalysisResult :=
  let query := ToLower query in
  let relevantArticles := fold_left (visit query) (elems articles) None in
  let summary :=
    if strings.Contains query "password" then summaryPassword
    else if strings.Contains query "vpn" then summaryVPN
    else if strings.Contains query "email" then summaryEmail
    else if strings.Contains query "printer" then summaryPrinter
    else if 0 <? len relevantArticles then summaryFound
    else summaryNotFound in
  Ok (ai.mkResult summary relevantArticles).

(** *** The heuristic as the specification words it *)

(** The fixed closed list of recognized topic keywords. *)
Definition keywords : list string :=
  ["password"; "vpn"; "email"; "printer"; "software"; "backup"; "antivirus"; "remote"].

(** A keyword appears in the lower-cased query and in the article's
    combined title and content, case-insensitively. *)
Definition matches (query : string) (article : Article.t) : bool :=
  existsb
    (fun kw =>
       strings.Contains (ToLower query) kw
       && strings.Contains
            (ToLower (Article.Title article ++ " " ++ Article.Content article)) kw)
    keywords.

(** The IDs of the matching articles, in article-iteration order. *)
Definition reference_ids (query : string) (articles : list Article.t) : list int :=
  map Article.ID (filter (matches query) articles).

(** The summary by the fixed priority. *)
Definition reference_summary (query : string) (articles : list Article.t) : string :=
  let q := ToLower query in
  if strings.Contains q "password" then summaryPassword
  else if strings.Contains q "vpn" then summaryVPN
  else if strings.Contains q "email" then summaryEmail
  else if strings.Contains q "printer" then summaryPrinter
  else match reference_ids query articles with
       | _ :: _ => summaryFound
       | [] => summaryNotFound
       end.

End WithToLower.

#[global] Instance MockAIService_AIServiceInterface (ToLower : string -> string)
  : ai.AIServiceInterface t := {|
  ai.AnalyzeQuery := AnalyzeQuery ToLower
|}.

End MockAIService.

(** *** The generative strategy *)

Module GeminiService.

(** A candidate of a response as [AnalyzeQuery] reads it: the parts of
    its [Content], each as [%v] prints it, or [None] for a candidate
    without content (a nil [Content], or a nil candidate). *)
Definition Candidate : Type := option (list string).

(** The client of the generative model: [GenerateContent] maps the prompt
    to the candidates of the response, or fails. *)
Record t : Type := mk {
  GenerateContent : string -> result (list Candidate) }.

Definition nl : string := String "010"%char EmptyString.
Definition quote : string := String "034"%char EmptyString.

Definition fallbackSummary : string :=
  "I found some information that might help you. Please review the relevant articles below, or contact IT support for further assistance.".

Definition buildArticlesContext (articles : slice Article.t) : string :=
  fold_left
    (fun builder article =>
       builder
       ++ "Article ID: " ++ strconv.Itoa (Article.ID article) ++ nl
       ++ "Title: " ++ Article.Title article ++ nl
       ++ "Content: " ++ Article.Content article ++ nl ++ nl)
    (elems articles)
    ("Available Knowledge Base Articles:" ++ nl ++ nl).

Definition buildPrompt (query articlesContext : string) : string :=
  "You are an IT support assistant helping users find answers to their technical questions." ++ nl
  ++ nl
  ++ articlesContext ++ nl
  ++ nl
  ++ "User Query: " ++ quote ++ query ++ quote ++ nl
  ++ nl
  ++ "Please analyze the user's query and provide:" ++ nl
  ++ nl
  ++ "1. SUMMARY: A concise, helpful answer based on the relevant articles above. If no articles are relevant, provide general guidance and suggest contacting IT support." ++ nl
  ++ nl
  ++ "2. RELEVANT_ARTICLES: List the Article IDs (numbers only, comma-separated) of articles that are most relevant to answering this query. If no articles are relevant, return " ++ quote ++ "none" ++ quote ++ "." ++ nl
  ++ nl
  ++ "Format your response exactly as follows:" ++ nl
  ++ "SUMMARY: [Your concise answer here]" ++ nl
  ++ "RELEVANT_ARTICLES: [comma-separated Article IDs or " ++ quote ++ "none" ++ quote ++ "]" ++ nl
  ++ nl
  ++ "Example:" ++ nl
  ++ "SUMMARY: To reset your password, go to the login page, click 'Forgot Password', enter your email, and follow the instructions sent to your email." ++ nl
  ++ "RELEVANT_ARTICLES: 1,3" ++ nl
  ++ nl
  ++ "Now analyze the user's query:".

(** [articleExists]: a linear search for the ID. *)
Fixpoint articleExists (id : int) (articles : list Article.t) : bool :=
  match articles with
  | [] => false
  | article :: rest =>
      if Article.ID article =? id then true else articleExists id rest
  end.

(** The inner loop of [parseResponse] over the comma-separated tokens: a
    token that [strconv.Atoi] rejects, or whose ID no article has, is
    skipped. *)
Definition addToken (articles : slice Article.t) (relevantArticleIDs : slice int)
    (articleStr : string) : slice int :=
  let articleStr := strings.TrimSpace articleStr in
  match strconv.Atoi articleStr with
  | Ok id =>
      if articleExists id (elems articles) then append relevantArticleIDs id
      else relevantArticleIDs
  | Err _ => relevantArticleIDs
  end.

(** The body of the loop over the lines, on the pair of the two local
    variables [summary] and [relevantArticleIDs]. *)
Definition parseLine (articles : slice Article.t) (st : string * slice int)
    (line : string) : string * slice int :=
  let '(summary, relevantArticleIDs) := st in
  let line := strings.TrimSpace line in
  if strings.HasPrefix line "SUMMARY:" then
    (strings.TrimSpace (strings.TrimPrefix line "SUMMARY:"), relevantArticleIDs)
  else if strings.HasPrefix line "RELEVANT_ARTICLES:" then
    let articlesStr := strings.TrimSpace (strings.TrimPrefix line "RELEVANT_ARTICLES:") in
    if negb (String.eqb articlesStr "none") && negb (String.eqb articlesStr "") then
      (summary,
       fold_left (addToken articles) (strings.Split articlesStr ",") relevantArticleIDs)
    else (summary, relevantArticleIDs)
  else (summary, relevantArticleIDs).

Definition parseResponse (response : string) (articles : slice Article.t)
  : result ai.AIAnalysisResult :=
  let lines := strings.Split response "010"%char in
  let '(summary, relevantArticleIDs) :=
    fold_left (parseLine articles) lines (EmptyString, None) in
  let summary := if String.eqb summary "" then fallbackSummary else summary in
  Ok (ai.mkResult summary relevantArticleIDs).

(** [AnalyzeQuery].  The test [len(resp.Candidates) == 0 ||
    len(resp.Candidates[0].Content.Parts) == 0] reads the parts of the
    first candidate's content: on a first candidate without content that
    is a nil dereference, the call panics and returns nothing, which is
    the result [None]. *)
Definition AnalyzeQuery (g : t) (query : string) (articles : slice Article.t)
  : option (result ai.AIAnalysisResult) :=
  let articlesContext := buildArticlesContext articles in
  let prompt := buildPrompt query articlesContext in
  match GenerateContent g prompt with
  | Err e => Some (Err (Errorf_w "failed to generate content" e))
  | Ok candidates =>
      match candidates with
      | [] => Some (Err (errorString "no response generated"))
      | None :: _ => None
      | Some [] :: _ => Some (Err (errorString "no response generated"))
      | Some (responseText :: _) :: _ => Some (parseResponse responseText articles)
      end
  end.

(** A response whose first candidate, when there is one, has content. *)
Definition hasContent (response : result (list Candidate)) : Prop :=
  match response with
  | Ok (None :: _) => False
  | _ => True
  end.

(** A client all of whose responses are such.  On these [AnalyzeQuery]
    always returns, and they are the clients that implement
    [AIServiceInterface] as a function to a result. *)
Record Replying : Type := replying {
  client :> t;
  content : forall prompt, hasContent (GenerateContent client prompt) }.

Definition returns (c : Replying) (query : string) (articles : slice Article.t)
  : AnalyzeQuery c query articles <> None.
Proof.
  unfold AnalyzeQuery.
  pose proof (content c (buildPrompt query (buildArticlesContext articles))) as Hc.
  destruct (GenerateContent c (buildPrompt query (buildArticlesContext articles)))
    as [[|[[|text parts]|] more]|e]; cbn in Hc; try discriminate.
  destruct Hc.
Defined.

(** What [AnalyzeQuery] returns on such a client. *)
Definition answer (c : Replying) (query : string) (articles : slice Article.t)
  : result ai.AIAnalysisResult :=
  match AnalyzeQuery c query articles as o return o <> None -> result ai.AIAnalysisResult with
  | Some r => fun _ => r
  | None => fun H => match H eq_refl with end
  end (returns c query articles).

#[global] Instance GeminiService_AIServiceInterface : ai.AIServiceInterface Replying := {|
  ai.AnalyzeQuery := answer
|}.

(** *** The parser as the specification words it *)

(** The text after the literal prefix, when the trimmed line starts with
    it. *)
Definition payload (prefix line : string) : option string :=
  let line := strings.TrimSpace line in
  if strings.HasPrefix line prefix
  then Some (strings.TrimSpace (strings.drop (String.length prefix) line))
  else None.

Fixpoint payloads (prefix : string) (lines : list string) : list string :=
  match lines with
  | [] => []
  | line :: rest =>
      match payload prefix line with
      | Some p => p :: payloads prefix rest
      | None => payloads prefix rest
      end
  end.

(** The IDs one list line contributes: nothing for [none] or an empty
    list; otherwise the tokens that are numbers and IDs of supplied
    articles. *)
Definition validToken (articles : list Article.t) (tok : string) : option int :=
  match strconv.Atoi (strings.TrimSpace tok) with
  | Ok id => if existsb (fun a => Article.ID a =? id) articles then Some id else None
  | Err _ => None
  end.

Fixpoint validTokens (articles : list Article.t) (toks : list string) : list int :=
  match toks with
  | [] => []
  | tok :: rest =>
      match validToken articles tok with
      | Some id => id :: validTokens articles rest
      | None => validTokens articles rest
      end
  end.

Definition lineIDs (articles : list Article.t) (articlesStr : string) : list int :=
  if String.eqb articlesStr "none" || String.eqb articlesStr "" then []
  else validTokens articles (strings.Split articlesStr ",").

Definition reference_summary (lines : list string) : string :=
  match last (payloads "SUMMARY:" lines) EmptyString with
  | EmptyString => fallbackSummary
  | s => s
  end.

Definition reference_ids (articles : list Article.t) (lines : list string) : list int :=
  flat_map (lineIDs articles) (payloads "RELEVANT_ARTICLES:" lines).

End GeminiService.

(** ** Package [service] *)

Module SearchService.

Section Service.

Context {DB AI : Type} `{database.DatabaseInterface DB} `{ai.AIServiceInterface AI}.

(** The service holds the database handle and the analysis client; a
    method returns the service with the database as the call left it. *)
Record t : Type := NewSearchService { db : DB; aiService : AI }.

Definition run {A} (s : t) (c : M DB A) : t * result A :=
  let '(db', r) := c (db s) in (NewSearchService db' (aiService s), r).

(** [ProcessSearchQuery], on the database. *)
Definition process (aiService : AI) (queryText : string) : M DB SearchResponse.t :=
  query <- wrap "failed to create query" (database.CreateQuery queryText) ;;
  articles <- wrap "failed to get articles" database.GetAllArticles ;;
  aiResult <- wrap "failed to analyze query"
                (lift (ai.AnalyzeQuery aiService queryText articles)) ;;
  _ <- wrap "failed to save search result"
         (database.CreateSearchResult (Query.ID query) (ai.Summary aiResult)
            (ai.RelevantArticles aiResult)) ;;
  relevantArticles <- wrap "failed to get relevant articles"
                        (database.GetArticlesByIDs (ai.RelevantArticles aiResult)) ;;
  ret (SearchResponse.mk queryText (ai.Summary aiResult) relevantArticles
         (Query.ID query) (Query.CreatedAt query)).

Definition ProcessSearchQuery (s : t) (queryText : string)
  : t * result SearchResponse.t :=
  run s (process (aiService s) queryText).

Definition GetArticleByID (s : t) (id : int) : t * result Article.t :=
  run s (database.GetArticleByID id).

Definition GetAllArticles (s : t) : t * result (slice Article.t) :=
  run s database.GetAllArticles.

End Service.

Arguments t : clear implicits.

End SearchService.

(** ** Package [handlers] *)

Module SearchHandler.

Definition StatusOK : Z := 200.
Definition StatusBadRequest : Z := 400.
Definition StatusNotFound : Z := 404.
Definition StatusInternalServerError : Z := 500.

(** What a handler hands to [json.NewEncoder(w).Encode]. *)
Inductive Payload : Type :=
| ErrorBody (e : ErrorResponse.t)
| SearchBody (r : SearchResponse.t)
| ArticleBody (a : Article.t)
| ArticlesBody (l : slice Article.t)
| HealthBody (status service : string).

(** What [sendJSONResponse] writes: the status code and the body. *)
Record Response : Type := mkResponse { Code : Z; Body : Payload }.

Definition sendJSONResponse (statusCode : Z) (data : Payload) : Response :=
  mkResponse statusCode data.

Definition sendErrorResponse (statusCode : Z) (error message : string) : Response :=
  sendJSONResponse statusCode (ErrorBody (ErrorResponse.mk error message)).

Section Handler.

Context {DB AI : Type} `{database.DatabaseInterface DB} `{ai.AIServiceInterface AI}.

Record t : Type := NewSearchHandler { searchService : SearchService.t DB AI }.

(** [SearchQuery], given what decoding the request body produced. *)
Definition SearchQuery (h : t) (body : result SearchRequest.t) : t * Response :=
  match body with
  | Err err => (h, sendErrorResponse StatusBadRequest "Invalid JSON" (Error err))
  | Ok req =>
      if String.eqb (strings.TrimSpace (SearchRequest.Query req)) "" then
        (h, sendErrorResponse StatusBadRequest "Query is required" "")
      else
        match SearchService.ProcessSearchQuery (searchService h) (SearchRequest.Query req) with
        | (s, Err err) =>
            (NewSearchHandler s,
             sendErrorResponse StatusInternalServerError
               "Failed to process search query" (Error err))
        | (s, Ok response) =>
            (NewSearchHandler s, sendJSONResponse StatusOK (SearchBody response))
        end
  end.

(** [GetArticle], given the [id] segment of the path. *)
Definition GetArticle (h : t) (idStr : string) : t * Response :=
  match strconv.Atoi idStr with
  | Err _ => (h, sendErrorResponse StatusBadRequest "Invalid article ID" "")
  | Ok id =>
      match SearchService.GetArticleByID (searchService h) id with
      | (s, Err _) =>
          (NewSearchHandler s, sendErrorResponse StatusNotFound "Article not found" "")
      | (s, Ok article) =>
          (NewSearchHandler s, sendJSONResponse StatusOK (ArticleBody article))
      end
  end.

Definition GetAllArticles (h : t) : t * Response :=
  match SearchService.GetAllArticles (searchService h) with
  | (s, Err err) =>
      (NewSearchHandler s,
       sendErrorResponse StatusInternalServerError "Failed to get articles" (Error err))
  | (s, Ok articles) =>
      (NewSearchHandler s, sendJSONResponse StatusOK (ArticlesBody articles))
  end.

Definition HealthCheck (h : t) : t * Response :=
  (h, sendJSONResponse StatusOK (HealthBody "healthy" "event-to-insight-backend")).

End Handler.

Arguments t : clear implicits.

End SearchHandler.

(** ** Package [config] *)

Module config.

Record Config : Type := mk {
  Port : string;
  DBPath : string;
  GeminiKey : string;
  UseMockAI : bool }.

(** [getEnv], over the process environment: [os.Getenv] gives the empty
    string for a variable that is not set. *)
Definition getEnv (environ : string -> string) (key defaultValue : string) : string :=
  let value := environ key in
  if negb (String.eqb value "") then value else defaultValue.

Definition LoadConfig (environ : string -> string) : Config :=
  mk (getEnv environ "PORT" "8080")
     (getEnv environ "DB_PATH" "./data.db")
     (getEnv environ "GEMINI_API_KEY" "")
     (String.eqb (getEnv environ "USE_MOCK_AI" "true") "true").

End config.

(** ** Command [main] *)

Module Gemini.

(** [NewGeminiService]: [dial] stands for [genai.NewClient] followed by
    the choice of the model, and gives the client or the error. *)
Definition NewGeminiService (dial : string -> result GeminiService.t) (apiKey : string)
  : result GeminiService.t :=
  if String.eqb apiKey "" then Err (errorString "API key is required")
  else match dial apiKey with
       | Err err => Err (Errorf_w "failed to create Gemini client" err)
       | Ok g => Ok g
       end.

End Gemini.

Module Strategy.

(** What the variable [aiService] of [main] holds: one of the two
    implementations of [AIServiceInterface]. *)
Inductive t : Type :=
| Mock (m : MockAIService.t)
| Generative (g : GeminiService.t).

(** The call [aiService.AnalyzeQuery(queryText, articles)] through the
    interface; [None] when the implementation panics. *)
Definition AnalyzeQuery (ToLower : string -> string) (s : t) (query : string)
    (articles : slice Article.t) : option (result ai.AIAnalysisResult) :=
  match s with
  | Mock m => Some (MockAIService.AnalyzeQuery ToLower m query articles)
  | Generative g => GeminiService.AnalyzeQuery g query articles
  end.

End Strategy.

Module main.

(** What [main] finds when it starts: the environment variables, the
    database file behind each path, the generative service, and the
    network: [listen addr] is the error [http.ListenAndServe] returns on
    that address, or [None] while it serves there. *)
Record Host : Type := mkHost {
  environ : string -> string;
  disk : string -> SQLiteDB.t;
  dial : string -> result GeminiService.t;
  listen : string -> option error }.

(** How [main] ends up: stopped by [log.Fatalf] with its message, or
    serving the handler on an address. *)
Inductive Outcome : Type :=
| Fatal (msg : string)
| Serving (addr : string) (h : SearchHandler.t SQLiteDB.t Strategy.t).

Definition main (host : Host) : Outcome :=
  let cfg := config.LoadConfig (environ host) in
  match SQLiteDB.OpenSQLiteDB (disk host (config.DBPath cfg)) with
  | Err err => Fatal ("Failed to initialize database: " ++ Error err)
  | Ok db =>
      match SQLiteDB.Initialize db with
      | (_, Some err) => Fatal ("Failed to initialize database schema: " ++ Error err)
      | (db, None) =>
          let serve aiService :=
            match listen host (":" ++ config.Port cfg) with
            | Some err => Fatal ("Server failed to start: " ++ Error err)
            | None =>
                Serving (":" ++ config.Port cfg)
                  (SearchHandler.NewSearchHandler
                     (SearchService.NewSearchService db aiService))
            end in
          if config.UseMockAI cfg || String.eqb (config.GeminiKey cfg) "" then
            serve (Strategy.Mock MockAIService.NewMockAIService)
          else
            match Gemini.NewGeminiService (dial host) (config.GeminiKey cfg) with
            | Err err => Fatal ("Failed to initialize Gemini AI service: " ++ Error err)
            | Ok g => serve (Strategy.Generative g)
            end
      end
  end.

End main.

(** ** Vocabulary of the properties *)

(** A byte string that consists of white space only: a sequence of
    encoded white-space runes. *)
Inductive blank : list ascii -> Prop :=
| blank_nil : blank []
| blank_ascii a l : strings.asciiSpace a = true -> blank l -> blank (a :: l)
| blank_two a b l : strings.space2 a b = true -> blank l -> blank (a :: b :: l)
| blank_three a b c l : strings.space3 a b c = true -> blank l -> blank (a :: b :: c :: l).

(** A decimal integer as a path segment spells it: an optional sign and at
    least one digit, nothing else. *)
Definition allDigits (s : string) : bool :=
  forallb (fun c => match strconv.digit c with Some _ => true | None => false end)
          (strings.bytes s).

Definition isDecimal (s : string) : bool :=
  let body :=
    match s with
    | EmptyString => s
    | String c s' => if Ascii.eqb c "-" || Ascii.eqb c "+" then s' else s
    end in
  negb (String.eqb body "") && allDigits body.

(** The bytes of a decimal number: a digit or the minus sign. *)
Definition numeric (c : ascii) : bool :=
  match strconv.digit c with
  | Some _ => true
  | None => Ascii.eqb c "-"
  end.

(** A digit sequence that starts with a digit other than zero. *)
Definition headNonzero (d : Decimal.uint) : Prop :=
  match d with
  | Decimal.Nil | Decimal.D0 _ => False
  | _ => True
  end.

(** The primary key of [articles]: no two rows share an id. *)
Definition unique_ids (db : SQLiteDB.t) : Prop :=
  NoDup (map Article.ID (SQLiteDB.articles db)).

(** [db'] is [db] after more statements: the tables only grew, by the
    given rows, and the settings are the same. *)
Definition grown (db db' : SQLiteDB.t) (newq : list Query.t) (news : list SQLiteDB.Row)
    (stmts : list SQLiteDB.Stmt) : Prop :=
  SQLiteDB.fault db' = SQLiteDB.fault db
  /\ SQLiteDB.clock db' = SQLiteDB.clock db
  /\ SQLiteDB.foreign_keys db' = SQLiteDB.foreign_keys db
  /\ SQLiteDB.schema db' = SQLiteDB.schema db
  /\ SQLiteDB.articles db' = SQLiteDB.articles db
  /\ SQLiteDB.queries db' = (SQLiteDB.queries db ++ newq)%list
  /\ SQLiteDB.search_results db' = (SQLiteDB.search_results db ++ news)%list
  /\ SQLiteDB.journal db' = (SQLiteDB.journal db ++ stmts)%list.

(** The five steps of processing a search query, and the message each
    wraps its failure in. *)
Inductive Step : Type :=
| StepCreateQuery
| StepGetArticles
| StepAnalyze
| StepSaveResult
| StepGetRelevant.

Definition stepMessage (st : Step) : string :=
  match st with
  | StepCreateQuery => "failed to create query"
  | StepGetArticles => "failed to get articles"
  | StepAnalyze => "failed to analyze query"
  | StepSaveResult => "failed to save search result"
  | StepGetRelevant => "failed to get relevant articles"
  end.

(** The statements a complete run sends, in order; the last is skipped
    when there is no relevant ID. *)
Definition fullTrace (ids : slice int) : list SQLiteDB.Stmt :=
  [SQLiteDB.InsertQuery; SQLiteDB.SelectQueryByID; SQLiteDB.SelectArticles;
   SQLiteDB.InsertSearchResult; SQLiteDB.SelectSearchResultByID]
  ++ (if len ids =? 0 then [] else [SQLiteDB.SelectArticlesIn]).

(** An ID that is the id of a row of the article table. *)
Definition stored (articles : list Article.t) (i : int) : bool :=
  existsb (fun a => Article.ID a =? i) articles.

(** What a run that failed at a step left behind: the rows written and
    the statements sent before it stopped. *)
Definition aborted (st : Step) (q : string) (newq : list Query.t)
    (news : list SQLiteDB.Row) (stmts : list SQLiteDB.Stmt) : Prop :=
  match st with
  | StepCreateQuery =>
      news = []
      /\ ((newq = [] /\ stmts = [SQLiteDB.InsertQuery])
          \/ (exists qrow, newq = [qrow] /\ Query.Query qrow = q
                            /\ stmts = [SQLiteDB.InsertQuery; SQLiteDB.SelectQueryByID]))
  | StepGetArticles | StepAnalyze =>
      news = []
      /\ exists qrow, newq = [qrow] /\ Query.Query qrow = q
                       /\ stmts = [SQLiteDB.InsertQuery; SQLiteDB.SelectQueryByID;
                                   SQLiteDB.SelectArticles]
  | StepSaveResult =>
      exists qrow,
        newq = [qrow] /\ Query.Query qrow = q
        /\ ((news = []
             /\ stmts = [SQLiteDB.InsertQuery; SQLiteDB.SelectQueryByID;
                         SQLiteDB.SelectArticles; SQLiteDB.InsertSearchResult])
            \/ (exists srow,
                  news = [srow] /\ SQLiteDB.query_id srow = Query.ID qrow
                  /\ stmts = [SQLiteDB.InsertQuery; SQLiteDB.SelectQueryByID;
                              SQLiteDB.SelectArticles; SQLiteDB.InsertSearchResult;
                              SQLiteDB.SelectSearchResultByID]))
  | StepGetRelevant =>
      exists qrow srow,
        newq = [qrow] /\ Query.Query qrow = q
        /\ news = [srow] /\ SQLiteDB.query_id srow = Query.ID qrow
        /\ stmts = [SQLiteDB.InsertQuery; SQLiteDB.SelectQueryByID;
                    SQLiteDB.SelectArticles; SQLiteDB.InsertSearchResult;
                    SQLiteDB.SelectSearchResultByID; SQLiteDB.SelectArticlesIn]
  end.


(** The rows [GetArticlesByIDs] answers with when the engine is up. *)
Definition relevantRows (ids : slice int) (articles : list Article.t) : slice Article.t :=
  if len ids =? 0 then Some []
  else collect (filter (fun a => SQLiteDB.member (Article.ID a) (elems ids)) articles).

(** What a run that went through did: one Query row and one SearchResult
    row written, the analysis called on the query text and the article
    table, and the response assembled from them. *)
Definition completed {AI : Type} `{ai.AIServiceInterface AI} (aiService : AI)
    (q : string) (db : SQLiteDB.t) (resp : SearchResponse.t)
    (newq : list Query.t) (news : list SQLiteDB.Row) (stmts : list SQLiteDB.Stmt) : Prop :=
  exists qrow srow aiResult,
    newq = [qrow] /\ news = [srow]
    /\ Query.Query qrow = q
    /\ ai.AnalyzeQuery aiService q (collect (SQLiteDB.articles db)) = Ok aiResult
    /\ SQLiteDB.query_id srow = Query.ID qrow
    /\ SQLiteDB.ai_summary_answer srow = ai.Summary aiResult
    /\ json.Marshal (ai.RelevantArticles aiResult) = Ok (SQLiteDB.ai_relevant_articles srow)
    /\ stmts = fullTrace (ai.RelevantArticles aiResult)
    /\ resp = SearchResponse.mk q (ai.Summary aiResult)
                (relevantRows (ai.RelevantArticles aiResult) (SQLiteDB.articles db))
                (Query.ID qrow) (Query.CreatedAt qrow).

(** A printable ASCII byte other than the space. *)
Definition visible (c : ascii) : bool :=
  let n := nat_of_ascii c in ((33 <=? n) && (n <=? 126))%nat.

(** A text that starts and ends with such a byte, so that trimming leaves
    it alone. *)
Definition tidy (s : string) : bool :=
  match strings.bytes s with
  | [] => false
  | a :: l => visible a && visible (last l a)
  end.

(** A text on one line. *)
Definition oneLine (s : string) : bool :=
  forallb (fun c => negb (Ascii.eqb c "010")) (strings.bytes s).

(** A call of one method of [*SQLiteDB] with its arguments, and the
    database the call leaves behind. *)
Inductive Call : Type :=
| CallInitialize
| CallGetAllArticles
| CallGetArticleByID (id : int)
| CallGetArticlesByIDs (ids : slice int)
| CallCreateQuery (query : string)
| CallGetQueryByID (id : int)
| CallCreateSearchResult (queryID : int) (summary : string) (ids : slice int)
| CallGetSearchResultByID (id : int)
| CallGetSearchResultByQueryID (queryID : int).

Definition after (c : Call) (db : SQLiteDB.t) : SQLiteDB.t :=
  match c with
  | CallInitialize => fst (SQLiteDB.Initialize db)
  | CallGetAllArticles => fst (SQLiteDB.GetAllArticles db)
  | CallGetArticleByID id => fst (SQLiteDB.GetArticleByID id db)
  | CallGetArticlesByIDs ids => fst (SQLiteDB.GetArticlesByIDs ids db)
  | CallCreateQuery query => fst (SQLiteDB.CreateQuery query db)
  | CallGetQueryByID id => fst (SQLiteDB.GetQueryByID id db)
  | CallCreateSearchResult queryID summary ids =>
      fst (SQLiteDB.CreateSearchResult queryID summary ids db)
  | CallGetSearchResultByID id => fst (SQLiteDB.GetSearchResultByID id db)
  | CallGetSearchResultByQueryID queryID =>
      fst (SQLiteDB.GetSearchResultByQueryID queryID db)
  end.

(** The tables of [db'] are those of [db] with rows added at the end. *)
Definition extends (db db' : SQLiteDB.t) : Prop :=
  (exists a, SQLiteDB.articles db' = SQLiteDB.articles db ++ a)%list
  /\ (exists q, SQLiteDB.queries db' = SQLiteDB.queries db ++ q)%list
  /\ (exists r, SQLiteDB.search_results db' = SQLiteDB.search_results db ++ r)%list.

(** The engine serves the next [k] statements sent to [db]. *)
Definition available (db : SQLiteDB.t) (k : nat) : Prop :=
  forall i, (i < k)%nat ->
            SQLiteDB.fault db (List.length (SQLiteDB.journal db) + i) = None.

(** ** Sample runs *)

Module Sample.

Definition healthy : nat -> option error := fun _ => None.
Definition ticks : nat -> Time := fun n => Z.of_nat n.
Definition outage : error := errorString "disk I/O error".

(** A database file just opened on a healthy engine, and the same after
    [Initialize]. *)
Definition opened : SQLiteDB.t :=
  match SQLiteDB.NewSQLiteDB healthy ticks with
  | Ok db => db
  | Err _ => SQLiteDB.empty healthy ticks
  end.

Definition fresh : SQLiteDB.t := fst (SQLiteDB.Initialize opened).

(** The same database on an engine that fails every statement from the
    [n]-th on. *)
Definition failingFrom (n : nat) (db : SQLiteDB.t) : SQLiteDB.t :=
  SQLiteDB.mk (fun k => if (n <=? k)%nat then Some outage else None)
    (SQLiteDB.clock db) (SQLiteDB.foreign_keys db) (SQLiteDB.schema db)
    (SQLiteDB.articles db) (SQLiteDB.queries db) (SQLiteDB.search_results db)
    (SQLiteDB.journal db).

Definition nl : string := GeminiService.nl.

(** A generative client that answers every prompt with the same text. *)
Definition scripted (reply : string) : GeminiService.Replying :=
  GeminiService.replying (GeminiService.mk (fun _ => Ok [Some [reply]])) (fun _ => I).

Definition mock : ai.AIServiceInterface MockAIService.t :=
  MockAIService.MockAIService_AIServiceInterface strings.ToLowerASCII.

(** A machine with nothing configured: no environment variable, new
    database files on a healthy engine, and no way to the generative
    service. *)
Definition bare : main.Host :=
  main.mkHost (fun _ => EmptyString) (fun _ => SQLiteDB.empty healthy ticks)
    (fun _ => Err outage) (fun _ => None).

(** The same with the generative strategy asked for and reachable. *)
Definition configured : main.Host :=
  main.mkHost
    (fun key => if String.eqb key "USE_MOCK_AI" then "false"
                else if String.eqb key "GEMINI_API_KEY" then "secret"
                else EmptyString)
    (fun _ => SQLiteDB.empty healthy ticks)
    (fun _ => Ok (GeminiService.client (scripted "SUMMARY: ok")))
    (fun _ => None).

End Sample.

(** * Properties *)

Open Scope list_scope.

(** ** Slices *)

Lemma elems_collect {A} (l : list A) : elems (collect l) = l.
Proof. destruct l; reflexivity. Qed.

Lemma collect_app_one {A} (l : list A) (x : A) : collect (l ++ [x]) = Some (l ++ [x]).
Proof. destruct l; reflexivity. Qed.

Lemma append_collect {A} (l : list A) (x : A) :
  append (collect l) x = collect (l ++ [x]).
Proof. unfold append. rewrite elems_collect, collect_app_one. reflexivity. Qed.

(** ** The keyword heuristic *)

Section Heuristic.

Variable ToLower : string -> string.

(** The chain of [else if] tests is one disjunction over the keyword
    list: the first test that succeeds appends, the others are skipped. *)
Lemma visit_matches (q : string) (acc : slice int) (a : Article.t) :
  MockAIService.visit ToLower (ToLower q) acc a
  = if MockAIService.matches ToLower q a then append acc (Article.ID a) else acc.
Proof.
  unfold MockAIService.visit, MockAIService.matches, MockAIService.keywords.
  cbn [existsb].
  repeat match goal with
         | |- context [if (?x && ?y) then _ else _] =>
             destruct (x && y); cbn [orb]; try reflexivity
         end.
Qed.

Lemma reference_ids_cons (q : string) (a : Article.t) (rest : list Article.t) :
  MockAIService.reference_ids ToLower q (a :: rest)
  = if MockAIService.matches ToLower q a
    then Article.ID a :: MockAIService.reference_ids ToLower q rest
    else MockAIService.reference_ids ToLower q rest.
Proof.
  unfold MockAIService.reference_ids.
  change (filter (MockAIService.matches ToLower q) (a :: rest))
    with (if MockAIService.matches ToLower q a
          then a :: filter (MockAIService.matches ToLower q) rest
          else filter (MockAIService.matches ToLower q) rest).
  destruct (MockAIService.matches ToLower q a); reflexivity.
Qed.

Lemma visit_fold (q : string) (articles : list Article.t) (acc : list int) :
  fold_left (MockAIService.visit ToLower (ToLower q)) articles (collect acc)
  = collect (acc ++ MockAIService.reference_ids ToLower q articles).
Proof.
  revert acc. induction articles as [|a rest IH]; intros acc.
  - unfold MockAIService.reference_ids. cbn [filter map fold_left].
    rewrite app_nil_r. reflexivity.
  - cbn [fold_left]. rewrite visit_matches, reference_ids_cons.
    destruct (MockAIService.matches ToLower q a).
    + rewrite append_collect, IH. rewrite <- app_assoc. reflexivity.
    + apply IH.
Qed.

Lemma reference_ids_In (q : string) (articles : list Article.t) (i : int) :
  In i (MockAIService.reference_ids ToLower q articles) ->
  In i (map Article.ID articles).
Proof.
  unfold MockAIService.reference_ids. intros Hin.
  apply in_map_iff in Hin. destruct Hin as [b [Hb Hin]].
  apply filter_In in Hin. apply in_map_iff. exists b. tauto.
Qed.

Lemma reference_ids_sublist (q : string) (articles : list Article.t) :
  NoDup (map Article.ID articles) ->
  NoDup (MockAIService.reference_ids ToLower q articles).
Proof.
  induction articles as [|a rest IH]; intros Hnd.
  - constructor.
  - rewrite reference_ids_cons.
    inversion Hnd as [|x l Hnotin Hrest]; subst.
    destruct (MockAIService.matches ToLower q a); auto.
    constructor; auto.
    intros Hin. apply Hnotin. eapply reference_ids_In. exact Hin.
Qed.

Lemma reference_ids_length (q : string) (articles : list Article.t) :
  (List.length (MockAIService.reference_ids ToLower q articles)
   <= List.length articles)%nat.
Proof.
  unfold MockAIService.reference_ids. rewrite length_map. apply filter_length_le.
Qed.

Lemma AnalyzeQuery_eq (m : MockAIService.t) (q : string) (articles : slice Article.t) :
  MockAIService.AnalyzeQuery ToLower m q articles
  = Ok (ai.mkResult (MockAIService.reference_summary ToLower q (elems articles))
          (collect (MockAIService.reference_ids ToLower q (elems articles)))).
Proof.
  unfold MockAIService.AnalyzeQuery, MockAIService.reference_summary.
  change (@None (list int)) with (@collect int []).
  rewrite visit_fold. cbn [List.app].
  destruct (MockAIService.reference_ids ToLower q (elems articles)) as [|i l];
    reflexivity.
Qed.

End Heuristic.

(** C2: the heuristic strategy computes the reference definition: the IDs
    of the articles in which a recognized keyword of the query occurs, in
    article order, and the summary chosen by the fixed priority. *)
Theorem AnalyzeQuery_reference (ToLower : string -> string) (m : MockAIService.t)
    (query : string) (articles : slice Article.t) :
  exists r,
    MockAIService.AnalyzeQuery ToLower m query articles = Ok r
    /\ elems (ai.RelevantArticles r)
       = MockAIService.reference_ids ToLower query (elems articles)
    /\ ai.Summary r = MockAIService.reference_summary ToLower query (elems articles)
    /\ (ai.RelevantArticles r = None
        <-> MockAIService.reference_ids ToLower query (elems articles) = []).
Proof.
  rewrite AnalyzeQuery_eq. eexists. split; [reflexivity|]. cbn.
  rewrite elems_collect. repeat split.
  - destruct (MockAIService.reference_ids ToLower query (elems articles));
      [reflexivity | discriminate].
  - intros ->. reflexivity.
Qed.

(** C10: over articles with pairwise-distinct IDs the heuristic returns a
    duplicate-free list: an article is appended at most once, however many
    keywords it matches. *)
Theorem AnalyzeQuery_no_duplicates (ToLower : string -> string) (m : MockAIService.t)
    (query : string) (articles : slice Article.t) :
  NoDup (map Article.ID (elems articles)) ->
  exists r,
    MockAIService.AnalyzeQuery ToLower m query articles = Ok r
    /\ NoDup (elems (ai.RelevantArticles r))
    /\ (List.length (elems (ai.RelevantArticles r)) <= List.length (elems articles))%nat.
Proof.
  intros Hnd. rewrite AnalyzeQuery_eq. eexists. split; [reflexivity|]. cbn.
  rewrite elems_collect. split.
  - apply reference_ids_sublist. exact Hnd.
  - apply reference_ids_length.
Qed.

(** ** The response parser of the generative strategy *)

Lemma articleExists_existsb (id : int) (articles : list Article.t) :
  GeminiService.articleExists id articles
  = existsb (fun a => Article.ID a =? id) articles.
Proof.
  induction articles as [|a rest IH]; cbn; [reflexivity|].
  rewrite IH. destruct (Article.ID a =? id); reflexivity.
Qed.

Lemma addToken_valid (articles : slice Article.t) (acc : list int) (tok : string) :
  GeminiService.addToken articles (collect acc) tok
  = collect (acc ++ match GeminiService.validToken (elems articles) tok with
                    | Some id => [id]
                    | None => []
                    end).
Proof.
  unfold GeminiService.addToken, GeminiService.validToken.
  destruct (strconv.Atoi (strings.TrimSpace tok)) as [id|e].
  - rewrite articleExists_existsb. destruct (existsb _ _).
    + apply append_collect.
    + rewrite app_nil_r. reflexivity.
  - rewrite app_nil_r. reflexivity.
Qed.

Lemma addToken_fold (articles : slice Article.t) (toks : list string) (acc : list int) :
  fold_left (GeminiService.addToken articles) toks (collect acc)
  = collect (acc ++ GeminiService.validTokens (elems articles) toks).
Proof.
  revert acc. induction toks as [|tok rest IH]; intros acc; cbn [fold_left].
  - cbn. rewrite app_nil_r. reflexivity.
  - rewrite addToken_valid, IH. cbn [GeminiService.validTokens].
    destruct (GeminiService.validToken (elems articles) tok);
      rewrite <- app_assoc; reflexivity.
Qed.

(** The two prefixes exclude each other, so the [else if] never hides a
    list line behind a summary line. *)
Lemma prefixes_disjoint (line : string) :
  strings.HasPrefix line "SUMMARY:" = true ->
  strings.HasPrefix line "RELEVANT_ARTICLES:" = false.
Proof.
  destruct line as [|c rest]; [discriminate|]. cbn.
  destruct (Ascii.eqb_spec c "S"); [subst; reflexivity | discriminate].
Qed.

Lemma parseLine_payload (articles : slice Article.t) (summary : string)
    (acc : list int) (line : string) :
  GeminiService.parseLine articles (summary, collect acc) line
  = (match GeminiService.payload "SUMMARY:" line with
     | Some p => p
     | None => summary
     end,
     collect (acc ++ match GeminiService.payload "RELEVANT_ARTICLES:" line with
                     | Some p => GeminiService.lineIDs (elems articles) p
                     | None => []
                     end)).
Proof.
  unfold GeminiService.parseLine, GeminiService.payload, strings.TrimPrefix.
  destruct (strings.HasPrefix (strings.TrimSpace line) "SUMMARY:") eqn:Hs.
  - rewrite (prefixes_disjoint _ Hs), app_nil_r. reflexivity.
  - destruct (strings.HasPrefix (strings.TrimSpace line) "RELEVANT_ARTICLES:") eqn:Hr.
    + unfold GeminiService.lineIDs.
      destruct (String.eqb _ "none"); cbn [negb andb orb].
      * rewrite app_nil_r. reflexivity.
      * destruct (String.eqb _ ""); cbn [negb].
        -- rewrite app_nil_r. reflexivity.
        -- rewrite addToken_fold. reflexivity.
    + rewrite app_nil_r. reflexivity.
Qed.

Lemma last_cons {A} (l : list A) (p d : A) : last (p :: l) d = last l p.
Proof.
  revert p d. induction l as [|x l IH]; intros p d; [reflexivity|].
  change (last (p :: x :: l) d) with (last (x :: l) d).
  rewrite !IH. reflexivity.
Qed.

Lemma parseLine_fold (articles : slice Article.t) (lines : list string)
    (summary : string) (acc : list int) :
  fold_left (GeminiService.parseLine articles) lines (summary, collect acc)
  = (last (GeminiService.payloads "SUMMARY:" lines) summary,
     collect (acc ++ GeminiService.reference_ids (elems articles) lines)).
Proof.
  revert summary acc. induction lines as [|line rest IH]; intros summary acc.
  - cbn. rewrite app_nil_r. reflexivity.
  - cbn [fold_left]. rewrite parseLine_payload, IH.
    unfold GeminiService.reference_ids. cbn [GeminiService.payloads].
    f_equal.
    + destruct (GeminiService.payload "SUMMARY:" line) as [p|]; [|reflexivity].
      symmetry. apply last_cons.
    + destruct (GeminiService.payload "RELEVANT_ARTICLES:" line) as [p|].
      * cbn [flat_map]. rewrite <- app_assoc. reflexivity.
      * rewrite app_nil_r. reflexivity.
Qed.

Lemma validTokens_In (articles : list Article.t) (toks : list string) (id : int) :
  In id (GeminiService.validTokens articles toks) ->
  In id (map Article.ID articles)
  /\ exists tok, In tok toks /\ strconv.Atoi (strings.TrimSpace tok) = Ok id.
Proof.
  induction toks as [|tok rest IH]; cbn [GeminiService.validTokens]; [intros []|].
  destruct (GeminiService.validToken articles tok) as [j|] eqn:Hv.
  - intros [<-|Hin].
    + unfold GeminiService.validToken in Hv.
      destruct (strconv.Atoi (strings.TrimSpace tok)) as [k|] eqn:Ha; [|discriminate].
      destruct (existsb _ _) eqn:He; [|discriminate].
      injection Hv as ->. split.
      * apply existsb_exists in He. destruct He as [a [Ha1 Ha2]].
        apply Z.eqb_eq in Ha2. subst. apply in_map. exact Ha1.
      * exists tok. split; [left; reflexivity | exact Ha].
    + destruct (IH Hin) as [H1 [t [Ht1 Ht2]]]. split; [exact H1|].
      exists t. split; [right; exact Ht1 | exact Ht2].
  - intros Hin. destruct (IH Hin) as [H1 [t [Ht1 Ht2]]]. split; [exact H1|].
    exists t. split; [right; exact Ht1 | exact Ht2].
Qed.

Lemma reference_ids_valid (articles : list Article.t) (lines : list string) (id : int) :
  In id (GeminiService.reference_ids articles lines) ->
  In id (map Article.ID articles).
Proof.
  unfold GeminiService.reference_ids. intros Hin.
  apply in_flat_map in Hin. destruct Hin as [p [_ Hin]].
  unfold GeminiService.lineIDs in Hin.
  destruct (_ || _); [destruct Hin|].
  apply validTokens_In in Hin. tauto.
Qed.

Lemma reference_summary_nonempty (lines : list string) :
  GeminiService.reference_summary lines <> "".
Proof.
  unfold GeminiService.reference_summary.
  destruct (last _ _); discriminate.
Qed.

(** C9: the response parser returns a result for every response text and
    article set, never an error: the summary is the text of the last
    [SUMMARY:] line, or the fixed fallback when there is none or it is
    empty; the IDs are those of the [RELEVANT_ARTICLES:] lines, wherever
    the lines stand, with [none], an empty list, malformed tokens and IDs
    of no supplied article contributing nothing. *)
Theorem parseResponse_total (response : string) (articles : slice Article.t) :
  let lines := strings.Split response "010"%char in
  exists r,
    GeminiService.parseResponse response articles = Ok r
    /\ ai.Summary r = GeminiService.reference_summary lines
    /\ ai.RelevantArticles r
       = collect (GeminiService.reference_ids (elems articles) lines)
    /\ ai.Summary r <> ""
    /\ (GeminiService.payloads "SUMMARY:" lines = []
        -> ai.Summary r = GeminiService.fallbackSummary)
    /\ (forall id, In id (elems (ai.RelevantArticles r))
                   -> In id (map Article.ID (elems articles))).
Proof.
  intros lines. unfold GeminiService.parseResponse. fold lines.
  change (@None (list int)) with (@collect int []).
  rewrite parseLine_fold. cbn [List.app].
  eexists. split; [reflexivity|]. cbn [ai.Summary ai.RelevantArticles].
  assert (Hsum : (if String.eqb (last (GeminiService.payloads "SUMMARY:" lines) "") ""
                  then GeminiService.fallbackSummary
                  else last (GeminiService.payloads "SUMMARY:" lines) "")
                 = GeminiService.reference_summary lines).
  { unfold GeminiService.reference_summary.
    destruct (last (GeminiService.payloads "SUMMARY:" lines) ""); reflexivity. }
  rewrite Hsum. repeat split.
  - apply reference_summary_nonempty.
  - intros Hnone. unfold GeminiService.reference_summary. rewrite Hnone. reflexivity.
  - intros id. rewrite elems_collect. apply reference_ids_valid.
Qed.

(** ** White space *)

Ltac bytes_arith :=
  repeat match goal with
         | H : _ = true |- _ =>
             first [ apply andb_true_iff in H; destruct H
                   | apply orb_true_iff in H; destruct H
                   | apply Nat.eqb_eq in H
                   | apply Nat.leb_le in H ]
         end.

Lemma space2_not_ascii (a b : ascii) :
  strings.space2 a b = true -> strings.asciiSpace a = false.
Proof.
  unfold strings.space2, strings.asciiSpace. intros Hs.
  apply andb_true_iff in Hs. destruct Hs as [Ha _].
  apply Nat.eqb_eq in Ha. rewrite Ha. reflexivity.
Qed.

Lemma space3_not_ascii (a b c : ascii) :
  strings.space3 a b c = true ->
  strings.asciiSpace a = false /\ strings.space2 a b = false.
Proof.
  unfold strings.space3, strings.asciiSpace, strings.space2. intros Hs.
  bytes_arith;
    repeat match goal with
           | H : nat_of_ascii _ = _ |- _ => rewrite H; clear H
           end; split; reflexivity.
Qed.

Lemma trimLeft_blank (l : list ascii) : blank l -> strings.trimLeft l = [].
Proof.
  induction 1 as [|a l Ha _ IH|a b l Hab _ IH|a b c l Habc _ IH].
  - reflexivity.
  - cbn [strings.trimLeft]. rewrite Ha. exact IH.
  - cbn [strings.trimLeft]. rewrite (space2_not_ascii _ _ Hab), Hab. exact IH.
  - cbn [strings.trimLeft].
    destruct (space3_not_ascii _ _ _ Habc) as [H1 H2].
    rewrite H1, H2, Habc. exact IH.
Qed.

Lemma TrimSpace_blank (s : string) :
  blank (strings.bytes s) -> strings.TrimSpace s = "".
Proof.
  intros Hb. unfold strings.TrimSpace. rewrite (trimLeft_blank _ Hb). reflexivity.
Qed.

(** ** The HTTP surface *)

(** C3: a search request whose query text is empty or white space only is
    answered 400 with the handler, its service and its database exactly
    as they were: the orchestration is not called and no Query row is
    written, whatever database and analysis component are plugged in. *)
Theorem SearchQuery_blank_rejected {DB AI : Type}
    `{database.DatabaseInterface DB} `{ai.AIServiceInterface AI}
    (h : SearchHandler.t DB AI) (req : SearchRequest.t) :
  blank (strings.bytes (SearchRequest.Query req)) ->
  SearchHandler.SearchQuery h (Ok req)
  = (h, SearchHandler.sendErrorResponse SearchHandler.StatusBadRequest
          "Query is required" "")
  /\ SearchHandler.Code (snd (SearchHandler.SearchQuery h (Ok req))) = 400.
Proof.
  intros Hb. unfold SearchHandler.SearchQuery.
  rewrite (TrimSpace_blank _ Hb). cbn. split; reflexivity.
Qed.

(** ** Decimal integers *)

Lemma digits_not_allDigits (s : string) (acc : Z) :
  allDigits s = false -> strconv.digits s acc = None.
Proof.
  revert acc. unfold allDigits.
  induction s as [|c s IH]; intros acc; cbn; [discriminate|].
  destruct (strconv.digit c); cbn; [apply IH | reflexivity].
Qed.

Lemma unsigned_not_decimal (s : string) :
  negb (String.eqb s "") && allDigits s = false -> strconv.unsigned s = None.
Proof.
  destruct s as [|c s]; [reflexivity|]. cbn [String.eqb negb andb].
  intros Hd. unfold strconv.unsigned. apply digits_not_allDigits. exact Hd.
Qed.

(** A path segment that is not an optionally signed digit string is
    rejected by [strconv.Atoi]. *)
Lemma Atoi_not_decimal (s : string) :
  isDecimal s = false -> exists e, strconv.Atoi s = Err e.
Proof.
  unfold isDecimal, strconv.Atoi, strconv.splitSign.
  destruct s as [|c s].
  - intros _. eexists. reflexivity.
  - destruct (Ascii.eqb c "-"); cbn [orb].
    + intros Hd. rewrite (unsigned_not_decimal _ Hd). eexists. reflexivity.
    + destruct (Ascii.eqb c "+").
      * intros Hd. rewrite (unsigned_not_decimal _ Hd). eexists. reflexivity.
      * intros Hd. rewrite (unsigned_not_decimal _ Hd). eexists. reflexivity.
Qed.

(** ** Fetching one article over HTTP *)

Lemma find_absent {A} (f : A -> bool) (l : list A) :
  (forall a, In a l -> f a = false) -> find f l = None.
Proof.
  induction l as [|x l IH]; intros Hf; cbn; [reflexivity|].
  rewrite (Hf x (or_introl eq_refl)). apply IH. intros a Ha. apply Hf. right. exact Ha.
Qed.

Lemma GetArticleByID_found (id : int) (db db' : SQLiteDB.t) (a : Article.t) :
  SQLiteDB.GetArticleByID id db = (db', Ok a) ->
  In a (SQLiteDB.articles db) /\ Article.ID a = id.
Proof.
  unfold SQLiteDB.GetArticleByID, SQLiteDB.send.
  destruct (SQLiteDB.fault db _); [discriminate|].
  destruct (SQLiteDB.schema db); [|discriminate]. cbn.
  destruct (find _ _) as [b|] eqn:Hf; [|discriminate].
  intros Heq. injection Heq as _ ->.
  apply find_some in Hf. destruct Hf as [Hin Hid].
  apply Z.eqb_eq in Hid. split; assumption.
Qed.

Lemma GetArticleByID_absent (id : int) (db : SQLiteDB.t) :
  (forall a, In a (SQLiteDB.articles db) -> Article.ID a <> id) ->
  exists e, snd (SQLiteDB.GetArticleByID id db) = Err e.
Proof.
  intros Habs. destruct (SQLiteDB.GetArticleByID id db) as [db' [a|e]] eqn:Hg.
  - apply GetArticleByID_found in Hg. destruct Hg as [Hin Hid].
    exfalso. exact (Habs a Hin Hid).
  - exists e. reflexivity.
Qed.

(** C8, as the code has it: a segment that is not a decimal integer, or
    that [strconv.Atoi] rejects for any reason, is answered 400 without
    touching the service; an integer with no article is answered 404; so
    is every failed lookup, a storage failure included; 200 is only ever
    answered with a stored article of that id, and 500 never. *)
Theorem GetArticle_status {AI : Type} `{ai.AIServiceInterface AI}
    (h : SearchHandler.t SQLiteDB.t AI) (idStr : string) :
  let db := SearchService.db (SearchHandler.searchService h) in
  let resp := snd (SearchHandler.GetArticle h idStr) in
  (isDecimal idStr = false ->
   SearchHandler.GetArticle h idStr
   = (h, SearchHandler.sendErrorResponse SearchHandler.StatusBadRequest
           "Invalid article ID" ""))
  /\ (forall e, strconv.Atoi idStr = Err e ->
        SearchHandler.GetArticle h idStr
        = (h, SearchHandler.sendErrorResponse SearchHandler.StatusBadRequest
                "Invalid article ID" ""))
  /\ (forall id, strconv.Atoi idStr = Ok id ->
        (forall a, In a (SQLiteDB.articles db) -> Article.ID a <> id) ->
        SearchHandler.Code resp = 404)
  /\ (forall id e, strconv.Atoi idStr = Ok id ->
        snd (SQLiteDB.GetArticleByID id db) = Err e ->
        SearchHandler.Code resp = 404)
  /\ (SearchHandler.Code resp = 200 ->
      exists id a, strconv.Atoi idStr = Ok id
                   /\ In a (SQLiteDB.articles db) /\ Article.ID a = id
                   /\ SearchHandler.Body resp = SearchHandler.ArticleBody a)
  /\ SearchHandler.Code resp <> 500.
Proof.
  intros db resp.
  assert (Hfail : forall id e, strconv.Atoi idStr = Ok id ->
            snd (SQLiteDB.GetArticleByID id db) = Err e ->
            SearchHandler.Code resp = 404).
  { intros id e Ha Hg. subst resp. unfold SearchHandler.GetArticle. rewrite Ha.
    unfold SearchService.GetArticleByID, SearchService.run. cbn.
    fold db. destruct (SQLiteDB.GetArticleByID id db) as [db' r].
    cbn in Hg. subst r. reflexivity. }
  repeat split.
  - intros Hd. destruct (Atoi_not_decimal _ Hd) as [e He].
    unfold SearchHandler.GetArticle. rewrite He. reflexivity.
  - intros e He. unfold SearchHandler.GetArticle. rewrite He. reflexivity.
  - intros id Ha Habs. destruct (GetArticleByID_absent id db Habs) as [e He].
    exact (Hfail id e Ha He).
  - exact Hfail.
  - subst resp. unfold SearchHandler.GetArticle.
    destruct (strconv.Atoi idStr) as [id|e]; [|cbn; discriminate].
    unfold SearchService.GetArticleByID, SearchService.run. cbn. fold db.
    destruct (SQLiteDB.GetArticleByID id db) as [db' [a|e]] eqn:Hg; cbn;
      [|discriminate].
    intros _. exists id, a. apply GetArticleByID_found in Hg.
    destruct Hg. repeat split; assumption.
  - subst resp. unfold SearchHandler.GetArticle.
    destruct (strconv.Atoi idStr) as [id|e]; [|cbn; discriminate].
    unfold SearchService.GetArticleByID, SearchService.run. cbn. fold db.
    destruct (SQLiteDB.GetArticleByID id db) as [db' [a|e]]; cbn; discriminate.
Qed.

(** C8, where the specification's sentence fails: with article 1 stored
    and the engine down, the lookup fails with the engine's error and the
    answer is 404, not 500. *)
Lemma GetArticle_outage_is_404 :
  let db := Sample.failingFrom 0 Sample.fresh in
  let h := SearchHandler.NewSearchHandler
             (SearchService.NewSearchService db (Sample.scripted "")) in
  In 1 (map Article.ID (SQLiteDB.articles db))
  /\ snd (SQLiteDB.GetArticleByID 1 db) = Err Sample.outage
  /\ SearchHandler.Code (snd (SearchHandler.GetArticle h "1")) = 404
  /\ SearchHandler.Code (snd (SearchHandler.GetArticle h "1")) <> 500.
Proof.
  cbv zeta. split; [|split; [|split]].
  - vm_compute. left. reflexivity.
  - vm_compute. reflexivity.
  - vm_compute. reflexivity.
  - vm_compute. discriminate.
Qed.

(** ** The tables only grow *)

Lemma grown_refl (db : SQLiteDB.t) : grown db db [] [] [].
Proof. unfold grown. rewrite !app_nil_r. repeat split; reflexivity. Qed.

Lemma grown_trans (db1 db2 db3 : SQLiteDB.t) q1 q2 s1 s2 j1 j2 :
  grown db1 db2 q1 s1 j1 -> grown db2 db3 q2 s2 j2 ->
  grown db1 db3 (q1 ++ q2) (s1 ++ s2) (j1 ++ j2).
Proof.
  unfold grown. intros (F1 & C1 & K1 & S1 & A1 & Q1 & R1 & J1)
                       (F2 & C2 & K2 & S2 & A2 & Q2 & R2 & J2).
  rewrite F2, C2, K2, S2, A2, Q2, R2, J2, Q1, R1, J1, !app_assoc.
  repeat split; assumption.
Qed.

Lemma send_grown (st : SQLiteDB.Stmt) (db db' : SQLiteDB.t) (r : option error) :
  SQLiteDB.send st db = (db', r) -> grown db db' [] [] [st].
Proof.
  unfold SQLiteDB.send.
  assert (Hg : grown db (SQLiteDB.with_journal db (SQLiteDB.journal db ++ [st])) [] [] [st]).
  { unfold grown. cbn. rewrite !app_nil_r. repeat split; reflexivity. }
  destruct (SQLiteDB.fault db _).
  - intros Heq. injection Heq as <- _. exact Hg.
  - destruct st; try destruct (SQLiteDB.schema db);
      intros Heq; injection Heq as <- _; exact Hg.
Qed.

(** A statement on a table goes through only when the engine is up and
    the schema exists. *)
Lemma send_ok (st : SQLiteDB.Stmt) (db db' : SQLiteDB.t) :
  SQLiteDB.send st db = (db', None) ->
  SQLiteDB.fault db (List.length (SQLiteDB.journal db)) = None.
Proof.
  unfold SQLiteDB.send. destruct (SQLiteDB.fault db _); [discriminate | reflexivity].
Qed.

Lemma send_healthy (st : SQLiteDB.Stmt) (db : SQLiteDB.t) :
  SQLiteDB.fault db (List.length (SQLiteDB.journal db)) = None ->
  SQLiteDB.schema db = true ->
  SQLiteDB.send st db
  = (SQLiteDB.with_journal db (SQLiteDB.journal db ++ [st]), None).
Proof.
  unfold SQLiteDB.send. intros -> ->. destruct st; reflexivity.
Qed.

(** ** Initialization *)

Lemma createTables_effect (db db' : SQLiteDB.t) (r : option error) :
  SQLiteDB.createTables db = (db', r) ->
  SQLiteDB.articles db' = SQLiteDB.articles db
  /\ SQLiteDB.queries db' = SQLiteDB.queries db
  /\ SQLiteDB.search_results db' = SQLiteDB.search_results db
  /\ SQLiteDB.fault db' = SQLiteDB.fault db
  /\ SQLiteDB.journal db' = SQLiteDB.journal db ++ [SQLiteDB.CreateTables]
  /\ (SQLiteDB.schema db = true -> SQLiteDB.schema db' = true)
  /\ (r = None -> SQLiteDB.schema db' = true)
  /\ (SQLiteDB.fault db (List.length (SQLiteDB.journal db)) = None -> r = None).
Proof.
  unfold SQLiteDB.createTables, SQLiteDB.send.
  destruct (SQLiteDB.fault db _); intros Heq; injection Heq as <- <-; cbn;
    repeat split; auto; discriminate.
Qed.

Lemma insertArticles_ok (rows : list (string * string)) (db db' : SQLiteDB.t) :
  SQLiteDB.insertArticles rows db = (db', None) ->
  exists new,
    SQLiteDB.articles db' = SQLiteDB.articles db ++ new
    /\ map (fun a => (Article.Title a, Article.Content a)) new = rows
    /\ SQLiteDB.schema db' = SQLiteDB.schema db.
Proof.
  revert db. induction rows as [|[title content] rest IH]; intros db; cbn.
  - intros Heq. injection Heq as <-. exists []. rewrite app_nil_r. auto.
  - destruct (SQLiteDB.send SQLiteDB.InsertArticle db) as [d [e|]] eqn:Hs;
      [discriminate|].
    apply send_grown in Hs. destruct Hs as (_ & _ & _ & S1 & A1 & _).
    intros Hi. apply IH in Hi. destruct Hi as (new & Hn & Hm & Hsch).
    cbn in Hn, Hsch. rewrite A1 in Hn. rewrite <- app_assoc in Hn.
    eexists. split; [exact Hn|]. split.
    + cbn. rewrite Hm. reflexivity.
    + rewrite Hsch. exact S1.
Qed.

Lemma seedArticles_ok (db db' : SQLiteDB.t) :
  SQLiteDB.seedArticles db = (db', None) ->
  SQLiteDB.schema db' = SQLiteDB.schema db
  /\ (SQLiteDB.articles db <> [] -> SQLiteDB.articles db' = SQLiteDB.articles db)
  /\ (SQLiteDB.articles db = [] ->
      map (fun a => (Article.Title a, Article.Content a)) (SQLiteDB.articles db')
      = SQLiteDB.seed).
Proof.
  unfold SQLiteDB.seedArticles.
  destruct (SQLiteDB.send SQLiteDB.CountArticles db) as [d [e|]] eqn:Hs;
    [discriminate|].
  apply send_grown in Hs. destruct Hs as (_ & _ & _ & S1 & A1 & _).
  rewrite A1. destruct (SQLiteDB.articles db) as [|a l] eqn:Ha; cbn [List.length].
  - change (0 <? Z.of_nat (@List.length Article.t [])) with false. cbv iota.
    intros Hi. apply insertArticles_ok in Hi.
    destruct Hi as (new & Hn & Hm & Hsch). rewrite A1 in Hn. cbn in Hn.
    rewrite Hn. split; [congruence|]. split; [intros []; reflexivity|].
    intros _. exact Hm.
  - replace (0 <? Z.of_nat (S (List.length l))) with true
      by (symmetry; apply Z.ltb_lt; lia).
    intros Heq. injection Heq as <-. rewrite A1. split; [exact S1|].
    split; [reflexivity | discriminate].
Qed.

(** Once the table holds a row, initialization sends its two statements
    and changes no table. *)
Lemma Initialize_seeded (db db' : SQLiteDB.t) (r : option error) :
  SQLiteDB.articles db <> [] ->
  SQLiteDB.Initialize db = (db', r) ->
  SQLiteDB.articles db' = SQLiteDB.articles db
  /\ SQLiteDB.queries db' = SQLiteDB.queries db
  /\ SQLiteDB.search_results db' = SQLiteDB.search_results db
  /\ (SQLiteDB.schema db = true -> SQLiteDB.schema db' = true)
  /\ ~ In SQLiteDB.InsertArticle
         (skipn (List.length (SQLiteDB.journal db)) (SQLiteDB.journal db'))
  /\ (SQLiteDB.fault db (List.length (SQLiteDB.journal db)) = None ->
      SQLiteDB.fault db (S (List.length (SQLiteDB.journal db))) = None ->
      r = None).
Proof.
  intros Hne. unfold SQLiteDB.Initialize.
  destruct (SQLiteDB.createTables db) as [d1 r1] eqn:Hc.
  apply createTables_effect in Hc.
  destruct Hc as (A1 & Q1 & R1 & F1 & J1 & S1 & S1' & H1).
  assert (Hskip1 : forall l, skipn (List.length (SQLiteDB.journal db))
                               (SQLiteDB.journal db ++ l) = l).
  { intros l. rewrite skipn_app, skipn_all, Nat.sub_diag. reflexivity. }
  destruct r1 as [e|].
  - intros Heq. injection Heq as <- <-. rewrite J1, Hskip1.
    split; [exact A1|]. split; [exact Q1|]. split; [exact R1|].
    split; [exact S1|]. split.
    + intros [Hc|[]]. discriminate.
    + intros Hf _. specialize (H1 Hf). discriminate.
  - unfold SQLiteDB.seedArticles.
    destruct (SQLiteDB.send SQLiteDB.CountArticles d1) as [d2 r2] eqn:Hs.
    pose proof (send_grown _ _ _ _ Hs) as (F2 & _ & _ & S2 & A2 & Q2 & R2 & J2).
    rewrite app_nil_r in Q2, R2.
    assert (Hj : skipn (List.length (SQLiteDB.journal db)) (SQLiteDB.journal d2)
                 = [SQLiteDB.CreateTables; SQLiteDB.CountArticles]).
    { rewrite J2, J1, <- app_assoc. apply Hskip1. }
    assert (Hnot : ~ In SQLiteDB.InsertArticle
                     [SQLiteDB.CreateTables; SQLiteDB.CountArticles]).
    { intros [Hc|[Hc|[]]]; discriminate. }
    assert (Hsch : SQLiteDB.schema d2 = true).
    { rewrite S2. apply S1'. reflexivity. }
    assert (Hframe : SQLiteDB.articles d2 = SQLiteDB.articles db
                     /\ SQLiteDB.queries d2 = SQLiteDB.queries db
                     /\ SQLiteDB.search_results d2 = SQLiteDB.search_results db).
    { rewrite A2, Q2, R2. auto. }
    destruct Hframe as (HA & HQ & HR).
    destruct r2 as [e|].
    + intros Heq. injection Heq as <- <-. rewrite Hj.
      split; [exact HA|]. split; [exact HQ|]. split; [exact HR|].
      split; [intros _; exact Hsch|]. split; [exact Hnot|].
      intros _ Hf. exfalso. unfold SQLiteDB.send in Hs.
      rewrite F1, J1, length_app, Nat.add_comm in Hs. cbn [List.length Nat.add] in Hs.
      rewrite Hf, (S1' eq_refl) in Hs. discriminate.
    + rewrite A2, A1. destruct (SQLiteDB.articles db) as [|a l]; [contradiction|].
      cbn [List.length].
      replace (0 <? Z.of_nat (S (List.length l))) with true
        by (symmetry; apply Z.ltb_lt; lia).
      intros Heq. injection Heq as <- <-. rewrite Hj.
      split; [exact HA|]. split; [exact HQ|]. split; [exact HR|].
      split; [intros _; exact Hsch|]. split; [exact Hnot|].
      intros _ _. reflexivity.
Qed.

Lemma Initialize_ok (db db' : SQLiteDB.t) :
  SQLiteDB.Initialize db = (db', None) ->
  SQLiteDB.schema db' = true
  /\ (SQLiteDB.articles db <> [] -> SQLiteDB.articles db' = SQLiteDB.articles db)
  /\ (SQLiteDB.articles db = [] ->
      map (fun a => (Article.Title a, Article.Content a)) (SQLiteDB.articles db')
      = SQLiteDB.seed).
Proof.
  unfold SQLiteDB.Initialize.
  destruct (SQLiteDB.createTables db) as [d1 [e|]] eqn:Hc; [discriminate|].
  apply createTables_effect in Hc.
  destruct Hc as (A1 & _ & _ & _ & _ & _ & S1 & _).
  destruct (SQLiteDB.seedArticles d1) as [d2 [e|]] eqn:Hs; [discriminate|].
  apply seedArticles_ok in Hs. destruct Hs as (S2 & Hkeep & Hseed).
  intros Heq. injection Heq as <-. rewrite A1 in Hkeep, Hseed.
  split; [rewrite S2; apply S1; reflexivity|]. split; assumption.
Qed.

(** C7: after an initialization that succeeded, the schema exists and the
    article table is not empty (it holds the catalog when it was empty
    before, and what it held otherwise); a second initialization then
    inserts nothing and leaves every table as it was, so the article
    count is the same, and it succeeds when the engine is up. *)
Theorem Initialize_idempotent (db db1 db2 : SQLiteDB.t) (r : option error) :
  SQLiteDB.Initialize db = (db1, None) ->
  SQLiteDB.Initialize db1 = (db2, r) ->
  SQLiteDB.articles db2 = SQLiteDB.articles db1
  /\ List.length (SQLiteDB.articles db2) = List.length (SQLiteDB.articles db1)
  /\ SQLiteDB.schema db1 = true /\ SQLiteDB.schema db2 = true
  /\ (SQLiteDB.articles db = [] ->
      map (fun a => (Article.Title a, Article.Content a)) (SQLiteDB.articles db1)
      = SQLiteDB.seed)
  /\ (SQLiteDB.articles db <> [] -> SQLiteDB.articles db1 = SQLiteDB.articles db)
  /\ ~ In SQLiteDB.InsertArticle
         (skipn (List.length (SQLiteDB.journal db1)) (SQLiteDB.journal db2))
  /\ (SQLiteDB.fault db1 (List.length (SQLiteDB.journal db1)) = None ->
      SQLiteDB.fault db1 (S (List.length (SQLiteDB.journal db1))) = None ->
      r = None).
Proof.
  intros H1 H2. apply Initialize_ok in H1. destruct H1 as (S1 & Hkeep & Hseed).
  assert (Hne : SQLiteDB.articles db1 <> []).
  { destruct (SQLiteDB.articles db) as [|a l] eqn:Ha.
    - specialize (Hseed eq_refl). intros Hnil. rewrite Hnil in Hseed. discriminate.
    - rewrite Hkeep; discriminate. }
  destruct (Initialize_seeded _ _ _ Hne H2) as (A2 & _ & _ & S2 & Hj & Hr).
  rewrite A2. repeat split; auto.
Qed.

(** ** Fetching articles by a list of IDs *)

Lemma member_In (id : int) (ids : list int) :
  SQLiteDB.member id ids = true <-> In id ids.
Proof.
  unfold SQLiteDB.member. rewrite existsb_exists. split.
  - intros [i [Hin Heq]]. apply Z.eqb_eq in Heq. subst. exact Hin.
  - intros Hin. exists id. split; [exact Hin | apply Z.eqb_refl].
Qed.

(** Selecting rows keeps the ids distinct. *)
Lemma filter_unique_ids (keep : Article.t -> bool) (rows : list Article.t) :
  NoDup (map Article.ID rows) -> NoDup (map Article.ID (filter keep rows)).
Proof.
  intros Hrows. induction rows as [|row rows IH]; [constructor|].
  apply NoDup_cons_iff in Hrows. destruct Hrows as [Hnew Hold].
  cbn [filter]. destruct (keep row); [|exact (IH Hold)].
  cbn [map]. apply NoDup_cons; [|exact (IH Hold)].
  intros Hin. apply Hnew. apply in_map_iff in Hin.
  destruct Hin as (other & Hid & Hkept). apply filter_In in Hkept.
  rewrite <- Hid. apply in_map. exact (proj1 Hkept).
Qed.

Lemma len_zero {A} (s : slice A) : (len s =? 0) = true <-> elems s = [].
Proof.
  unfold len. destruct (elems s); cbn; split; intros Hx;
    try reflexivity; discriminate.
Qed.

(** What the call does in each case. *)
Lemma GetArticlesByIDs_cases (ids : slice int) (db db' : SQLiteDB.t)
    (r : result (slice Article.t)) :
  SQLiteDB.GetArticlesByIDs ids db = (db', r) ->
  (elems ids = [] /\ db' = db /\ r = Ok (Some []))
  \/ (elems ids <> [] /\ grown db db' [] [] [SQLiteDB.SelectArticlesIn]
      /\ ((exists e, r = Err e)
          \/ r = Ok (collect (filter (fun a => SQLiteDB.member (Article.ID a) (elems ids))
                                     (SQLiteDB.articles db))))).
Proof.
  unfold SQLiteDB.GetArticlesByIDs.
  destruct (len ids =? 0) eqn:Hlen.
  - intros Heq. injection Heq as <- <-. left. apply len_zero in Hlen. auto.
  - assert (Hne : elems ids <> []).
    { intros Hnil. apply len_zero in Hnil. congruence. }
    destruct (SQLiteDB.send SQLiteDB.SelectArticlesIn db) as [d o] eqn:Hs.
    pose proof (send_grown _ _ _ _ Hs) as Hg.
    destruct o as [e|]; intros Heq; injection Heq as <- <-; right.
    + split; [exact Hne|]. split; [exact Hg|]. left. eexists. reflexivity.
    + split; [exact Hne|]. split; [exact Hg|]. right.
      destruct Hg as (_ & _ & _ & _ & A1 & _). rewrite A1. reflexivity.
Qed.

(** C6: the articles returned for a list of IDs are rows of the table
    whose id is in the list, each at most once; an empty list is answered
    with an empty result and no statement; and when the engine is up the
    call succeeds with exactly the matching rows, whether or not every
    ID matched. *)
Theorem GetArticlesByIDs_subset (ids : slice int) (db : SQLiteDB.t) :
  unique_ids db ->
  (elems ids = [] -> SQLiteDB.GetArticlesByIDs ids db = (db, Ok (Some [])))
  /\ (forall db' arts,
        SQLiteDB.GetArticlesByIDs ids db = (db', Ok arts) ->
        NoDup (map Article.ID (elems arts))
        /\ (forall a, In a (elems arts) ->
                      In a (SQLiteDB.articles db) /\ In (Article.ID a) (elems ids))
        /\ SQLiteDB.articles db' = SQLiteDB.articles db)
  /\ (SQLiteDB.fault db (List.length (SQLiteDB.journal db)) = None ->
      SQLiteDB.schema db = true ->
      exists db' arts,
        SQLiteDB.GetArticlesByIDs ids db = (db', Ok arts)
        /\ forall a, In a (elems arts)
                     <-> In a (SQLiteDB.articles db) /\ In (Article.ID a) (elems ids)).
Proof.
  intros Huniq. split; [|split].
  - intros Hnil. unfold SQLiteDB.GetArticlesByIDs.
    apply len_zero in Hnil. rewrite Hnil. reflexivity.
  - intros db' arts Hget. apply GetArticlesByIDs_cases in Hget.
    destruct Hget as [(Hnil & -> & Hr) | (Hne & Hg & [[e He] | Hr])].
    + injection Hr as ->. cbn. split; [constructor|]. split; [intros a []|reflexivity].
    + discriminate.
    + injection Hr as ->. rewrite elems_collect.
      split; [apply filter_unique_ids; exact Huniq|]. split.
      * intros a Hin. apply filter_In in Hin. destruct Hin as [Hin Hm].
        apply member_In in Hm. split; assumption.
      * destruct Hg as (_ & _ & _ & _ & A1 & _). exact A1.
  - intros Hf Hs. unfold SQLiteDB.GetArticlesByIDs.
    destruct (len ids =? 0) eqn:Hlen.
    + apply len_zero in Hlen. eexists. eexists. split; [reflexivity|].
      cbn. intros a. rewrite Hlen. cbn. tauto.
    + rewrite (send_healthy _ _ Hf Hs). eexists. eexists. split; [reflexivity|].
      intros a. rewrite elems_collect. cbn. rewrite filter_In, member_In. tauto.
Qed.

(** ** Decimal numbers and the JSON encoding of an ID list *)

Lemma digits_acc (d : Decimal.uint) (acc : positive) :
  strconv.digits (NilEmpty.string_of_uint d) (Z.pos acc)
  = Some (Z.pos (Pos.of_uint_acc d acc)).
Proof.
  revert acc.
  induction d as [|d IHd|d IHd|d IHd|d IHd|d IHd|d IHd|d IHd|d IHd|d IHd|d IHd];
    intros acc;
    cbn [NilEmpty.string_of_uint strconv.digits Pos.of_uint_acc];
    [reflexivity|..];
    match goal with
    | |- context [strconv.digit ?c] =>
        let v := eval vm_compute in (strconv.digit c) in
        change (strconv.digit c) with v
    end;
    cbv iota beta; rewrite <- IHd; f_equal; lia.
Qed.

Lemma digits_of_uint (d : Decimal.uint) :
  strconv.digits (NilEmpty.string_of_uint d) 0 = Some (Z.of_N (Pos.of_uint d)).
Proof.
  induction d as [|d IHd|d IHd|d IHd|d IHd|d IHd|d IHd|d IHd|d IHd|d IHd|d IHd];
    cbn [NilEmpty.string_of_uint strconv.digits Pos.of_uint];
    [reflexivity|..];
    match goal with
    | |- context [strconv.digit ?c] =>
        let v := eval vm_compute in (strconv.digit c) in
        change (strconv.digit c) with v
    end;
    cbv iota beta; cbn [Z.mul Z.add Z.of_N];
    [exact IHd | apply digits_acc ..].
Qed.

Lemma nzhead_head (d : Decimal.uint) :
  Decimal.nzhead d = Decimal.Nil \/ headNonzero (Decimal.nzhead d).
Proof. induction d; cbn; auto. Qed.

Lemma to_uint_head (p : positive) : headNonzero (Pos.to_uint p).
Proof.
  assert (Hn : Decimal.unorm (Pos.to_uint p) = Pos.to_uint p).
  { rewrite <- DecimalPos.Unsigned.to_of, DecimalPos.Unsigned.of_to. reflexivity. }
  unfold Decimal.unorm in Hn.
  destruct (nzhead_head (Pos.to_uint p)) as [Hnil|Hhead].
  - rewrite Hnil in Hn. symmetry in Hn.
    exfalso. exact (DecimalPos.Unsigned.to_uint_nonzero p Hn).
  - destruct (Decimal.nzhead (Pos.to_uint p)); try contradiction;
      rewrite <- Hn; exact I.
Qed.

Lemma Itoa_pos (p : positive) :
  strconv.Itoa (Z.pos p) = NilEmpty.string_of_uint (Pos.to_uint p).
Proof.
  unfold strconv.Itoa. cbn [Z.to_int NilZero.string_of_int NilZero.string_of_uint].
  pose proof (to_uint_head p) as Hh.
  destruct (Pos.to_uint p); [contradiction | reflexivity ..].
Qed.

Lemma Itoa_neg (p : positive) :
  strconv.Itoa (Z.neg p) = String "-" (NilEmpty.string_of_uint (Pos.to_uint p)).
Proof.
  unfold strconv.Itoa. cbn [Z.to_int NilZero.string_of_int NilZero.string_of_uint].
  pose proof (to_uint_head p) as Hh.
  destruct (Pos.to_uint p); [contradiction | reflexivity ..].
Qed.

Lemma natural_to_uint (p : positive) :
  json.natural (NilEmpty.string_of_uint (Pos.to_uint p)) = Some (Z.pos p).
Proof.
  pose proof (to_uint_head p) as Hh.
  pose proof (digits_of_uint (Pos.to_uint p)) as Hd.
  rewrite DecimalPos.Unsigned.of_to in Hd. cbn [Z.of_N] in Hd.
  destruct (Pos.to_uint p); try contradiction; exact Hd.
Qed.

(** Decoding the decimal form of a number gives the number back. *)
Lemma number_Itoa (z : Z) : json.number (strconv.Itoa z) = Some z.
Proof.
  destruct z as [|p|p].
  - reflexivity.
  - rewrite Itoa_pos. pose proof (natural_to_uint p) as Hn.
    pose proof (to_uint_head p) as Hh.
    destruct (Pos.to_uint p); try contradiction; exact Hn.
  - rewrite Itoa_neg. cbn [json.number]. change (Ascii.eqb "-" "-") with true.
    cbv iota. rewrite natural_to_uint. reflexivity.
Qed.

Lemma numeric_plain (c : ascii) :
  numeric c = true ->
  json.isSpace c = false /\ Ascii.eqb c "," = false /\ Ascii.eqb c "n" = false.
Proof.
  destruct c as [[] [] [] [] [] [] [] []]; cbn; intros Hc;
    try discriminate; repeat split; reflexivity.
Qed.

Lemma uint_numeric (d : Decimal.uint) :
  Forall (fun c => numeric c = true) (strings.bytes (NilEmpty.string_of_uint d)).
Proof.
  induction d; cbn; constructor; auto.
Qed.

Lemma Itoa_numeric (z : Z) :
  Forall (fun c => numeric c = true) (strings.bytes (strconv.Itoa z)).
Proof.
  destruct z as [|p|p].
  - cbn. constructor; [reflexivity | constructor].
  - rewrite Itoa_pos. apply uint_numeric.
  - rewrite Itoa_neg. cbn. constructor; [reflexivity | apply uint_numeric].
Qed.

Lemma Itoa_not_null (z : Z) : String.eqb (strconv.Itoa z) "null" = false.
Proof.
  pose proof (Itoa_numeric z) as Hn.
  destruct (strconv.Itoa z) as [|c s]; [reflexivity|].
  inversion Hn as [|x l Hc _]; subst.
  apply numeric_plain in Hc. destruct Hc as (_ & _ & Hc).
  cbn [String.eqb]. rewrite Hc. reflexivity.
Qed.

Lemma Itoa_nonempty (z : Z) : strconv.Itoa z <> "".
Proof.
  destruct z as [|p|p].
  - discriminate.
  - rewrite Itoa_pos. pose proof (to_uint_head p).
    destruct (Pos.to_uint p); try contradiction; discriminate.
  - rewrite Itoa_neg. discriminate.
Qed.

(** *** Trimming text that has no white space *)

Lemma bytes_app (s t : string) :
  strings.bytes (s ++ t)%string = strings.bytes s ++ strings.bytes t.
Proof. induction s as [|c s IH]; cbn; [reflexivity | f_equal; exact IH]. Qed.

Lemma skipSpace_solid (l : list ascii) :
  Forall (fun c => json.isSpace c = false) l -> json.skipSpace l = l.
Proof.
  intros Hl. destruct Hl as [|c l Hc _]; [reflexivity|]. cbn. rewrite Hc. reflexivity.
Qed.

Lemma trim_solid (s : string) :
  Forall (fun c => json.isSpace c = false) (strings.bytes s) -> json.trim s = s.
Proof.
  intros Hs. unfold json.trim. rewrite (skipSpace_solid _ Hs).
  rewrite skipSpace_solid by (apply Forall_rev; exact Hs).
  rewrite rev_involutive. apply string_of_list_ascii_of_string.
Qed.

(** *** Splitting what was joined *)

Lemma Split_piece (s : string) (sep : ascii) :
  Forall (fun c => Ascii.eqb c sep = false) (strings.bytes s) ->
  strings.Split s sep = [s].
Proof.
  induction s as [|c s IH]; cbn; intros Hs; [reflexivity|].
  inversion Hs as [|x l Hc Hrest]; subst.
  rewrite Hc, (IH Hrest). reflexivity.
Qed.

Lemma Split_app (s rest : string) (sep : ascii) :
  Forall (fun c => Ascii.eqb c sep = false) (strings.bytes s) ->
  strings.Split (s ++ String sep rest)%string sep = s :: strings.Split rest sep.
Proof.
  induction s as [|c s IH]; cbn; intros Hs.
  - rewrite Ascii.eqb_refl. reflexivity.
  - inversion Hs as [|x l Hc Hrest]; subst.
    rewrite Hc, (IH Hrest). reflexivity.
Qed.

Lemma Split_Join (l : list string) (sep : ascii) :
  l <> [] ->
  Forall (fun s => Forall (fun c => Ascii.eqb c sep = false) (strings.bytes s)) l ->
  strings.Split (strings.Join l sep) sep = l.
Proof.
  induction l as [|x l IH]; intros Hne Hl; [contradiction|].
  inversion Hl as [|y l' Hx Hrest]; subst.
  destruct l as [|y l].
  - cbn. apply Split_piece. exact Hx.
  - change (strings.Join (x :: y :: l) sep)
      with (x ++ String sep (strings.Join (y :: l) sep))%string.
    rewrite (Split_app _ _ _ Hx), IH; [reflexivity | discriminate | exact Hrest].
Qed.

Lemma Join_bytes (l : list string) (sep : ascii) (P : ascii -> Prop) :
  P sep -> Forall (fun s => Forall P (strings.bytes s)) l ->
  Forall P (strings.bytes (strings.Join l sep)).
Proof.
  intros Hsep. induction l as [|x l IH]; intros Hl; [constructor|].
  inversion Hl as [|y l' Hx Hrest]; subst.
  destruct l as [|y l]; [exact Hx|].
  change (strings.Join (x :: y :: l) sep)
    with (x ++ String sep (strings.Join (y :: l) sep))%string.
  rewrite bytes_app. apply Forall_app. split; [exact Hx|].
  cbn. constructor; [exact Hsep | apply IH; exact Hrest].
Qed.

Lemma Join_nonempty (l : list string) (sep : ascii) :
  l <> [] -> Forall (fun s => s <> "") l -> strings.Join l sep <> "".
Proof.
  destruct l as [|x l]; [contradiction|]. intros _ Hl.
  inversion Hl as [|y l' Hx _]; subst.
  destruct l; cbn; destruct x; try contradiction; discriminate.
Qed.

(** *** The round trip *)

Lemma untilClose_app (body : string) : json.untilClose (body ++ "]")%string = Some body.
Proof.
  induction body as [|c body IH]; [reflexivity|].
  cbn [String.append json.untilClose]. rewrite IH.
  replace (String.eqb (body ++ "]") "") with false by (destruct body; reflexivity).
  rewrite andb_false_r. reflexivity.
Qed.

Lemma elements_Itoa (l : list int) :
  forallb is_int l = true ->
  json.elements (map json.trim (map strconv.Itoa l)) = Ok l.
Proof.
  induction l as [|z l IH]; cbn [forallb map json.elements]; [reflexivity|].
  intros Hl. apply andb_true_iff in Hl. destruct Hl as [Hz Hl].
  rewrite (IH Hl). rewrite trim_solid.
  - unfold json.element. rewrite Itoa_not_null, number_Itoa, Hz. reflexivity.
  - eapply Forall_impl; [|apply Itoa_numeric].
    intros c Hc. apply numeric_plain in Hc. tauto.
Qed.

(** Every ID list, nil and empty included, is decoded from its encoding
    exactly as it was. *)
Lemma Unmarshal_Marshal (ids : slice int) :
  forallb is_int (elems ids) = true ->
  exists text, json.Marshal ids = Ok text /\ json.Unmarshal text = Ok ids.
Proof.
  intros Hint. destruct ids as [l|].
  - destruct l as [|z l].
    + eexists. split; reflexivity.
    + eexists. split; [reflexivity|].
      set (body := strings.Join (map strconv.Itoa (z :: l)) ",").
      assert (Hnum : Forall (fun s => Forall (fun c => numeric c = true \/ c = ","%char)
                                        (strings.bytes s))
                            (map strconv.Itoa (z :: l))).
      { apply Forall_forall. intros s Hs. apply in_map_iff in Hs.
        destruct Hs as [y [<- _]]. eapply Forall_impl; [|apply Itoa_numeric]. auto. }
      assert (Hbody : Forall (fun c => numeric c = true \/ c = ","%char)
                        (strings.bytes body)).
      { apply Join_bytes; [right; reflexivity | exact Hnum]. }
      assert (Hsolid : forall c, numeric c = true \/ c = ","%char -> json.isSpace c = false).
      { intros c [Hc| ->]; [apply numeric_plain in Hc; tauto | reflexivity]. }
      assert (Hwhole : json.trim ("[" ++ body ++ "]") = ("[" ++ body ++ "]")%string).
      { apply trim_solid. cbn. constructor; [reflexivity|].
        rewrite bytes_app. apply Forall_app. split.
        - eapply Forall_impl; [|exact Hbody]. exact Hsolid.
        - cbn. constructor; [reflexivity | constructor]. }
      unfold json.Unmarshal. rewrite Hwhole.
      cbn [String.append String.eqb json.unbracket].
      change (Ascii.eqb "[" "n") with false. change (Ascii.eqb "[" "[") with true.
      cbv iota. rewrite untilClose_app.
      rewrite trim_solid by (eapply Forall_impl; [|exact Hbody]; exact Hsolid).
      assert (Hne : body <> "").
      { apply Join_nonempty; [discriminate|]. apply Forall_forall.
        intros s Hs. apply in_map_iff in Hs. destruct Hs as [y [<- _]].
        apply Itoa_nonempty. }
      replace (String.eqb body "") with false
        by (symmetry; apply String.eqb_neq; exact Hne).
      unfold body. rewrite Split_Join.
      * cbn [elems] in Hint. rewrite (elements_Itoa _ Hint). reflexivity.
      * discriminate.
      * apply Forall_forall. intros s Hs. apply in_map_iff in Hs.
        destruct Hs as [y [<- _]]. eapply Forall_impl; [|apply Itoa_numeric].
        intros c Hc. apply numeric_plain in Hc. tauto.
  - eexists. split; reflexivity.
Qed.

(** ** Rows written by the storage operations *)

Lemma next_id_fresh (l : list int) (x : int) : In x l -> x < SQLiteDB.next_id l.
Proof.
  unfold SQLiteDB.next_id. induction l as [|y l IH]; cbn; [intros []|].
  intros [->|Hin]; [lia|]. specialize (IH Hin). lia.
Qed.

Lemma find_app {A} (f : A -> bool) (l1 l2 : list A) :
  find f (l1 ++ l2) = match find f l1 with
                      | Some y => Some y
                      | None => find f l2
                      end.
Proof.
  induction l1 as [|x l1 IH]; cbn; [reflexivity|].
  destruct (f x); [reflexivity | exact IH].
Qed.

Lemma find_fresh {A} (key : A -> int) (l : list A) (x : A) :
  key x = SQLiteDB.next_id (map key l) ->
  find (fun r => key r =? key x) (l ++ [x]) = Some x.
Proof.
  intros Hx. rewrite find_app, find_absent.
  - cbn. rewrite Z.eqb_refl. reflexivity.
  - intros a Ha. apply Z.eqb_neq. rewrite Hx.
    pose proof (next_id_fresh (map key l) (key a) (in_map key l a Ha)). lia.
Qed.

Lemma grown_queries (db : SQLiteDB.t) (row : Query.t) :
  grown db (SQLiteDB.with_queries db (SQLiteDB.queries db ++ [row])) [row] [] [].
Proof. unfold grown. cbn. rewrite !app_nil_r. repeat split; reflexivity. Qed.

Lemma grown_search_results (db : SQLiteDB.t) (row : SQLiteDB.Row) :
  grown db (SQLiteDB.with_search_results db (SQLiteDB.search_results db ++ [row]))
    [] [row] [].
Proof. unfold grown. cbn. rewrite !app_nil_r. repeat split; reflexivity. Qed.

(** [CreateQuery]: either the insert fails and nothing is written, or the
    row is written and the call returns it, unless reading it back
    fails. *)
Lemma CreateQuery_cases (q : string) (db db' : SQLiteDB.t) (r : result Query.t) :
  SQLiteDB.CreateQuery q db = (db', r) ->
  ((exists e, r = Err e) /\ grown db db' [] [] [SQLiteDB.InsertQuery])
  \/ (exists row,
        Query.Query row = q
        /\ Query.CreatedAt row = SQLiteDB.now db
        /\ grown db db' [row] [] [SQLiteDB.InsertQuery; SQLiteDB.SelectQueryByID]
        /\ (r = Ok row \/ exists e, r = Err e)).
Proof.
  unfold SQLiteDB.CreateQuery.
  destruct (SQLiteDB.send SQLiteDB.InsertQuery db) as [d1 o1] eqn:H1.
  pose proof (send_grown _ _ _ _ H1) as G1.
  destruct o1 as [e|].
  - intros Heq. injection Heq as <- <-. left. split; [eexists; reflexivity | exact G1].
  - set (row := Query.mk (SQLiteDB.next_id (map Query.ID (SQLiteDB.queries d1))) q
                  (SQLiteDB.now db)).
    unfold SQLiteDB.GetQueryByID.
    destruct (SQLiteDB.send SQLiteDB.SelectQueryByID
                (SQLiteDB.with_queries d1 (SQLiteDB.queries d1 ++ [row])))
      as [d2 o2] eqn:H2.
    pose proof (send_grown _ _ _ _ H2) as G2.
    pose proof (grown_trans _ _ _ _ _ _ _ _ _
                  (grown_trans _ _ _ _ _ _ _ _ _ G1 (grown_queries d1 row)) G2) as G.
    cbn [List.app] in G.
    intros Heq. right. exists row. split; [reflexivity|]. split; [reflexivity|].
    destruct o2 as [e|].
    + injection Heq as <- <-. split; [exact G | right; eexists; reflexivity].
    + destruct G2 as (_ & _ & _ & _ & _ & Q2 & _). rewrite Q2 in Heq.
      cbn [SQLiteDB.queries SQLiteDB.with_queries] in Heq. rewrite app_nil_r in Heq.
      change (SQLiteDB.next_id (map Query.ID (SQLiteDB.queries d1)))
        with (Query.ID row) in Heq.
      rewrite (find_fresh Query.ID) in Heq by reflexivity.
      injection Heq as <- <-. split; [exact G | left; reflexivity].
Qed.

Lemma GetAllArticles_cases (db db' : SQLiteDB.t) (r : result (slice Article.t)) :
  SQLiteDB.GetAllArticles db = (db', r) ->
  grown db db' [] [] [SQLiteDB.SelectArticles]
  /\ (r = Ok (collect (SQLiteDB.articles db)) \/ exists e, r = Err e).
Proof.
  unfold SQLiteDB.GetAllArticles.
  destruct (SQLiteDB.send SQLiteDB.SelectArticles db) as [d1 o1] eqn:H1.
  pose proof (send_grown _ _ _ _ H1) as G1.
  destruct o1 as [e|]; intros Heq; injection Heq as <- <-; (split; [exact G1|]).
  - right. eexists. reflexivity.
  - left. destruct G1 as (_ & _ & _ & _ & A1 & _). rewrite A1. reflexivity.
Qed.

(** [CreateSearchResult]: either nothing is written, or the row with the
    encoded ID list is written and the call returns what scanning that
    row gives, unless reading it back fails. *)
Lemma CreateSearchResult_cases (queryID : int) (summary : string) (ids : slice int)
    (db db' : SQLiteDB.t) (r : result SearchResult.t) :
  SQLiteDB.CreateSearchResult queryID summary ids db = (db', r) ->
  ((exists e, r = Err e) /\ grown db db' [] [] [SQLiteDB.InsertSearchResult])
  \/ (exists row,
        SQLiteDB.query_id row = queryID
        /\ SQLiteDB.ai_summary_answer row = summary
        /\ json.Marshal ids = Ok (SQLiteDB.ai_relevant_articles row)
        /\ SQLiteDB.id row = SQLiteDB.next_id (map SQLiteDB.id (SQLiteDB.search_results db))
        /\ SQLiteDB.schema db = true
        /\ grown db db' [] [row]
             [SQLiteDB.InsertSearchResult; SQLiteDB.SelectSearchResultByID]
        /\ (r = SQLiteDB.scanRow row \/ exists e, r = Err e)).
Proof.
  unfold SQLiteDB.CreateSearchResult.
  destruct (json.Marshal ids) as [text|e] eqn:Hm.
  2:{ destruct ids; discriminate. }
  destruct (SQLiteDB.send SQLiteDB.InsertSearchResult db) as [d1 o1] eqn:H1.
  pose proof (send_grown _ _ _ _ H1) as G1.
  destruct o1 as [e|].
  { intros Heq. injection Heq as <- <-. left. split; [eexists; reflexivity | exact G1]. }
  destruct (SQLiteDB.foreign_keys d1 && _).
  { intros Heq. injection Heq as <- <-. left. split; [eexists; reflexivity | exact G1]. }
  assert (Hschema : SQLiteDB.schema db = true).
  { unfold SQLiteDB.send in H1. destruct (SQLiteDB.fault db _); [discriminate|].
    destruct (SQLiteDB.schema db); [reflexivity | discriminate]. }
  set (row := SQLiteDB.mkRow (SQLiteDB.next_id (map SQLiteDB.id (SQLiteDB.search_results d1)))
                queryID summary text (SQLiteDB.now db)).
  unfold SQLiteDB.GetSearchResultByID.
  destruct (SQLiteDB.send SQLiteDB.SelectSearchResultByID
              (SQLiteDB.with_search_results d1 (SQLiteDB.search_results d1 ++ [row])))
    as [d2 o2] eqn:H2.
  pose proof (send_grown _ _ _ _ H2) as G2.
  pose proof (grown_trans _ _ _ _ _ _ _ _ _
                (grown_trans _ _ _ _ _ _ _ _ _ G1 (grown_search_results d1 row)) G2) as G.
  cbn [List.app] in G.
  assert (Hid : SQLiteDB.id row
                = SQLiteDB.next_id (map SQLiteDB.id (SQLiteDB.search_results db))).
  { destruct G1 as (_ & _ & _ & _ & _ & _ & R1 & _). rewrite app_nil_r in R1.
    cbn [SQLiteDB.id row]. unfold row. cbn [SQLiteDB.id]. rewrite R1. reflexivity. }
  intros Heq. right. exists row.
  split; [reflexivity|]. split; [reflexivity|]. split; [reflexivity|].
  split; [exact Hid|]. split; [exact Hschema|].
  destruct o2 as [e|].
  - injection Heq as <- <-. split; [exact G | right; eexists; reflexivity].
  - destruct G2 as (_ & _ & _ & _ & _ & _ & R2 & _). rewrite R2 in Heq.
    cbn [SQLiteDB.search_results SQLiteDB.with_search_results] in Heq.
    rewrite app_nil_r in Heq.
    change (SQLiteDB.next_id (map SQLiteDB.id (SQLiteDB.search_results d1)))
      with (SQLiteDB.id row) in Heq.
    rewrite (find_fresh SQLiteDB.id) in Heq by reflexivity.
    injection Heq as <- <-. split; [exact G | left; reflexivity].
Qed.

Lemma scanRow_Marshal (row : SQLiteDB.Row) (ids : slice int) :
  forallb is_int (elems ids) = true ->
  json.Marshal ids = Ok (SQLiteDB.ai_relevant_articles row) ->
  SQLiteDB.scanRow row
  = Ok (SearchResult.mk (SQLiteDB.id row) (SQLiteDB.query_id row)
          (SQLiteDB.ai_summary_answer row) ids (SQLiteDB.created_at row)).
Proof.
  intros Hint Hm. destruct (Unmarshal_Marshal ids Hint) as (text & Ht & Hu).
  rewrite Hm in Ht. injection Ht as <-.
  unfold SQLiteDB.scanRow. rewrite Hu. reflexivity.
Qed.

(** C5, as the code has it: a search result created for a query that had
    none yet returns, and is fetched again by the query's ID with, the ID
    list it was created with: same elements, same order, nil and empty
    kept apart; the fetch succeeds whenever the engine is up. *)
Theorem SearchResult_roundtrip (db db1 : SQLiteDB.t) (queryID : int) (summary : string)
    (ids : slice int) (created : SearchResult.t) :
  forallb is_int (elems ids) = true ->
  (forall row, In row (SQLiteDB.search_results db) -> SQLiteDB.query_id row <> queryID) ->
  SQLiteDB.CreateSearchResult queryID summary ids db = (db1, Ok created) ->
  SearchResult.AIRelevantArticles created = ids
  /\ (forall db2 fetched,
        SQLiteDB.GetSearchResultByQueryID queryID db1 = (db2, Ok fetched) ->
        SearchResult.AIRelevantArticles fetched = ids /\ fetched = created)
  /\ (SQLiteDB.fault db1 (List.length (SQLiteDB.journal db1)) = None ->
      exists db2,
        SQLiteDB.GetSearchResultByQueryID queryID db1 = (db2, Ok created)).
Proof.
  intros Hint Hfirst Hcreate. apply CreateSearchResult_cases in Hcreate.
  destruct Hcreate as [[[e He] _] | (row & Hq & Hs & Hm & Hid & Hschema & G & Hr)];
    [discriminate|].
  pose proof (scanRow_Marshal row ids Hint Hm) as Hscan.
  destruct Hr as [Hr | [e He]]; [|discriminate].
  rewrite Hscan in Hr. injection Hr as ->.
  destruct G as (F1 & _ & _ & S1 & _ & _ & R1 & J1).
  assert (Hfind : find (fun r => SQLiteDB.query_id r =? queryID)
                    (SQLiteDB.search_results db1) = Some row).
  { rewrite R1, find_app, find_absent.
    - cbn. rewrite Hq, Z.eqb_refl. reflexivity.
    - intros a Ha. apply Z.eqb_neq. apply Hfirst. exact Ha. }
  split; [reflexivity|]. split.
  - intros db2 fetched. unfold SQLiteDB.GetSearchResultByQueryID.
    destruct (SQLiteDB.send SQLiteDB.SelectSearchResultByQueryID db1) as [d o] eqn:H2.
    pose proof (send_grown _ _ _ _ H2) as (_ & _ & _ & _ & _ & _ & R2 & _).
    rewrite app_nil_r in R2.
    destruct o as [e|]; [discriminate|]. rewrite R2, Hfind, Hscan.
    intros Heq. injection Heq as _ <-. split; reflexivity.
  - intros Hf. unfold SQLiteDB.GetSearchResultByQueryID.
    rewrite send_healthy; [|exact Hf | rewrite S1; exact Hschema].
    cbn [SQLiteDB.search_results SQLiteDB.with_journal].
    rewrite Hfind, Hscan. eexists. reflexivity.
Qed.

(** ** Processing a search query *)

Lemma GetArticlesByIDs_run (ids : slice int) (db db' : SQLiteDB.t)
    (r : result (slice Article.t)) :
  SQLiteDB.GetArticlesByIDs ids db = (db', r) ->
  exists stmts,
    grown db db' [] [] stmts
    /\ ((r = Ok (relevantRows ids (SQLiteDB.articles db))
         /\ stmts = if len ids =? 0 then [] else [SQLiteDB.SelectArticlesIn])
        \/ ((exists e, r = Err e) /\ stmts = [SQLiteDB.SelectArticlesIn])).
Proof.
  intros Hget. pose proof (GetArticlesByIDs_cases _ _ _ _ Hget) as Hc.
  unfold relevantRows.
  destruct Hc as [(Hnil & -> & ->) | (Hne & Hg & [[e ->] | ->])].
  - apply len_zero in Hnil. rewrite Hnil. exists []. split; [apply grown_refl | auto].
  - eexists. split; [exact Hg|]. right. split; [eexists|]; reflexivity.
  - destruct (len ids =? 0) eqn:Hlen.
    + apply len_zero in Hlen. contradiction.
    + eexists. split; [exact Hg|]. left. split; reflexivity.
Qed.

(** Every run of the five steps, told by where it stopped. *)
Lemma process_cases {AI : Type} `{ai.AIServiceInterface AI} (aiService : AI)
    (q : string) (db db' : SQLiteDB.t) (r : result SearchResponse.t) :
  SearchService.process aiService q db = (db', r) ->
  exists newq news stmts,
    grown db db' newq news stmts
    /\ match r with
       | Ok resp => completed aiService q db resp newq news stmts
       | Err err =>
           exists st e, err = Errorf_w (stepMessage st) e
                        /\ aborted st q newq news stmts
       end.
Proof.
  cbv beta iota delta [SearchService.process bind wrap lift ret
    database.CreateQuery database.GetAllArticles database.CreateSearchResult
    database.GetArticlesByIDs SQLiteDB.SQLiteDB_DatabaseInterface].
  destruct (SQLiteDB.CreateQuery q db) as [d1 r1] eqn:H1.
  apply CreateQuery_cases in H1.
  destruct H1 as [[[e ->] G1] | (qrow & Hq & Hc & G1 & [-> | [e ->]])].
  { intros Heq. injection Heq as <- <-. do 3 eexists. split; [exact G1|].
    exists StepCreateQuery, e. split; [reflexivity|]. cbn. auto. }
  2:{ intros Heq. injection Heq as <- <-. do 3 eexists. split; [exact G1|].
      exists StepCreateQuery, e. split; [reflexivity|]. cbn. split; [reflexivity|].
      right. exists qrow. auto. }
  destruct (SQLiteDB.GetAllArticles d1) as [d2 r2] eqn:H2.
  apply GetAllArticles_cases in H2. destruct H2 as [G2 Hr2].
  pose proof (grown_trans _ _ _ _ _ _ _ _ _ G1 G2) as G12. cbn [List.app] in G12.
  destruct Hr2 as [-> | [e ->]].
  2:{ intros Heq. injection Heq as <- <-. do 3 eexists. split; [exact G12|].
      exists StepGetArticles, e. split; [reflexivity|]. cbn. split; [reflexivity|].
      exists qrow. auto. }
  assert (A1 : SQLiteDB.articles d1 = SQLiteDB.articles db) by apply G1.
  assert (A2 : SQLiteDB.articles d2 = SQLiteDB.articles db) by apply G12.
  rewrite A1.
  destruct (ai.AnalyzeQuery aiService q (collect (SQLiteDB.articles db)))
    as [aiResult|e] eqn:H3.
  2:{ intros Heq. injection Heq as <- <-. do 3 eexists. split; [exact G12|].
      exists StepAnalyze, e. split; [reflexivity|]. cbn. split; [reflexivity|].
      exists qrow. auto. }
  destruct (SQLiteDB.CreateSearchResult (Query.ID qrow) (ai.Summary aiResult)
              (ai.RelevantArticles aiResult) d2) as [d3 r3] eqn:H4.
  apply CreateSearchResult_cases in H4.
  destruct H4 as [[[e ->] G3]
                 | (srow & Hsq & Hss & Hm & _ & _ & G3 & Hr3)].
  { pose proof (grown_trans _ _ _ _ _ _ _ _ _ G12 G3) as G. cbn [List.app] in G.
    intros Heq. injection Heq as <- <-. do 3 eexists. split; [exact G|].
    exists StepSaveResult, e. split; [reflexivity|]. cbn.
    exists qrow. auto. }
  pose proof (grown_trans _ _ _ _ _ _ _ _ _ G12 G3) as G123. cbn [List.app] in G123.
  destruct Hr3 as [-> | [e ->]].
  2:{ intros Heq. injection Heq as <- <-. do 3 eexists. split; [exact G123|].
      exists StepSaveResult, e. split; [reflexivity|]. cbn.
      exists qrow. split; [reflexivity|]. split; [exact Hq|]. right.
      exists srow. auto. }
  destruct (SQLiteDB.scanRow srow) as [saved|e] eqn:Hscan.
  2:{ intros Heq. injection Heq as <- <-. do 3 eexists. split; [exact G123|].
      exists StepSaveResult, e. split; [reflexivity|]. cbn.
      exists qrow. split; [reflexivity|]. split; [exact Hq|]. right.
      exists srow. auto. }
  destruct (SQLiteDB.GetArticlesByIDs (ai.RelevantArticles aiResult) d3)
    as [d4 r4] eqn:H5.
  apply GetArticlesByIDs_run in H5. destruct H5 as (stmts & G4 & Hr4).
  pose proof (grown_trans _ _ _ _ _ _ _ _ _ G123 G4) as G. cbn [List.app] in G.
  assert (A3 : SQLiteDB.articles d3 = SQLiteDB.articles db) by apply G123.
  rewrite A3 in Hr4.
  destruct Hr4 as [[-> ->] | [[e ->] ->]].
  - intros Heq. injection Heq as <- <-. do 3 eexists. split; [exact G|].
    exists qrow, srow, aiResult. repeat split; auto.
  - intros Heq. injection Heq as <- <-. do 3 eexists. split; [exact G|].
    exists StepGetRelevant, e. split; [reflexivity|]. cbn.
    exists qrow, srow. auto.
Qed.





(** ** The articles of a response *)

Lemma filter_none {A} (f : A -> bool) (l : list A) :
  (forall a, In a l -> f a = false) -> filter f l = [].
Proof.
  induction l as [|x l IH]; intros Hf; cbn; [reflexivity|].
  rewrite (Hf x (or_introl eq_refl)). apply IH. intros a Ha. apply Hf. right. exact Ha.
Qed.

Lemma relevantRows_elems (ids : slice int) (articles : list Article.t) :
  elems (relevantRows ids articles)
  = filter (fun a => SQLiteDB.member (Article.ID a) (elems ids)) articles.
Proof.
  unfold relevantRows. destruct (len ids =? 0) eqn:Hlen.
  - apply len_zero in Hlen. rewrite Hlen. cbn [elems].
    symmetry. apply filter_none. intros a _. reflexivity.
  - apply elems_collect.
Qed.

Lemma stored_In (articles : list Article.t) (i : int) :
  stored articles i = true <-> In i (map Article.ID articles).
Proof.
  unfold stored. rewrite existsb_exists, in_map_iff. split.
  - intros [a [Hin Heq]]. apply Z.eqb_eq in Heq. exists a. auto.
  - intros [a [Heq Hin]]. exists a. split; [exact Hin | apply Z.eqb_eq; exact Heq].
Qed.

(** As many rows match as there are distinct stored IDs in the list. *)
Lemma matching_rows_count (ids : list int) (articles : list Article.t) :
  NoDup (map Article.ID articles) ->
  List.length (filter (fun a => SQLiteDB.member (Article.ID a) ids) articles)
  = List.length (nodup Z.eq_dec (filter (stored articles) ids)).
Proof.
  intros Hnd.
  rewrite <- (length_map Article.ID).
  apply Permutation_length, NoDup_Permutation.
  - apply filter_unique_ids. exact Hnd.
  - apply NoDup_nodup.
  - intros i. rewrite nodup_In, filter_In, stored_In. split.
    + intros Hi. apply in_map_iff in Hi. destruct Hi as [a [Heq Hin]].
      apply filter_In in Hin. destruct Hin as [Hin Hm].
      apply member_In in Hm. subst i. split; [exact Hm|].
      apply in_map. exact Hin.
    + intros [Hids Hst]. apply in_map_iff in Hst. destruct Hst as [a [Heq Hin]].
      apply in_map_iff. exists a. split; [exact Heq|].
      apply filter_In. split; [exact Hin|].
      apply member_In. rewrite Heq. exact Hids.
Qed.

(** C4, as the code has it: the articles of a successful response are the
    rows of the article table whose id the analysis returned, each row
    once; their number is the number of distinct returned IDs that are
    stored, which is the length of the returned list when that list has
    no duplicate and names stored articles only. *)
Theorem ProcessSearchQuery_articles {AI : Type} `{ai.AIServiceInterface AI}
    (s s' : SearchService.t SQLiteDB.t AI) (q : string) (resp : SearchResponse.t) :
  unique_ids (SearchService.db s) ->
  SearchService.ProcessSearchQuery s q = (s', Ok resp) ->
  let table := SQLiteDB.articles (SearchService.db s) in
  let returned := elems (SearchResponse.AIRelevantArticles resp) in
  exists aiResult,
    ai.AnalyzeQuery (SearchService.aiService s) q (collect table) = Ok aiResult
    /\ NoDup (map Article.ID returned)
    /\ (forall a, In a returned
                  <-> In a table /\ In (Article.ID a) (elems (ai.RelevantArticles aiResult)))
    /\ List.length returned
       = List.length (nodup Z.eq_dec
                        (filter (stored table) (elems (ai.RelevantArticles aiResult))))
    /\ (NoDup (elems (ai.RelevantArticles aiResult)) ->
        (forall i, In i (elems (ai.RelevantArticles aiResult)) ->
                   In i (map Article.ID table)) ->
        List.length returned = List.length (elems (ai.RelevantArticles aiResult))).
Proof.
  intros Huniq Hrun table returned.
  unfold SearchService.ProcessSearchQuery, SearchService.run in Hrun.
  destruct (SearchService.process (SearchService.aiService s) q (SearchService.db s))
    as [db' r'] eqn:Hp.
  injection Hrun as _ ->.
  apply process_cases in Hp. destruct Hp as (newq & news & stmts & _ & Hr).
  destruct Hr as (qrow & srow & aiResult & _ & _ & _ & Hai & _ & _ & _ & _ & ->).
  exists aiResult. split; [exact Hai|].
  subst returned. cbn [SearchResponse.AIRelevantArticles].
  rewrite relevantRows_elems. fold table.
  assert (Hcount := matching_rows_count (elems (ai.RelevantArticles aiResult)) table Huniq).
  split; [apply filter_unique_ids; exact Huniq|]. split; [|split].
  - intros a. rewrite filter_In, member_In. tauto.
  - exact Hcount.
  - intros Hnd Hall. rewrite Hcount. f_equal.
    rewrite nodup_fixed_point.
    + rewrite forallb_filter_id; [reflexivity|].
      apply forallb_forall. intros i Hi. apply stored_In. apply Hall. exact Hi.
    + apply NoDup_filter. exact Hnd.
Qed.

(** C4, where the specification's sentence fails: the generative
    strategy answers [1,1], both of them valid IDs, and the response
    carries article 1 once. *)
Lemma ProcessSearchQuery_duplicate_ids :
  let g := Sample.scripted
             ("SUMMARY: Use the reset link." ++ Sample.nl ++ "RELEVANT_ARTICLES: 1,1") in
  let s := SearchService.NewSearchService Sample.fresh g in
  exists resp aiResult,
    snd (SearchService.ProcessSearchQuery s "reset") = Ok resp
    /\ ai.AnalyzeQuery g "reset" (collect (SQLiteDB.articles Sample.fresh)) = Ok aiResult
    /\ ai.RelevantArticles aiResult = Some [1; 1]
    /\ map Article.ID (elems (SearchResponse.AIRelevantArticles resp)) = [1]
    /\ len (SearchResponse.AIRelevantArticles resp) <> len (ai.RelevantArticles aiResult).
Proof.
  cbv zeta. eexists. eexists.
  split; [vm_compute; reflexivity|].
  split; [vm_compute; reflexivity|].
  split; [reflexivity|]. split; [reflexivity|].
  vm_compute. discriminate.
Qed.

(** ** Runs on the seeded catalog *)

Lemma fresh_unique_ids : unique_ids Sample.fresh.
Proof.
  unfold unique_ids. vm_compute.
  repeat (constructor; [cbn; lia|]). constructor.
Defined.

(** The scenarios of the test suite: a password question finds article 1
    and answers with the password instructions; an unrelated question
    finds nothing and still answers. *)
Lemma heuristic_password_scenario :
  MockAIService.AnalyzeQuery strings.ToLowerASCII MockAIService.NewMockAIService
    "How do I reset my password?" (collect (SQLiteDB.articles Sample.fresh))
  = Ok (ai.mkResult MockAIService.summaryPassword (Some [1; 2; 4])).
Proof. vm_compute. reflexivity. Qed.

Lemma heuristic_unrelated_scenario :
  MockAIService.AnalyzeQuery strings.ToLowerASCII MockAIService.NewMockAIService
    "random unrelated question" (collect (SQLiteDB.articles Sample.fresh))
  = Ok (ai.mkResult MockAIService.summaryNotFound None).
Proof. vm_compute. reflexivity. Qed.

(** The two lines are found in either order, amid other lines. *)
Lemma parseResponse_any_order :
  let articles := collect (SQLiteDB.articles Sample.fresh) in
  let expected := Ok (ai.mkResult "Restart the spooler." (Some [6; 3])) in
  GeminiService.parseResponse
    ("Sure!" ++ Sample.nl ++ "SUMMARY: Restart the spooler." ++ Sample.nl
     ++ "RELEVANT_ARTICLES: 6, x, 42, 3" ++ Sample.nl ++ "Bye")%string articles = expected
  /\ GeminiService.parseResponse
       ("  RELEVANT_ARTICLES: 6, x, 42, 3 " ++ Sample.nl ++ Sample.nl
        ++ "SUMMARY:   Restart the spooler.")%string articles = expected.
Proof. cbv zeta. split; vm_compute; reflexivity. Qed.

(** C10 on two articles that both mention two keywords of the query. *)
Lemma AnalyzeQuery_no_duplicates_witness :
  let articles :=
    Some [Article.mk 1 "Password Reset" "Reset the VPN password";
          Article.mk 2 "VPN Setup" "VPN configuration guide and password"] in
  NoDup (map Article.ID (elems articles))
  /\ exists r,
       MockAIService.AnalyzeQuery strings.ToLowerASCII MockAIService.NewMockAIService
         "vpn password" articles = Ok r
       /\ NoDup (elems (ai.RelevantArticles r))
       /\ (List.length (elems (ai.RelevantArticles r)) <= List.length (elems articles))%nat.
Proof.
  cbv zeta.
  assert (Hnd : NoDup (map Article.ID
                         (elems (Some [Article.mk 1 "Password Reset" "Reset the VPN password";
                                       Article.mk 2 "VPN Setup"
                                         "VPN configuration guide and password"])))).
  { cbn. repeat (constructor; [cbn; lia|]). constructor. }
  split; [exact Hnd|].
  exact (AnalyzeQuery_no_duplicates strings.ToLowerASCII MockAIService.NewMockAIService
           "vpn password" _ Hnd).
Defined.

(** C3 on the white-space query of the handler tests. *)
Lemma SearchQuery_blank_rejected_witness :
  let text := ("   " ++ String "009" (String "010" "   "))%string in
  let h := SearchHandler.NewSearchHandler
             (SearchService.NewSearchService Sample.fresh MockAIService.NewMockAIService) in
  blank (strings.bytes text)
  /\ @SearchHandler.SearchQuery _ _ _ Sample.mock h (Ok (SearchRequest.mk text))
     = (h, SearchHandler.sendErrorResponse 400 "Query is required" "")
  /\ SQLiteDB.queries
       (SearchService.db
          (SearchHandler.searchService
             (fst (@SearchHandler.SearchQuery _ _ _ Sample.mock h
                     (Ok (SearchRequest.mk text)))))) = [].
Proof.
  cbv zeta.
  assert (Hb : blank (strings.bytes ("   " ++ String "009" (String "010" "   "))%string)).
  { cbn. repeat (apply blank_ascii; [reflexivity|]). apply blank_nil. }
  split; [exact Hb|].
  destruct (@SearchQuery_blank_rejected SQLiteDB.t MockAIService.t _ Sample.mock
              (SearchHandler.NewSearchHandler
                 (SearchService.NewSearchService Sample.fresh
                    MockAIService.NewMockAIService))
              (SearchRequest.mk ("   " ++ String "009" (String "010" "   "))%string) Hb)
    as [Heq _].
  split; [exact Heq|]. rewrite Heq. reflexivity.
Defined.

(** C6 on the seeded catalog, with a repeated and an unknown ID. *)
Lemma GetArticlesByIDs_subset_witness :
  unique_ids Sample.fresh
  /\ SQLiteDB.GetArticlesByIDs (Some []) Sample.fresh = (Sample.fresh, Ok (Some []))
  /\ exists db' arts,
       SQLiteDB.GetArticlesByIDs (Some [2; 999; 2]) Sample.fresh = (db', Ok arts)
       /\ NoDup (map Article.ID (elems arts))
       /\ forall a, In a (elems arts) ->
                    In a (SQLiteDB.articles Sample.fresh)
                    /\ In (Article.ID a) [2; 999; 2].
Proof.
  split; [exact fresh_unique_ids|].
  split.
  - exact (proj1 (GetArticlesByIDs_subset (Some []) Sample.fresh fresh_unique_ids)
             eq_refl).
  - destruct (GetArticlesByIDs_subset (Some [2; 999; 2]) Sample.fresh fresh_unique_ids)
      as (_ & Hsub & Hok).
    destruct (Hok eq_refl eq_refl) as (db' & arts & Hget & _).
    exists db', arts. split; [exact Hget|].
    destruct (Hsub db' arts Hget) as (Hnd & Hin & _).
    split; [exact Hnd | exact Hin].
Defined.

(** C7 on a database file just opened. *)
Lemma Initialize_idempotent_witness :
  SQLiteDB.Initialize Sample.opened = (Sample.fresh, None)
  /\ SQLiteDB.articles (fst (SQLiteDB.Initialize Sample.fresh))
     = SQLiteDB.articles Sample.fresh
  /\ List.length (SQLiteDB.articles Sample.fresh) = 10%nat
  /\ snd (SQLiteDB.Initialize Sample.fresh) = None.
Proof.
  assert (H1 : SQLiteDB.Initialize Sample.opened = (Sample.fresh, None)).
  { vm_compute. reflexivity. }
  split; [exact H1|].
  destruct (Initialize_idempotent Sample.opened Sample.fresh
              (fst (SQLiteDB.Initialize Sample.fresh))
              (snd (SQLiteDB.Initialize Sample.fresh)) H1
              (surjective_pairing _))
    as (Ha & _ & _ & _ & _ & _ & _ & Hr).
  split; [exact Ha|]. split; [vm_compute; reflexivity|].
  apply Hr; vm_compute; reflexivity.
Defined.

(** C5 on the list [1,2,3] of the storage tests. *)
Lemma SearchResult_roundtrip_witness :
  let db := fst (SQLiteDB.CreateQuery "test search query" Sample.fresh) in
  let run := SQLiteDB.CreateSearchResult 1 "AI analysis summary" (Some [1; 2; 3]) db in
  exists created,
    run = (fst run, Ok created)
    /\ SearchResult.AIRelevantArticles created = Some [1; 2; 3]
    /\ exists db2, SQLiteDB.GetSearchResultByQueryID 1 (fst run) = (db2, Ok created).
Proof.
  cbv zeta. eexists. split; [vm_compute; reflexivity|].
  match goal with
  | |- SearchResult.AIRelevantArticles ?c = _ /\ _ =>
      destruct (SearchResult_roundtrip
                  (fst (SQLiteDB.CreateQuery "test search query" Sample.fresh))
                  (fst (SQLiteDB.CreateSearchResult 1 "AI analysis summary" (Some [1; 2; 3])
                          (fst (SQLiteDB.CreateQuery "test search query" Sample.fresh))))
                  1 "AI analysis summary" (Some [1; 2; 3]) c)
        as (Hc & _ & Hf)
  end.
  - reflexivity.
  - intros row Hin. vm_compute in Hin. destruct Hin.
  - vm_compute. reflexivity.
  - split; [exact Hc|]. apply Hf. vm_compute. reflexivity.
Defined.

(** C4 on the password question against the seeded catalog. *)
Lemma ProcessSearchQuery_articles_witness :
  let s := SearchService.NewSearchService Sample.fresh MockAIService.NewMockAIService in
  let run := @SearchService.ProcessSearchQuery _ _ _ Sample.mock s
               "How do I reset my password?" in
  unique_ids Sample.fresh
  /\ exists resp,
       run = (fst run, Ok resp)
       /\ NoDup (map Article.ID (elems (SearchResponse.AIRelevantArticles resp)))
       /\ map Article.ID (elems (SearchResponse.AIRelevantArticles resp)) = [1; 2; 4].
Proof.
  cbv zeta. split; [exact fresh_unique_ids|].
  eexists. split; [vm_compute; reflexivity|].
  match goal with
  | |- NoDup (map Article.ID (elems (SearchResponse.AIRelevantArticles ?r))) /\ _ =>
      destruct (@ProcessSearchQuery_articles MockAIService.t Sample.mock
                  (SearchService.NewSearchService Sample.fresh
                     MockAIService.NewMockAIService)
                  (fst (@SearchService.ProcessSearchQuery _ _ _ Sample.mock
                          (SearchService.NewSearchService Sample.fresh
                             MockAIService.NewMockAIService)
                          "How do I reset my password?"))
                  "How do I reset my password?" r fresh_unique_ids)
        as (aiResult & _ & Hnd & _)
  end.
  - vm_compute. reflexivity.
  - split; [exact Hnd | reflexivity].
Defined.


(** ** The primary key as an invariant *)

Lemma unique_ids_grown (db db' : SQLiteDB.t) newq news stmts :
  grown db db' newq news stmts -> unique_ids db -> unique_ids db'.
Proof.
  unfold unique_ids. intros (_ & _ & _ & _ & Harticles & _) Hu.
  rewrite Harticles. exact Hu.
Qed.

Lemma unique_ids_insert (db : SQLiteDB.t) (title content : string) :
  unique_ids db ->
  unique_ids
    (SQLiteDB.with_articles db
       (SQLiteDB.articles db
        ++ [Article.mk (SQLiteDB.next_id (map Article.ID (SQLiteDB.articles db)))
              title content])).
Proof.
  unfold unique_ids. cbn [SQLiteDB.articles SQLiteDB.with_articles]. intros Hu.
  rewrite map_app. cbn [map Article.ID].
  apply NoDup_app; [exact Hu | repeat constructor; intros [] |].
  intros i Hi [<-|[]].
  pose proof (next_id_fresh _ _ Hi). lia.
Qed.

Lemma unique_ids_insertArticles (rows : list (string * string)) (db : SQLiteDB.t) :
  unique_ids db -> unique_ids (fst (SQLiteDB.insertArticles rows db)).
Proof.
  revert db. induction rows as [|[title content] rest IH]; intros db Hu; [exact Hu|].
  cbn [SQLiteDB.insertArticles].
  destruct (SQLiteDB.send SQLiteDB.InsertArticle db) as [d o] eqn:Hs.
  pose proof (unique_ids_grown _ _ _ _ _ (send_grown _ _ _ _ Hs) Hu) as Hd.
  destruct o as [e|]; [exact Hd|].
  apply IH. apply unique_ids_insert. exact Hd.
Qed.

(** Every database the program builds satisfies it: a new file has no
    article, [Initialize] inserts with fresh ids, and the other
    operations leave the article table alone. *)
Lemma unique_ids_NewSQLiteDB fault clock (db : SQLiteDB.t) :
  SQLiteDB.NewSQLiteDB fault clock = Ok db -> unique_ids db.
Proof.
  unfold SQLiteDB.NewSQLiteDB, SQLiteDB.send. cbn.
  destruct (fault 0%nat); [discriminate|].
  intros Heq. injection Heq as <-. constructor.
Qed.

Lemma unique_ids_Initialize (db : SQLiteDB.t) :
  unique_ids db -> unique_ids (fst (SQLiteDB.Initialize db)).
Proof.
  intros Hu. unfold SQLiteDB.Initialize.
  destruct (SQLiteDB.createTables db) as [d1 r1] eqn:Hc.
  assert (Hd1 : unique_ids d1).
  { apply createTables_effect in Hc. unfold unique_ids.
    rewrite (proj1 Hc). exact Hu. }
  destruct r1 as [e|]; [exact Hd1|].
  unfold SQLiteDB.seedArticles.
  destruct (SQLiteDB.send SQLiteDB.CountArticles d1) as [d2 r2] eqn:Hs.
  pose proof (unique_ids_grown _ _ _ _ _ (send_grown _ _ _ _ Hs) Hd1) as Hd2.
  destruct r2 as [e|]; [exact Hd2|].
  destruct (0 <? _); [exact Hd2|].
  pose proof (unique_ids_insertArticles SQLiteDB.seed d2 Hd2) as Hi.
  destruct (SQLiteDB.insertArticles SQLiteDB.seed d2) as [d3 [e|]]; exact Hi.
Qed.

Lemma unique_ids_process {AI : Type} `{ai.AIServiceInterface AI}
    (s : SearchService.t SQLiteDB.t AI) (q : string) :
  unique_ids (SearchService.db s) ->
  unique_ids (SearchService.db (fst (SearchService.ProcessSearchQuery s q))).
Proof.
  intros Hu. unfold SearchService.ProcessSearchQuery, SearchService.run.
  destruct (SearchService.process (SearchService.aiService s) q (SearchService.db s))
    as [db' r] eqn:Hp.
  apply process_cases in Hp. destruct Hp as (newq & news & stmts & G & _).
  exact (unique_ids_grown _ _ _ _ _ G Hu).
Qed.

(** ** A query with two results *)

(** C5, where the specification's sentence fails: a second result
    created for the same query is returned by the creation with its own
    list, while the fetch by the query's ID still answers with the first
    result. *)
Lemma SearchResult_second_not_fetched :
  let db0 := fst (SQLiteDB.CreateQuery "test search query" Sample.fresh) in
  let db1 := fst (SQLiteDB.CreateSearchResult 1 "first" (Some [9]) db0) in
  let run := SQLiteDB.CreateSearchResult 1 "second" (Some [1; 2; 3]) db1 in
  exists created fetched,
    snd run = Ok created
    /\ SearchResult.AIRelevantArticles created = Some [1; 2; 3]
    /\ snd (SQLiteDB.GetSearchResultByQueryID 1 (fst run)) = Ok fetched
    /\ SearchResult.AIRelevantArticles fetched = Some [9]
    /\ SearchResult.AIRelevantArticles fetched <> Some [1; 2; 3].
Proof.
  cbv zeta. eexists. eexists.
  split; [vm_compute; reflexivity|]. split; [reflexivity|].
  split; [vm_compute; reflexivity|]. split; [reflexivity|].
  cbn. discriminate.
Qed.

(** * Further properties of the code *)

(** ** Configuration and start-up *)

Lemma getEnv_unset (environ : string -> string) (key d : string) :
  environ key = "" -> config.getEnv environ key d = d.
Proof. unfold config.getEnv. intros ->. reflexivity. Qed.

Lemma getEnv_set (environ : string -> string) (key d : string) :
  environ key <> "" -> config.getEnv environ key d = environ key.
Proof.
  unfold config.getEnv. intros Hset.
  destruct (String.eqb_spec (environ key) ""); [contradiction | reflexivity].
Qed.

Lemma LoadConfig_defaults_aux (environ : string -> string) :
  let cfg := config.LoadConfig environ in
  config.Port cfg = (if String.eqb (environ "PORT") "" then "8080" else environ "PORT")
  /\ config.GeminiKey cfg = environ "GEMINI_API_KEY"
  /\ (config.UseMockAI cfg = true
      <-> environ "USE_MOCK_AI" = "" \/ environ "USE_MOCK_AI" = "true").
Proof.
  cbv zeta. unfold config.LoadConfig, config.getEnv.
  cbn [config.Port config.GeminiKey config.UseMockAI].
  split; [|split].
  - destruct (String.eqb (environ "PORT") ""); reflexivity.
  - destruct (String.eqb_spec (environ "GEMINI_API_KEY") ""); cbn; congruence.
  - destruct (String.eqb_spec (environ "USE_MOCK_AI") "") as [He|He]; cbn [negb].
    + split; [auto | reflexivity].
    + rewrite String.eqb_eq. tauto.
Qed.

(** X1: a variable set to the empty string counts as not set; the port
    and the database path are never empty; and the heuristic is switched
    on unless USE_MOCK_AI holds a non-empty text other than the four
    lower-case letters of true. *)
Theorem LoadConfig_defaults (environ : string -> string) :
  let cfg := config.LoadConfig environ in
  config.Port cfg <> "" /\ config.DBPath cfg <> ""
  /\ (environ "PORT" = "" -> config.Port cfg = "8080")
  /\ (environ "DB_PATH" = "" -> config.DBPath cfg = "./data.db")
  /\ config.GeminiKey cfg = environ "GEMINI_API_KEY"
  /\ (config.UseMockAI cfg = true
      <-> environ "USE_MOCK_AI" = "" \/ environ "USE_MOCK_AI" = "true").
Proof.
  cbv zeta. unfold config.LoadConfig. cbn [config.Port config.DBPath config.GeminiKey
                                           config.UseMockAI].
  split; [|split; [|split; [|split; [|split]]]].
  - unfold config.getEnv. destruct (String.eqb_spec (environ "PORT") ""); cbn;
      [discriminate | assumption].
  - unfold config.getEnv. destruct (String.eqb_spec (environ "DB_PATH") ""); cbn;
      [discriminate | assumption].
  - apply getEnv_unset.
  - apply getEnv_unset.
  - unfold config.getEnv. destruct (String.eqb_spec (environ "GEMINI_API_KEY") ""); cbn;
      congruence.
  - unfold config.getEnv. destruct (String.eqb_spec (environ "USE_MOCK_AI") "") as [He|He];
      cbn [negb].
    + split; [auto | reflexivity].
    + rewrite String.eqb_eq. tauto.
Qed.

Lemma Initialize_other_tables (db db' : SQLiteDB.t) (r : option error) :
  SQLiteDB.Initialize db = (db', r) ->
  SQLiteDB.queries db' = SQLiteDB.queries db
  /\ SQLiteDB.search_results db' = SQLiteDB.search_results db
  /\ SQLiteDB.foreign_keys db' = SQLiteDB.foreign_keys db.
Proof.
  assert (Hins : forall rows d d' o,
             SQLiteDB.insertArticles rows d = (d', o) ->
             SQLiteDB.queries d' = SQLiteDB.queries d
             /\ SQLiteDB.search_results d' = SQLiteDB.search_results d
             /\ SQLiteDB.foreign_keys d' = SQLiteDB.foreign_keys d).
  { induction rows as [|[title content] rest IH]; intros d d' o; cbn [SQLiteDB.insertArticles].
    - intros Heq. injection Heq as <- _. auto.
    - destruct (SQLiteDB.send SQLiteDB.InsertArticle d) as [d1 o1] eqn:Hs.
      pose proof (send_grown _ _ _ _ Hs) as (_ & _ & K1 & _ & _ & Q1 & R1 & _).
      rewrite app_nil_r in Q1, R1.
      destruct o1 as [e|].
      + intros Heq. injection Heq as <- _. auto.
      + intros Hi. apply IH in Hi. cbn in Hi. destruct Hi as (Q & R & K).
        rewrite Q, R, K. auto. }
  unfold SQLiteDB.Initialize, SQLiteDB.createTables, SQLiteDB.seedArticles.
  destruct (SQLiteDB.send SQLiteDB.CreateTables db) as [d1 o1] eqn:H1.
  pose proof (send_grown _ _ _ _ H1) as (_ & _ & K1 & _ & _ & Q1 & R1 & _).
  rewrite app_nil_r in Q1, R1.
  destruct o1 as [e|].
  { intros Heq. injection Heq as <- _. auto. }
  destruct (SQLiteDB.send SQLiteDB.CountArticles (SQLiteDB.with_schema d1 true))
    as [d2 o2] eqn:H2.
  pose proof (send_grown _ _ _ _ H2) as (_ & _ & K2 & _ & _ & Q2 & R2 & _).
  rewrite app_nil_r in Q2, R2. cbn in K2, Q2, R2.
  destruct o2 as [e|].
  { intros Heq. injection Heq as <- _. rewrite Q2, R2, K2. auto. }
  destruct (0 <? _).
  { intros Heq. injection Heq as <- _. rewrite Q2, R2, K2. auto. }
  destruct (SQLiteDB.insertArticles SQLiteDB.seed d2) as [d3 o3] eqn:H3.
  apply Hins in H3. destruct H3 as (Q3 & R3 & K3).
  destruct o3 as [e|]; intros Heq; injection Heq as <- _;
    rewrite Q3, R3, K3, Q2, R2, K2; auto.
Qed.

Lemma OpenSQLiteDB_tables (file db : SQLiteDB.t) :
  SQLiteDB.OpenSQLiteDB file = Ok db ->
  SQLiteDB.foreign_keys db = true
  /\ SQLiteDB.schema db = SQLiteDB.schema file
  /\ SQLiteDB.articles db = SQLiteDB.articles file
  /\ SQLiteDB.queries db = SQLiteDB.queries file
  /\ SQLiteDB.search_results db = SQLiteDB.search_results file.
Proof.
  unfold SQLiteDB.OpenSQLiteDB.
  destruct (SQLiteDB.send SQLiteDB.PragmaForeignKeys file) as [d o] eqn:Hs.
  pose proof (send_grown _ _ _ _ Hs) as (_ & _ & _ & S1 & A1 & Q1 & R1 & _).
  rewrite app_nil_r in Q1, R1.
  destruct o as [e|]; [discriminate|].
  intros Heq. injection Heq as <-. cbn. auto.
Qed.

(** What [main] has done when it gets to serve. *)
Lemma main_serving (host : main.Host) (addr : string)
    (h : SearchHandler.t SQLiteDB.t Strategy.t) :
  main.main host = main.Serving addr h ->
  let cfg := config.LoadConfig (main.environ host) in
  exists db0,
    SQLiteDB.OpenSQLiteDB (main.disk host (config.DBPath cfg)) = Ok db0
    /\ SQLiteDB.Initialize db0 = (SearchService.db (SearchHandler.searchService h), None)
    /\ addr = (":" ++ config.Port cfg)%string
    /\ main.listen host addr = None
    /\ ((config.UseMockAI cfg || String.eqb (config.GeminiKey cfg) "" = true
         /\ SearchService.aiService (SearchHandler.searchService h)
            = Strategy.Mock MockAIService.NewMockAIService)
        \/ (config.UseMockAI cfg || String.eqb (config.GeminiKey cfg) "" = false
            /\ exists g,
                 main.dial host (config.GeminiKey cfg) = Ok g
                 /\ SearchService.aiService (SearchHandler.searchService h)
                    = Strategy.Generative g)).
Proof.
  cbv zeta. unfold main.main.
  destruct (SQLiteDB.OpenSQLiteDB _) as [db0|e] eqn:Ho; [|discriminate].
  destruct (SQLiteDB.Initialize db0) as [db1 [e|]] eqn:Hi; [discriminate|].
  destruct (config.UseMockAI _ || String.eqb _ "") eqn:Hsel.
  - destruct (main.listen host _) as [e|] eqn:Hl; [discriminate|].
    intros Heq. injection Heq as <- <-. exists db0.
    cbn [SearchService.db SearchHandler.searchService SearchService.aiService].
    split; [reflexivity|]. split; [exact Hi|]. split; [reflexivity|].
    split; [exact Hl|]. left. split; reflexivity.
  - unfold Gemini.NewGeminiService.
    destruct (String.eqb (config.GeminiKey _) ""); [discriminate|].
    destruct (main.dial host _) as [g|e] eqn:Hd; [|discriminate].
    destruct (main.listen host _) as [e|] eqn:Hl; [discriminate|].
    intros Heq. injection Heq as <- <-. exists db0.
    cbn [SearchService.db SearchHandler.searchService SearchService.aiService].
    split; [reflexivity|]. split; [exact Hi|]. split; [reflexivity|].
    split; [exact Hl|]. right. split; [reflexivity|]. exists g. split; reflexivity.
Qed.

(** X2: which strategy [main] serves with: the generative one exactly
    when USE_MOCK_AI is set to something other than true and a key is
    set, and then the client is the one the service gave for that key;
    the heuristic otherwise.  The address is the configured port, 8080
    when none is set. *)
Theorem main_strategy (host : main.Host) (addr : string)
    (h : SearchHandler.t SQLiteDB.t Strategy.t) :
  main.main host = main.Serving addr h ->
  let env := main.environ host in
  addr = (":" ++ (if String.eqb (env "PORT") "" then "8080" else env "PORT"))%string
  /\ match SearchService.aiService (SearchHandler.searchService h) with
     | Strategy.Mock _ =>
         env "USE_MOCK_AI" = "" \/ env "USE_MOCK_AI" = "true"
         \/ env "GEMINI_API_KEY" = ""
     | Strategy.Generative g =>
         env "USE_MOCK_AI" <> "" /\ env "USE_MOCK_AI" <> "true"
         /\ env "GEMINI_API_KEY" <> ""
         /\ main.dial host (env "GEMINI_API_KEY") = Ok g
     end.
Proof.
  intros Hm env. subst env. apply main_serving in Hm. cbv zeta in Hm.
  destruct Hm as (db0 & _ & _ & -> & _ & Hsel).
  destruct (LoadConfig_defaults_aux (main.environ host)) as (Hport & Hkey & Hmock).
  set (env := main.environ host) in *.
  split; [rewrite Hport; reflexivity|].
  destruct Hsel as [[Hs ->] | [Hs (g & Hd & ->)]].
  - apply orb_true_iff in Hs. destruct Hs as [Hs|Hs].
    + apply Hmock in Hs. tauto.
    + apply String.eqb_eq in Hs. rewrite Hkey in Hs. tauto.
  - apply orb_false_iff in Hs. destruct Hs as [Hs1 Hs2].
    apply String.eqb_neq in Hs2. rewrite Hkey in Hs2, Hd.
    assert (~ (env "USE_MOCK_AI" = "" \/ env "USE_MOCK_AI" = "true")).
    { intros Hc. apply Hmock in Hc. congruence. }
    repeat split; tauto.
Qed.

(** X3: when [main] gets to serve, the database it serves from has its
    schema, enforces foreign keys and holds articles: the catalog when the
    file held none, the file's own articles otherwise; the queries and
    search results of earlier runs are all still there. *)
Theorem main_serves_initialized (host : main.Host) (addr : string)
    (h : SearchHandler.t SQLiteDB.t Strategy.t) :
  main.main host = main.Serving addr h ->
  let file := main.disk host (config.DBPath (config.LoadConfig (main.environ host))) in
  let db := SearchService.db (SearchHandler.searchService h) in
  SQLiteDB.schema db = true /\ SQLiteDB.foreign_keys db = true
  /\ SQLiteDB.articles db <> []
  /\ (SQLiteDB.articles file = [] ->
      map (fun a => (Article.Title a, Article.Content a)) (SQLiteDB.articles db)
      = SQLiteDB.seed)
  /\ (SQLiteDB.articles file <> [] -> SQLiteDB.articles db = SQLiteDB.articles file)
  /\ SQLiteDB.queries db = SQLiteDB.queries file
  /\ SQLiteDB.search_results db = SQLiteDB.search_results file
  /\ (unique_ids file -> unique_ids db).
Proof.
  intros Hm file db. apply main_serving in Hm. cbv zeta in Hm.
  destruct Hm as (db0 & Ho & Hi & _ & _). fold file in Ho. fold db in Hi.
  apply OpenSQLiteDB_tables in Ho. destruct Ho as (K0 & S0 & A0 & Q0 & R0).
  pose proof (Initialize_ok _ _ Hi) as (S1 & Hkeep & Hseed).
  pose proof (Initialize_other_tables _ _ _ Hi) as (Q1 & R1 & K1).
  rewrite A0 in Hkeep, Hseed.
  split; [exact S1|]. split; [congruence|]. split.
  { destruct (SQLiteDB.articles file) as [|a l] eqn:Ha.
    - specialize (Hseed eq_refl). intros Hnil. rewrite Hnil in Hseed. discriminate.
    - rewrite Hkeep; discriminate. }
  split; [exact Hseed|]. split; [exact Hkeep|].
  split; [congruence|]. split; [congruence|].
  intros Hu. assert (Hu0 : unique_ids db0) by (unfold unique_ids; rewrite A0; exact Hu).
  pose proof (unique_ids_Initialize db0 Hu0) as Hu1. rewrite Hi in Hu1. exact Hu1.
Qed.

(** ** Storage: queries *)

Lemma send_table_schema (st : SQLiteDB.Stmt) (db db' : SQLiteDB.t) :
  SQLiteDB.send st db = (db', None) ->
  st <> SQLiteDB.PragmaForeignKeys -> st <> SQLiteDB.CreateTables ->
  SQLiteDB.schema db = true.
Proof.
  unfold SQLiteDB.send. destruct (SQLiteDB.fault db _); [discriminate|].
  destruct st; try contradiction; intros Hs _ _;
    destruct (SQLiteDB.schema db); try reflexivity; discriminate.
Qed.

(** X4: a query that was created carries the text it was given, byte for
    byte, and an id above every id in the table; it is the last row of
    the table, and fetching that id gives it back whenever the engine is
    up. *)
Theorem CreateQuery_roundtrip (text : string) (db db1 : SQLiteDB.t) (row : Query.t) :
  SQLiteDB.CreateQuery text db = (db1, Ok row) ->
  Query.Query row = text
  /\ (forall q, In q (SQLiteDB.queries db) -> Query.ID q < Query.ID row)
  /\ SQLiteDB.queries db1 = SQLiteDB.queries db ++ [row]
  /\ SQLiteDB.articles db1 = SQLiteDB.articles db
  /\ SQLiteDB.search_results db1 = SQLiteDB.search_results db
  /\ (SQLiteDB.fault db1 (List.length (SQLiteDB.journal db1)) = None ->
      exists db2, SQLiteDB.GetQueryByID (Query.ID row) db1 = (db2, Ok row)).
Proof.
  unfold SQLiteDB.CreateQuery.
  destruct (SQLiteDB.send SQLiteDB.InsertQuery db) as [d1 o1] eqn:H1.
  pose proof (send_grown _ _ _ _ H1) as (F1 & _ & _ & S1 & A1 & Q1 & R1 & J1).
  rewrite app_nil_r in Q1, R1.
  destruct o1 as [e|]; [discriminate|].
  assert (Hschema : SQLiteDB.schema db = true).
  { apply (send_table_schema _ _ _ H1); discriminate. }
  set (new := Query.mk (SQLiteDB.next_id (map Query.ID (SQLiteDB.queries d1))) text
                (SQLiteDB.now db)).
  unfold SQLiteDB.GetQueryByID.
  destruct (SQLiteDB.send SQLiteDB.SelectQueryByID
              (SQLiteDB.with_queries d1 (SQLiteDB.queries d1 ++ [new]))) as [d2 o2] eqn:H2.
  pose proof (send_grown _ _ _ _ H2) as (F2 & _ & _ & S2 & A2 & Q2 & R2 & J2).
  rewrite app_nil_r in Q2, R2.
  cbn [SQLiteDB.queries SQLiteDB.with_queries SQLiteDB.articles SQLiteDB.search_results
       SQLiteDB.schema SQLiteDB.fault] in A2, Q2, R2, S2, F2.
  destruct o2 as [e|]; [discriminate|].
  rewrite Q2.
  change (SQLiteDB.next_id (map Query.ID (SQLiteDB.queries d1))) with (Query.ID new).
  rewrite (find_fresh Query.ID) by reflexivity.
  intros Heq. injection Heq as <- <-.
  split; [reflexivity|]. split.
  { intros q Hq. cbn [Query.ID new]. unfold new. cbn [Query.ID]. rewrite Q1.
    apply next_id_fresh. apply in_map. exact Hq. }
  split; [rewrite Q2, Q1; reflexivity|].
  split; [congruence|]. split; [congruence|].
  intros Hf. rewrite send_healthy; [|exact Hf | congruence].
  cbn [SQLiteDB.queries SQLiteDB.with_journal]. rewrite Q2.
  rewrite (find_fresh Query.ID) by reflexivity. eexists. reflexivity.
Qed.

(** ** Storage: articles *)

Lemma find_unique_id (rows : list Article.t) (a : Article.t) :
  NoDup (map Article.ID rows) -> In a rows ->
  find (fun b => Article.ID b =? Article.ID a) rows = Some a.
Proof.
  induction rows as [|b rows IH]; intros Hnd Hin; [destruct Hin|].
  apply NoDup_cons_iff in Hnd. destruct Hnd as [Hnew Hold].
  cbn [find]. destruct Hin as [->|Hin].
  - rewrite Z.eqb_refl. reflexivity.
  - destruct (Z.eqb_spec (Article.ID b) (Article.ID a)) as [Heq|_].
    + exfalso. apply Hnew. rewrite Heq. apply in_map. exact Hin.
    + apply IH; assumption.
Qed.

(** X5: with the engine up, the listing gives every row of the article
    table in table order; each listed article is fetched by its id, and
    an id that is not listed is answered with the no-rows error. *)
Theorem GetArticleByID_listed (db : SQLiteDB.t) :
  unique_ids db ->
  SQLiteDB.fault db (List.length (SQLiteDB.journal db)) = None ->
  SQLiteDB.schema db = true ->
  exists db1 listed,
    SQLiteDB.GetAllArticles db = (db1, Ok listed)
    /\ elems listed = SQLiteDB.articles db
    /\ (forall a, In a (elems listed) ->
                  exists db2, SQLiteDB.GetArticleByID (Article.ID a) db = (db2, Ok a))
    /\ (forall id, ~ In id (map Article.ID (elems listed)) ->
                   exists db2, SQLiteDB.GetArticleByID id db
                               = (db2, Err SQLiteDB.ErrNoRows)).
Proof.
  intros Hu Hf Hs. unfold SQLiteDB.GetAllArticles, SQLiteDB.GetArticleByID.
  rewrite (send_healthy SQLiteDB.SelectArticles _ Hf Hs).
  cbn [SQLiteDB.articles SQLiteDB.with_journal].
  eexists. eexists. split; [reflexivity|]. rewrite elems_collect.
  split; [reflexivity|]. split.
  - intros a Ha. rewrite (send_healthy _ _ Hf Hs).
    cbn [SQLiteDB.articles SQLiteDB.with_journal].
    rewrite (find_unique_id _ _ Hu Ha). eexists. reflexivity.
  - intros id Hid. rewrite (send_healthy _ _ Hf Hs).
    cbn [SQLiteDB.articles SQLiteDB.with_journal].
    rewrite find_absent; [eexists; reflexivity|].
    intros a Ha. apply Z.eqb_neq. intros Heq. apply Hid. rewrite <- Heq.
    apply in_map. exact Ha.
Qed.

(** X6: the answer to a list of ids depends on which ids are in the list
    only: their order and their repetitions do not show in the result,
    which follows the table. *)
Theorem GetArticlesByIDs_same_set (ids1 ids2 : slice int) (db : SQLiteDB.t) :
  (forall i, In i (elems ids1) <-> In i (elems ids2)) ->
  SQLiteDB.GetArticlesByIDs ids1 db = SQLiteDB.GetArticlesByIDs ids2 db.
Proof.
  intros Hsame. unfold SQLiteDB.GetArticlesByIDs.
  assert (Hlen : (len ids1 =? 0) = (len ids2 =? 0)).
  { unfold len. destruct (elems ids1) as [|x l1], (elems ids2) as [|y l2]; try reflexivity.
    - exfalso. apply (proj2 (Hsame y)). left. reflexivity.
    - exfalso. apply (proj1 (Hsame x)). left. reflexivity. }
  rewrite Hlen. destruct (len ids2 =? 0); [reflexivity|].
  destruct (SQLiteDB.send SQLiteDB.SelectArticlesIn db) as [d [e|]]; [reflexivity|].
  do 3 f_equal. apply filter_ext. intros a.
  destruct (SQLiteDB.member (Article.ID a) (elems ids1)) eqn:H1.
  - symmetry. apply member_In. apply Hsame. apply member_In. exact H1.
  - destruct (SQLiteDB.member (Article.ID a) (elems ids2)) eqn:H2; [|reflexivity].
    apply member_In in H2. apply Hsame in H2. apply member_In in H2. congruence.
Qed.

(** ** Storage: search results *)

(** X7: with foreign keys on, a search result for a query id that no
    query has is refused and nothing is written; when the engine is up the
    error is the foreign-key failure. *)
Theorem CreateSearchResult_foreign_key (queryID : int) (summary : string)
    (ids : slice int) (db : SQLiteDB.t) :
  SQLiteDB.foreign_keys db = true ->
  (forall q, In q (SQLiteDB.queries db) -> Query.ID q <> queryID) ->
  exists db' e,
    SQLiteDB.CreateSearchResult queryID summary ids db = (db', Err e)
    /\ SQLiteDB.search_results db' = SQLiteDB.search_results db
    /\ SQLiteDB.queries db' = SQLiteDB.queries db
    /\ (SQLiteDB.fault db (List.length (SQLiteDB.journal db)) = None ->
        SQLiteDB.schema db = true -> e = SQLiteDB.errForeignKey).
Proof.
  intros Hfk Hnone. unfold SQLiteDB.CreateSearchResult.
  destruct (json.Marshal ids) as [text|e] eqn:Hm; [|destruct ids; discriminate].
  destruct (SQLiteDB.send SQLiteDB.InsertSearchResult db) as [d1 o1] eqn:H1.
  pose proof (send_grown _ _ _ _ H1) as (_ & _ & K1 & _ & _ & Q1 & R1 & _).
  rewrite app_nil_r in Q1, R1.
  destruct o1 as [e|].
  - exists d1, e. split; [reflexivity|]. split; [exact R1|]. split; [exact Q1|].
    intros Hf Hs. rewrite (send_healthy _ _ Hf Hs) in H1. discriminate.
  - rewrite K1, Hfk, Q1.
    replace (existsb (fun q => Query.ID q =? queryID) (SQLiteDB.queries db)) with false.
    + cbn [andb negb]. exists d1, SQLiteDB.errForeignKey.
      split; [reflexivity|]. split; [exact R1|]. split; [exact Q1|]. reflexivity.
    + symmetry. apply not_true_is_false. intros Hex.
      apply existsb_exists in Hex. destruct Hex as [q [Hq Heq]].
      apply Z.eqb_eq in Heq. exact (Hnone q Hq Heq).
Qed.

(** X8: a search result that was created is fetched again by its own id
    exactly as the creation returned it, however many results its query
    has. *)
Theorem GetSearchResultByID_created (queryID : int) (summary : string) (ids : slice int)
    (db db1 : SQLiteDB.t) (created : SearchResult.t) :
  SQLiteDB.CreateSearchResult queryID summary ids db = (db1, Ok created) ->
  SearchResult.QueryID created = queryID
  /\ SearchResult.AISummaryAnswer created = summary
  /\ (forall r, In r (SQLiteDB.search_results db) -> SQLiteDB.id r < SearchResult.ID created)
  /\ (SQLiteDB.fault db1 (List.length (SQLiteDB.journal db1)) = None ->
      exists db2,
        SQLiteDB.GetSearchResultByID (SearchResult.ID created) db1 = (db2, Ok created)).
Proof.
  intros Hc. apply CreateSearchResult_cases in Hc.
  destruct Hc as [[[e He] _] | (row & Hq & Hs & Hm & Hid & Hschema & G & Hr)];
    [discriminate|].
  destruct Hr as [Hr | [e He]]; [|discriminate].
  assert (Hfields : SearchResult.ID created = SQLiteDB.id row
                    /\ SearchResult.QueryID created = SQLiteDB.query_id row
                    /\ SearchResult.AISummaryAnswer created = SQLiteDB.ai_summary_answer row).
  { unfold SQLiteDB.scanRow in Hr. destruct (json.Unmarshal _); [|discriminate].
    injection Hr as ->. auto. }
  destruct Hfields as (Hi & Hqi & Hsi).
  split; [congruence|]. split; [congruence|]. split.
  { intros r Hin. rewrite Hi, Hid. apply next_id_fresh. apply in_map. exact Hin. }
  intros Hf. destruct G as (_ & _ & _ & S1 & _ & _ & R1 & _).
  unfold SQLiteDB.GetSearchResultByID.
  rewrite send_healthy; [|exact Hf | congruence].
  cbn [SQLiteDB.search_results SQLiteDB.with_journal].
  rewrite R1, Hi, (find_fresh SQLiteDB.id) by exact Hid.
  rewrite <- Hr. eexists. reflexivity.
Qed.

(** ** Seeding *)

Lemma max_floor (l : list int) (b : int) :
  0 <= b -> fold_right Z.max b l = Z.max b (fold_right Z.max 0 l).
Proof.
  intros Hb. induction l as [|a l IH]; cbn [fold_right]; [lia|]. rewrite IH. lia.
Qed.

Lemma next_id_next (l : list int) :
  SQLiteDB.next_id (l ++ [SQLiteDB.next_id l]) = SQLiteDB.next_id l + 1.
Proof.
  unfold SQLiteDB.next_id. rewrite fold_right_app. cbn [fold_right].
  assert (H0 : 0 <= fold_right Z.max 0 l).
  { induction l as [|a l IH]; cbn [fold_right]; lia. }
  rewrite max_floor by lia. lia.
Qed.

Lemma insertArticles_prefix (rows : list (string * string)) (db db' : SQLiteDB.t)
    (r : option error) :
  SQLiteDB.insertArticles rows db = (db', r) ->
  exists k,
    (k <= List.length rows)%nat
    /\ map (fun a => (Article.Title a, Article.Content a)) (SQLiteDB.articles db')
       = map (fun a => (Article.Title a, Article.Content a)) (SQLiteDB.articles db)
         ++ firstn k rows
    /\ map Article.ID (SQLiteDB.articles db')
       = map Article.ID (SQLiteDB.articles db)
         ++ map (fun i => SQLiteDB.next_id (map Article.ID (SQLiteDB.articles db))
                          + Z.of_nat i) (seq 0 k)
    /\ (r = None <-> k = List.length rows)
    /\ SQLiteDB.queries db' = SQLiteDB.queries db
    /\ SQLiteDB.search_results db' = SQLiteDB.search_results db.
Proof.
  revert db. induction rows as [|[title content] rows IH]; intros db Hrun.
  - cbn in Hrun. injection Hrun as <- <-. exists 0%nat. cbn [firstn seq map List.length].
    rewrite !app_nil_r. repeat split; auto.
  - cbn [SQLiteDB.insertArticles] in Hrun.
    destruct (SQLiteDB.send SQLiteDB.InsertArticle db) as [d1 o] eqn:Hs.
    pose proof (send_grown _ _ _ _ Hs) as (_ & _ & _ & _ & A1 & Q1 & R1 & _).
    rewrite app_nil_r in Q1, R1.
    destruct o as [e|].
    + injection Hrun as <- <-. exists 0%nat. cbn [firstn seq map List.length].
      rewrite !app_nil_r, A1.
      split; [lia|]. split; [reflexivity|]. split; [reflexivity|].
      split; [split; discriminate|]. split; assumption.
    + apply IH in Hrun. destruct Hrun as (k & Hk & Ht & Hi & Hr & Hq & Hres).
      cbn [SQLiteDB.articles SQLiteDB.with_articles SQLiteDB.queries
           SQLiteDB.search_results] in Ht, Hi, Hq, Hres.
      rewrite A1 in Ht, Hi. exists (S k). cbn [List.length firstn].
      split; [lia|]. split.
      { rewrite Ht, map_app, <- app_assoc. reflexivity. }
      split.
      { rewrite Hi, map_app, <- app_assoc. cbn [map Article.ID app seq].
        rewrite next_id_next, <- seq_shift, map_map, Z.add_0_r.
        do 2 f_equal. apply map_ext. intros i. lia. }
      split; [rewrite Hr; split; lia|]. split; congruence.
Qed.

(** X9: on an empty article table [Initialize] inserts the catalog from
    its start, with the ids 1, 2, ... in order; it reports no error if and
    only if it has inserted all of it; and when a failure left the table
    with a part of the catalog, no later [Initialize] adds the rest. *)
Theorem Initialize_partial_catalog (db db1 : SQLiteDB.t) (r1 : option error) :
  SQLiteDB.articles db = [] ->
  SQLiteDB.Initialize db = (db1, r1) ->
  exists k,
    (k <= List.length SQLiteDB.seed)%nat
    /\ map (fun a => (Article.Title a, Article.Content a)) (SQLiteDB.articles db1)
       = firstn k SQLiteDB.seed
    /\ map Article.ID (SQLiteDB.articles db1) = map Z.of_nat (seq 1 k)
    /\ (r1 = None <-> k = List.length SQLiteDB.seed)
    /\ (0 < k ->
        forall db2 r2, SQLiteDB.Initialize db1 = (db2, r2) ->
                       SQLiteDB.articles db2 = SQLiteDB.articles db1)%nat.
Proof.
  intros Hempty Hrun.
  assert (Hshape : exists k,
             (k <= List.length SQLiteDB.seed)%nat
             /\ map (fun a => (Article.Title a, Article.Content a)) (SQLiteDB.articles db1)
                = firstn k SQLiteDB.seed
             /\ map Article.ID (SQLiteDB.articles db1) = map Z.of_nat (seq 1 k)
             /\ (r1 = None <-> k = List.length SQLiteDB.seed)).
  { unfold SQLiteDB.Initialize in Hrun.
    destruct (SQLiteDB.createTables db) as [d1 o1] eqn:Hc.
    pose proof (createTables_effect _ _ _ Hc) as (A1 & _).
    destruct o1 as [e|].
    - injection Hrun as <- <-. exists 0%nat. rewrite A1, Hempty.
      split; [cbn; lia|]. split; [reflexivity|]. split; [reflexivity|].
      split; discriminate.
    - unfold SQLiteDB.seedArticles in Hrun.
      destruct (SQLiteDB.send SQLiteDB.CountArticles d1) as [d2 o2] eqn:Hs.
      pose proof (send_grown _ _ _ _ Hs) as (_ & _ & _ & _ & A2 & _).
      destruct o2 as [e|].
      + injection Hrun as <- <-. exists 0%nat. rewrite A2, A1, Hempty.
        split; [cbn; lia|]. split; [reflexivity|]. split; [reflexivity|].
        split; discriminate.
      + assert (Ha2 : SQLiteDB.articles d2 = []) by congruence.
        rewrite Ha2 in Hrun. cbn [List.length Z.of_nat Z.ltb Z.compare] in Hrun.
        destruct (SQLiteDB.insertArticles SQLiteDB.seed d2) as [d3 o3] eqn:Hins.
        apply insertArticles_prefix in Hins.
        destruct Hins as (k & Hk & Ht & Hi & Hr & _).
        rewrite Ha2 in Ht, Hi. cbn [map app] in Ht, Hi.
        assert (Hd : db1 = d3) by (destruct o3; injection Hrun; auto).
        subst d3. exists k. split; [exact Hk|]. split; [exact Ht|]. split.
        * rewrite Hi, <- seq_shift, map_map. apply map_ext. intros i.
          unfold SQLiteDB.next_id. cbn [fold_right]. lia.
        * rewrite <- Hr. destruct o3 as [e|].
          -- injection Hrun as <-. split; discriminate.
          -- injection Hrun as <-. split; reflexivity. }
  destruct Hshape as (k & Hk & Ht & Hi & Hr). exists k.
  split; [exact Hk|]. split; [exact Ht|]. split; [exact Hi|]. split; [exact Hr|].
  intros Hpos db2 r2 Hagain.
  assert (Hne : SQLiteDB.articles db1 <> []).
  { intros Hnil. rewrite Hnil in Hi. destruct k; [lia|]. discriminate. }
  apply (Initialize_seeded _ _ _ Hne) in Hagain. exact (proj1 Hagain).
Qed.

(** ** Rows are only ever added *)

Lemma extends_refl (db : SQLiteDB.t) : extends db db.
Proof. repeat split; exists []; rewrite app_nil_r; reflexivity. Qed.

Lemma extends_trans (db1 db2 db3 : SQLiteDB.t) :
  extends db1 db2 -> extends db2 db3 -> extends db1 db3.
Proof.
  intros ([a1 A1] & [q1 Q1] & [r1 R1]) ([a2 A2] & [q2 Q2] & [r2 R2]).
  split; [exists (a1 ++ a2); rewrite A2, A1, app_assoc; reflexivity|].
  split; [exists (q1 ++ q2); rewrite Q2, Q1, app_assoc; reflexivity|].
  exists (r1 ++ r2); rewrite R2, R1, app_assoc; reflexivity.
Qed.

Lemma grown_extends (db db' : SQLiteDB.t) newq news stmts :
  grown db db' newq news stmts -> extends db db'.
Proof.
  intros (_ & _ & _ & _ & A & Q & R & _).
  split; [exists []; rewrite app_nil_r; exact A|].
  split; [exists newq; exact Q | exists news; exact R].
Qed.

Lemma insertArticles_appends (rows : list (string * string)) (db db' : SQLiteDB.t)
    (r : option error) :
  SQLiteDB.insertArticles rows db = (db', r) ->
  (exists a, SQLiteDB.articles db' = SQLiteDB.articles db ++ a)
  /\ SQLiteDB.schema db' = SQLiteDB.schema db.
Proof.
  revert db. induction rows as [|[title content] rows IH]; intros db Hrun.
  - injection Hrun as <- <-. split; [exists []; rewrite app_nil_r|]; reflexivity.
  - cbn [SQLiteDB.insertArticles] in Hrun.
    destruct (SQLiteDB.send SQLiteDB.InsertArticle db) as [d1 [e|]] eqn:Hs;
      pose proof (send_grown _ _ _ _ Hs) as (_ & _ & _ & S & A & _).
    + injection Hrun as <- <-. split; [exists []; rewrite app_nil_r|]; assumption.
    + apply IH in Hrun. destruct Hrun as [[a Ha] Hsch].
      cbn [SQLiteDB.articles SQLiteDB.schema SQLiteDB.with_articles] in Ha, Hsch.
      split; [|congruence]. eexists. rewrite Ha, A, <- app_assoc. reflexivity.
Qed.

Lemma seedArticles_appends (db db' : SQLiteDB.t) (r : option error) :
  SQLiteDB.seedArticles db = (db', r) ->
  (exists a, SQLiteDB.articles db' = SQLiteDB.articles db ++ a)
  /\ SQLiteDB.schema db' = SQLiteDB.schema db.
Proof.
  unfold SQLiteDB.seedArticles.
  destruct (SQLiteDB.send SQLiteDB.CountArticles db) as [d1 o] eqn:Hs.
  pose proof (send_grown _ _ _ _ Hs) as (_ & _ & _ & S & A & _).
  assert (Hsame : (exists a, SQLiteDB.articles d1 = SQLiteDB.articles db ++ a)
                  /\ SQLiteDB.schema d1 = SQLiteDB.schema db).
  { split; [exists []; rewrite app_nil_r|]; assumption. }
  destruct o as [e|]; [intros Heq; injection Heq as <- <-; exact Hsame|].
  destruct (0 <? Z.of_nat (List.length (SQLiteDB.articles d1)));
    [intros Heq; injection Heq as <- <-; exact Hsame|].
  intros Hins. apply insertArticles_appends in Hins. rewrite <- A, <- S. exact Hins.
Qed.

Lemma Initialize_extends (db : SQLiteDB.t) :
  extends db (fst (SQLiteDB.Initialize db))
  /\ SQLiteDB.foreign_keys (fst (SQLiteDB.Initialize db)) = SQLiteDB.foreign_keys db
  /\ (SQLiteDB.schema db = true -> SQLiteDB.schema (fst (SQLiteDB.Initialize db)) = true).
Proof.
  destruct (SQLiteDB.Initialize db) as [db' r] eqn:Hrun. cbn [fst].
  pose proof (Initialize_other_tables _ _ _ Hrun) as (Q & R & K).
  assert (Hart : (exists a, SQLiteDB.articles db' = SQLiteDB.articles db ++ a)
                 /\ (SQLiteDB.schema db = true -> SQLiteDB.schema db' = true)).
  { unfold SQLiteDB.Initialize in Hrun.
    destruct (SQLiteDB.createTables db) as [d1 o1] eqn:Hc.
    pose proof (createTables_effect _ _ _ Hc) as (A1 & _ & _ & _ & _ & S1 & _).
    destruct o1 as [e|].
    - injection Hrun as <- <-. split; [exists []; rewrite app_nil_r|]; assumption.
    - destruct (SQLiteDB.seedArticles d1) as [d2 o2] eqn:Hsd.
      apply seedArticles_appends in Hsd. destruct Hsd as [Ha Hs].
      assert (Hd : db' = d2) by (destruct o2; injection Hrun; auto).
      subst d2. rewrite <- A1. split; [exact Ha|]. intros H1. rewrite Hs. auto. }
  destruct Hart as [Ha Hs].
  split; [|split; [exact K | exact Hs]].
  split; [exact Ha|].
  split; [exists []; rewrite app_nil_r; exact Q | exists []; rewrite app_nil_r; exact R].
Qed.

Ltac lookup Hg :=
  match goal with
  | |- context [SQLiteDB.send ?st ?db] =>
      let Hs := fresh "Hs" in
      destruct (SQLiteDB.send st db) as [? [?|]] eqn:Hs;
      [|destruct (find _ _)];
      exact (Hg _ _ _ _ (send_grown _ _ _ _ Hs))
  end.

Lemma after_extends (c : Call) (db : SQLiteDB.t) :
  extends db (after c db)
  /\ SQLiteDB.foreign_keys (after c db) = SQLiteDB.foreign_keys db
  /\ (SQLiteDB.schema db = true -> SQLiteDB.schema (after c db) = true)
  /\ (unique_ids db -> unique_ids (after c db)).
Proof.
  assert (Hg : forall db' newq news stmts,
             grown db db' newq news stmts ->
             extends db db'
             /\ SQLiteDB.foreign_keys db' = SQLiteDB.foreign_keys db
             /\ (SQLiteDB.schema db = true -> SQLiteDB.schema db' = true)
             /\ (unique_ids db -> unique_ids db')).
  { intros db' newq news stmts G. split; [exact (grown_extends _ _ _ _ _ G)|].
    split; [exact (proj1 (proj2 (proj2 G)))|]. split.
    - destruct G as (_ & _ & _ & S & _). congruence.
    - exact (unique_ids_grown _ _ _ _ _ G). }
  destruct c; cbn [after].
  - destruct (Initialize_extends db) as (E & K & S).
    split; [exact E|]. split; [exact K|]. split; [exact S|].
    exact (unique_ids_Initialize db).
  - destruct (SQLiteDB.GetAllArticles db) as [db' r] eqn:Hrun.
    apply GetAllArticles_cases in Hrun. exact (Hg _ _ _ _ (proj1 Hrun)).
  - unfold SQLiteDB.GetArticleByID. lookup Hg.
  - destruct (SQLiteDB.GetArticlesByIDs ids db) as [db' r] eqn:Hrun.
    apply GetArticlesByIDs_run in Hrun. destruct Hrun as (stmts & G & _).
    exact (Hg _ _ _ _ G).
  - destruct (SQLiteDB.CreateQuery query db) as [db' r] eqn:Hrun.
    apply CreateQuery_cases in Hrun.
    destruct Hrun as [[_ G] | (row & _ & _ & G & _)]; exact (Hg _ _ _ _ G).
  - unfold SQLiteDB.GetQueryByID. lookup Hg.
  - destruct (SQLiteDB.CreateSearchResult queryID summary ids db) as [db' r] eqn:Hrun.
    apply CreateSearchResult_cases in Hrun.
    destruct Hrun as [[_ G] | (row & _ & _ & _ & _ & _ & G & _)]; exact (Hg _ _ _ _ G).
  - unfold SQLiteDB.GetSearchResultByID. lookup Hg.
  - unfold SQLiteDB.GetSearchResultByQueryID. lookup Hg.
Qed.

(** X10: no sequence of calls of the storage methods removes or changes a
    stored row: each table after the calls is the table before with rows
    added at its end; the foreign-key setting stays, an existing schema
    stays, and ids stay unique among the articles. *)
Theorem calls_append_only (calls : list Call) (db : SQLiteDB.t) :
  let db' := fold_left (fun d c => after c d) calls db in
  extends db db'
  /\ SQLiteDB.foreign_keys db' = SQLiteDB.foreign_keys db
  /\ (SQLiteDB.schema db = true -> SQLiteDB.schema db' = true)
  /\ (unique_ids db -> unique_ids db').
Proof.
  cbv zeta. revert db. induction calls as [|c calls IH]; intros db; cbn [fold_left].
  - split; [apply extends_refl|]. auto.
  - destruct (after_extends c db) as (E1 & K1 & S1 & U1).
    destruct (IH (after c db)) as (E2 & K2 & S2 & U2).
    split; [exact (extends_trans _ _ _ E1 E2)|].
    split; [congruence|]. split; auto.
Qed.

(** ** Runs on an engine that is up *)

Lemma available_now (db : SQLiteDB.t) (k : nat) :
  available db (S k) ->
  SQLiteDB.fault db (List.length (SQLiteDB.journal db)) = None.
Proof. intros Hup. rewrite <- (Nat.add_0_r (List.length _)). apply Hup. lia. Qed.

Lemma available_grown (db db' : SQLiteDB.t) newq news stmts (k : nat) :
  grown db db' newq news stmts ->
  available db (List.length stmts + k) -> available db' k.
Proof.
  intros (F & _ & _ & _ & _ & _ & _ & J) Hup i Hi.
  rewrite F, J, length_app, <- Nat.add_assoc. apply Hup. lia.
Qed.

Lemma grown_schema (db db' : SQLiteDB.t) newq news stmts :
  grown db db' newq news stmts -> SQLiteDB.schema db = true -> SQLiteDB.schema db' = true.
Proof. intros (_ & _ & _ & S & _). congruence. Qed.

Lemma CreateQuery_available (text : string) (db : SQLiteDB.t) :
  SQLiteDB.schema db = true -> available db 2 ->
  exists db' row,
    SQLiteDB.CreateQuery text db = (db', Ok row)
    /\ Query.Query row = text /\ Query.CreatedAt row = SQLiteDB.now db
    /\ Query.ID row = SQLiteDB.next_id (map Query.ID (SQLiteDB.queries db))
    /\ grown db db' [row] [] [SQLiteDB.InsertQuery; SQLiteDB.SelectQueryByID].
Proof.
  intros Hs Hup.
  destruct (SQLiteDB.CreateQuery text db) as [db' r] eqn:Hrun.
  pose proof Hrun as Hc. apply CreateQuery_cases in Hc.
  unfold SQLiteDB.CreateQuery in Hrun.
  rewrite (send_healthy _ _ (available_now _ _ Hup) Hs) in Hrun.
  cbn [SQLiteDB.queries SQLiteDB.with_journal] in Hrun.
  unfold SQLiteDB.GetQueryByID in Hrun.
  rewrite send_healthy in Hrun; [|cbn; rewrite length_app; apply Hup; cbn; lia | exact Hs].
  cbn [SQLiteDB.queries SQLiteDB.with_journal SQLiteDB.with_queries] in Hrun.
  set (new := Query.mk (SQLiteDB.next_id (map Query.ID (SQLiteDB.queries db))) text
                (SQLiteDB.now db)) in Hrun.
  change (SQLiteDB.next_id (map Query.ID (SQLiteDB.queries db))) with (Query.ID new) in Hrun.
  rewrite (find_fresh Query.ID) in Hrun by reflexivity.
  injection Hrun as <- <-.
  destruct Hc as [[[e He] _] | (row & Hq & Ht & G & Hr)]; [discriminate|].
  destruct Hr as [Hr | [e He]]; [|discriminate].
  injection Hr as <-. eexists. exists new. split; [reflexivity|].
  split; [reflexivity|]. split; [reflexivity|]. split; [reflexivity|]. exact G.
Qed.

Lemma CreateSearchResult_available (queryID : int) (summary : string) (ids : slice int)
    (db : SQLiteDB.t) :
  SQLiteDB.schema db = true -> available db 2 ->
  (exists q, In q (SQLiteDB.queries db) /\ Query.ID q = queryID) ->
  forallb is_int (elems ids) = true ->
  exists db' row,
    SQLiteDB.CreateSearchResult queryID summary ids db
    = (db', Ok (SearchResult.mk (SQLiteDB.id row) queryID summary ids (SQLiteDB.now db)))
    /\ SQLiteDB.query_id row = queryID
    /\ SQLiteDB.ai_summary_answer row = summary
    /\ json.Marshal ids = Ok (SQLiteDB.ai_relevant_articles row)
    /\ grown db db' [] [row]
         [SQLiteDB.InsertSearchResult; SQLiteDB.SelectSearchResultByID].
Proof.
  intros Hs Hup [q [Hq Hqi]] Hint.
  destruct (SQLiteDB.CreateSearchResult queryID summary ids db) as [db' r] eqn:Hrun.
  pose proof Hrun as Hc. apply CreateSearchResult_cases in Hc.
  unfold SQLiteDB.CreateSearchResult in Hrun.
  destruct (Unmarshal_Marshal ids Hint) as (text & Hm & Hu).
  rewrite Hm in Hrun.
  rewrite (send_healthy _ _ (available_now _ _ Hup) Hs) in Hrun.
  cbn [SQLiteDB.queries SQLiteDB.with_journal SQLiteDB.foreign_keys
       SQLiteDB.search_results] in Hrun.
  replace (existsb (fun q0 => Query.ID q0 =? queryID) (SQLiteDB.queries db))
    with true in Hrun
    by (symmetry; apply existsb_exists; exists q; split; [exact Hq | apply Z.eqb_eq; exact Hqi]).
  rewrite andb_false_r in Hrun.
  unfold SQLiteDB.GetSearchResultByID in Hrun.
  rewrite send_healthy in Hrun; [|cbn; rewrite length_app; apply Hup; cbn; lia | exact Hs].
  cbn [SQLiteDB.search_results SQLiteDB.with_journal SQLiteDB.with_search_results] in Hrun.
  set (new := SQLiteDB.mkRow (SQLiteDB.next_id (map SQLiteDB.id (SQLiteDB.search_results db)))
                queryID summary text (SQLiteDB.now db)) in Hrun.
  change (SQLiteDB.next_id (map SQLiteDB.id (SQLiteDB.search_results db)))
    with (SQLiteDB.id new) in Hrun.
  rewrite (find_fresh SQLiteDB.id) in Hrun by reflexivity.
  unfold SQLiteDB.scanRow in Hrun. cbn [SQLiteDB.ai_relevant_articles new] in Hrun.
  unfold new in Hrun at 1. cbn [SQLiteDB.ai_relevant_articles] in Hrun.
  rewrite Hu in Hrun. injection Hrun as <- <-.
  destruct Hc as [[[e He] _] | (row & Hrq & Hrs & Hrm & Hid & _ & G & Hr)]; [discriminate|].
  eexists. exists new. split; [reflexivity|]. split; [reflexivity|]. split; [reflexivity|].
  split; [exact Hm|].
  assert (Hrow : row = new).
  { destruct G as (_ & _ & _ & _ & _ & _ & R & _).
    cbn [SQLiteDB.search_results SQLiteDB.with_journal SQLiteDB.with_search_results] in R.
    apply app_inv_head in R. injection R as Hnr. symmetry. exact Hnr. }
  rewrite <- Hrow. exact G.
Qed.

Lemma GetArticlesByIDs_available (ids : slice int) (db : SQLiteDB.t) :
  SQLiteDB.schema db = true -> available db 1 ->
  exists db' stmts,
    SQLiteDB.GetArticlesByIDs ids db = (db', Ok (relevantRows ids (SQLiteDB.articles db)))
    /\ grown db db' [] [] stmts /\ (List.length stmts <= 1)%nat.
Proof.
  intros Hs Hup. unfold SQLiteDB.GetArticlesByIDs, relevantRows.
  destruct (len ids =? 0).
  - exists db, []. split; [reflexivity|]. split; [apply grown_refl | cbn; lia].
  - destruct (SQLiteDB.send SQLiteDB.SelectArticlesIn db) as [d o] eqn:Hsend.
    pose proof (send_grown _ _ _ _ Hsend) as G.
    rewrite (send_healthy _ _ (available_now _ _ Hup) Hs) in Hsend.
    injection Hsend as <- <-. eexists. exists [SQLiteDB.SelectArticlesIn].
    split; [reflexivity|]. split; [exact G | cbn; lia].
Qed.

Lemma process_available {AI : Type} `{ai.AIServiceInterface AI} (aiService : AI)
    (q : string) (db : SQLiteDB.t) (aiResult : ai.AIAnalysisResult) :
  SQLiteDB.schema db = true -> available db 6 ->
  ai.AnalyzeQuery aiService q (collect (SQLiteDB.articles db)) = Ok aiResult ->
  forallb is_int (elems (ai.RelevantArticles aiResult)) = true ->
  exists db' qrow,
    SearchService.process aiService q db
    = (db', Ok (SearchResponse.mk q (ai.Summary aiResult)
                  (relevantRows (ai.RelevantArticles aiResult) (SQLiteDB.articles db))
                  (Query.ID qrow) (SQLiteDB.now db)))
    /\ Query.Query qrow = q
    /\ Query.ID qrow = SQLiteDB.next_id (map Query.ID (SQLiteDB.queries db))
    /\ exists srow stmts, grown db db' [qrow] [srow] stmts.
Proof.
  intros Hs Hup Hai Hint.
  destruct (CreateQuery_available q db Hs) as (d1 & qrow & H1 & Hq & Ht & Hn & G1);
    [intros i Hi; apply Hup; lia|].
  assert (U1 : available d1 4) by (apply (available_grown _ _ _ _ _ _ G1); exact Hup).
  pose proof (grown_schema _ _ _ _ _ G1 Hs) as S1.
  destruct (SQLiteDB.GetAllArticles d1) as [d2 r2] eqn:H2.
  pose proof (GetAllArticles_cases _ _ _ H2) as [G2 _].
  unfold SQLiteDB.GetAllArticles in H2.
  rewrite (send_healthy _ _ (available_now _ _ U1) S1) in H2.
  cbn [SQLiteDB.articles SQLiteDB.with_journal] in H2.
  assert (U2 : available d2 3) by (apply (available_grown _ _ _ _ _ _ G2); exact U1).
  pose proof (grown_schema _ _ _ _ _ G2 S1) as S2.
  assert (A1 : SQLiteDB.articles d1 = SQLiteDB.articles db) by apply G1.
  assert (Q2 : In qrow (SQLiteDB.queries d2)).
  { destruct G1 as (_ & _ & _ & _ & _ & Q1 & _). destruct G2 as (_ & _ & _ & _ & _ & Q2 & _).
    rewrite Q2, Q1, app_nil_r. apply in_or_app. right. left. reflexivity. }
  destruct (CreateSearchResult_available (Query.ID qrow) (ai.Summary aiResult)
              (ai.RelevantArticles aiResult) d2 S2)
    as (d3 & srow & H3 & _ & _ & _ & G3);
    [intros i Hi; apply U2; lia | exists qrow; split; [exact Q2 | reflexivity] | exact Hint |].
  assert (U3 : available d3 1) by (apply (available_grown _ _ _ _ _ _ G3); exact U2).
  pose proof (grown_schema _ _ _ _ _ G3 S2) as S3.
  destruct (GetArticlesByIDs_available (ai.RelevantArticles aiResult) d3 S3 U3)
    as (d4 & stmts & H4 & G4 & _).
  assert (A3 : SQLiteDB.articles d3 = SQLiteDB.articles db).
  { destruct G2 as (_ & _ & _ & _ & A & _). destruct G3 as (_ & _ & _ & _ & A' & _).
    congruence. }
  exists d4, qrow. split.
  - unfold SearchService.process, bind, wrap, lift, ret.
    cbn [database.CreateQuery database.GetAllArticles database.CreateSearchResult
         database.GetArticlesByIDs SQLiteDB.SQLiteDB_DatabaseInterface].
    rewrite H1. unfold SQLiteDB.GetAllArticles.
    rewrite (send_healthy _ _ (available_now _ _ U1) S1).
    cbn [SQLiteDB.articles SQLiteDB.with_journal].
    rewrite A1, Hai. injection H2 as H2 _. rewrite H2, H3, H4, A3, Ht. reflexivity.
  - split; [exact Hq|]. split; [exact Hn|]. exists srow. eexists.
    pose proof (grown_trans _ _ _ _ _ _ _ _ _ (grown_trans _ _ _ _ _ _ _ _ _
                  (grown_trans _ _ _ _ _ _ _ _ _ G1 G2) G3) G4) as G.
    cbn [app] in G. exact G.
Qed.

Lemma process_analysis_failed {AI : Type} `{ai.AIServiceInterface AI} (aiService : AI)
    (q : string) (db : SQLiteDB.t) (e : error) :
  SQLiteDB.schema db = true -> available db 3 ->
  ai.AnalyzeQuery aiService q (collect (SQLiteDB.articles db)) = Err e ->
  exists db' qrow,
    SearchService.process aiService q db
    = (db', Err (Errorf_w "failed to analyze query" e))
    /\ Query.Query qrow = q
    /\ grown db db' [qrow] []
         [SQLiteDB.InsertQuery; SQLiteDB.SelectQueryByID; SQLiteDB.SelectArticles].
Proof.
  intros Hs Hup Hai.
  destruct (CreateQuery_available q db Hs) as (d1 & qrow & H1 & Hq & Ht & Hn & G1);
    [intros i Hi; apply Hup; lia|].
  assert (U1 : available d1 1) by (apply (available_grown _ _ _ _ _ _ G1); exact Hup).
  pose proof (grown_schema _ _ _ _ _ G1 Hs) as S1.
  destruct (SQLiteDB.GetAllArticles d1) as [d2 r2] eqn:H2.
  pose proof (GetAllArticles_cases _ _ _ H2) as [G2 _].
  unfold SQLiteDB.GetAllArticles in H2.
  rewrite (send_healthy _ _ (available_now _ _ U1) S1) in H2.
  cbn [SQLiteDB.articles SQLiteDB.with_journal] in H2.
  assert (A1 : SQLiteDB.articles d1 = SQLiteDB.articles db) by apply G1.
  exists d2, qrow. split.
  - unfold SearchService.process, bind, wrap, lift, ret.
    cbn [database.CreateQuery database.GetAllArticles SQLiteDB.SQLiteDB_DatabaseInterface].
    rewrite H1. unfold SQLiteDB.GetAllArticles.
    rewrite (send_healthy _ _ (available_now _ _ U1) S1).
    cbn [SQLiteDB.articles SQLiteDB.with_journal].
    rewrite A1, Hai. injection H2 as H2 _. rewrite H2. reflexivity.
  - split; [exact Hq|]. exact (grown_trans _ _ _ _ _ _ _ _ _ G1 G2).
Qed.

Lemma same_id_same_row (rows : list Article.t) (a b : Article.t) :
  NoDup (map Article.ID rows) -> In a rows -> In b rows ->
  Article.ID a = Article.ID b -> a = b.
Proof.
  induction rows as [|c rows IH]; intros Hnd Ha Hb Hid; [destruct Ha|].
  apply NoDup_cons_iff in Hnd. destruct Hnd as [Hnew Hold].
  destruct Ha as [->|Ha], Hb as [->|Hb].
  - reflexivity.
  - exfalso. apply Hnew. rewrite Hid. apply in_map. exact Hb.
  - exfalso. apply Hnew. rewrite <- Hid. apply in_map. exact Ha.
  - apply IH; assumption.
Qed.

Lemma relevantRows_matching (keep : Article.t -> bool) (rows : list Article.t) :
  NoDup (map Article.ID rows) ->
  relevantRows (collect (map Article.ID (filter keep rows))) rows
  = Some (filter keep rows).
Proof.
  intros Hnd. unfold relevantRows, len. rewrite elems_collect, length_map.
  assert (Hsame : filter (fun a => SQLiteDB.member (Article.ID a)
                                     (map Article.ID (filter keep rows))) rows
                  = filter keep rows).
  { apply filter_ext_in. intros a Ha.
    destruct (keep a) eqn:Hk.
    - apply member_In. apply in_map. apply filter_In. split; assumption.
    - apply not_true_is_false. intros Hm. apply member_In in Hm.
      apply in_map_iff in Hm. destruct Hm as (b & Hid & Hb).
      apply filter_In in Hb. destruct Hb as [Hb Hkb].
      rewrite (same_id_same_row rows a b Hnd Ha Hb (eq_sym Hid)) in Hk. congruence. }
  rewrite Hsame. destruct (filter keep rows); reflexivity.
Qed.

Lemma relevantRows_listed (ids : list int) (rows : list Article.t) :
  (forall i, In i ids -> In i (map Article.ID rows)) ->
  relevantRows (collect ids) rows
  = Some (filter (fun a => SQLiteDB.member (Article.ID a) ids) rows).
Proof.
  intros Hval. unfold relevantRows, len. rewrite elems_collect.
  destruct ids as [|i ids]; [cbn; rewrite filter_none; [reflexivity|]; reflexivity|].
  cbn [List.length Z.of_nat Z.eqb].
  destruct (filter (fun a => SQLiteDB.member (Article.ID a) (i :: ids)) rows)
    as [|a l] eqn:Hf; [|reflexivity].
  exfalso. specialize (Hval i (or_introl eq_refl)).
  apply in_map_iff in Hval. destruct Hval as (a & Hid & Ha).
  assert (Hin : In a (filter (fun a => SQLiteDB.member (Article.ID a) (i :: ids)) rows)).
  { apply filter_In. split; [exact Ha|]. apply member_In. left. symmetry. exact Hid. }
  rewrite Hf in Hin. destruct Hin.
Qed.

Lemma ids_in_range (rows : list Article.t) (ids : list int) :
  forallb is_int (map Article.ID rows) = true ->
  (forall i, In i ids -> In i (map Article.ID rows)) ->
  forallb is_int ids = true.
Proof.
  intros Hr Hval. apply forallb_forall. intros i Hi.
  exact (proj1 (forallb_forall _ _) Hr i (Hval i Hi)).
Qed.

Lemma parseResponse_reference (response : string) (articles : slice Article.t) :
  GeminiService.parseResponse response articles
  = Ok (ai.mkResult
          (GeminiService.reference_summary (strings.Split response "010"%char))
          (collect (GeminiService.reference_ids (elems articles)
                      (strings.Split response "010"%char)))).
Proof.
  unfold GeminiService.parseResponse.
  change (@None (list int)) with (@collect int []).
  rewrite parseLine_fold. cbn [List.app]. unfold GeminiService.reference_summary.
  destruct (last (GeminiService.payloads "SUMMARY:" (strings.Split response "010"%char)) "");
    reflexivity.
Qed.

(** ** The two strategies, from the question to the response *)

(** X11: with the engine up and the keyword heuristic as strategy, a
    search goes through: the response echoes the query text as given,
    carries the summary of the fixed priority and exactly the stored
    articles that share a keyword with the query, in table order, as a
    list that is never nil; the articles of the table stay as they
    were. *)
Theorem ProcessSearchQuery_heuristic (ToLower : string -> string) (m : MockAIService.t)
    (db : SQLiteDB.t) (q : string) :
  SQLiteDB.schema db = true -> available db 6 -> unique_ids db ->
  forallb is_int (map Article.ID (SQLiteDB.articles db)) = true ->
  exists s' id,
    @SearchService.ProcessSearchQuery _ _ _
      (MockAIService.MockAIService_AIServiceInterface ToLower)
      (SearchService.NewSearchService db m) q
    = (s', Ok (SearchResponse.mk q
                 (MockAIService.reference_summary ToLower q (SQLiteDB.articles db))
                 (Some (filter (MockAIService.matches ToLower q) (SQLiteDB.articles db)))
                 id (SQLiteDB.now db)))
    /\ SQLiteDB.articles (SearchService.db s') = SQLiteDB.articles db
    /\ (forall row, In row (SQLiteDB.queries db) -> Query.ID row < id).
Proof.
  intros Hs Hup Hu Hr.
  pose proof (AnalyzeQuery_eq ToLower m q (collect (SQLiteDB.articles db))) as Hai.
  rewrite elems_collect in Hai.
  destruct (@process_available _ (MockAIService.MockAIService_AIServiceInterface ToLower)
              m q db _ Hs Hup Hai) as (db' & qrow & Hrun & Hq & Hn & srow & stmts & G).
  { cbn [ai.RelevantArticles]. rewrite elems_collect.
    apply (ids_in_range (SQLiteDB.articles db)); [exact Hr|].
    apply reference_ids_In. }
  exists (SearchService.NewSearchService db' m), (Query.ID qrow).
  split.
  - unfold SearchService.ProcessSearchQuery, SearchService.run.
    cbn [SearchService.db SearchService.aiService]. rewrite Hrun.
    cbn [ai.Summary ai.RelevantArticles]. unfold MockAIService.reference_ids.
    rewrite (relevantRows_matching _ _ Hu). reflexivity.
  - split; [apply G|]. intros row Hin. rewrite Hn.
    apply next_id_fresh. apply in_map. exact Hin.
Qed.

Lemma answer_returned (c : GeminiService.Replying) (q : string)
    (articles : slice Article.t) :
  GeminiService.AnalyzeQuery (GeminiService.client c) q articles
  = Some (GeminiService.answer c q articles).
Proof.
  unfold GeminiService.answer.
  generalize (GeminiService.returns c q articles).
  destruct (GeminiService.AnalyzeQuery (GeminiService.client c) q articles) as [r|];
    intros Hret;
    [reflexivity | destruct (Hret eq_refl)].
Qed.

(** X12: the generative strategy, from the reply to the response.
    [AnalyzeQuery] returns unless the first candidate of the reply has no
    content, where it panics.  On a client whose replies have content and
    with the engine up, the search follows the reply: one with a text part
    gives a response whose summary is never empty and whose articles are
    exactly the stored articles the reply lists, each once and in table
    order, as a list that is never nil; a failed call, a reply without
    candidates and a first candidate whose content has no part fail the
    search at the analysis step, with the Query row already written and no
    SearchResult row. *)
Theorem ProcessSearchQuery_generative (c : GeminiService.Replying) (db : SQLiteDB.t)
    (q : string) :
  SQLiteDB.schema db = true -> available db 6 ->
  forallb is_int (map Article.ID (SQLiteDB.articles db)) = true ->
  let prompt :=
    GeminiService.buildPrompt q
      (GeminiService.buildArticlesContext (collect (SQLiteDB.articles db))) in
  let run := SearchService.ProcessSearchQuery (SearchService.NewSearchService db c) q in
  let db' := SearchService.db (fst run) in
  let failed (e : error) :=
    snd run = Err (Errorf_w "failed to analyze query" e)
    /\ SQLiteDB.search_results db' = SQLiteDB.search_results db
    /\ exists qrow, SQLiteDB.queries db' = SQLiteDB.queries db ++ [qrow]
                    /\ Query.Query qrow = q in
  (forall g : GeminiService.t,
     GeminiService.AnalyzeQuery g q (collect (SQLiteDB.articles db)) = None
     <-> exists rest, GeminiService.GenerateContent g prompt = Ok (None :: rest))
  /\ match GeminiService.GenerateContent (GeminiService.client c) prompt with
     | Err e => failed (Errorf_w "failed to generate content" e)
     | Ok [] => failed (errorString "no response generated")
     | Ok (None :: _) => False
     | Ok (Some [] :: _) => failed (errorString "no response generated")
     | Ok (Some (text :: _) :: _) =>
         let lines := strings.Split text "010"%char in
         let ids := GeminiService.reference_ids (SQLiteDB.articles db) lines in
         exists id,
           snd run
           = Ok (SearchResponse.mk q (GeminiService.reference_summary lines)
                   (Some (filter (fun a => SQLiteDB.member (Article.ID a) ids)
                            (SQLiteDB.articles db)))
                   id (SQLiteDB.now db))
           /\ GeminiService.reference_summary lines <> ""
           /\ List.length (SQLiteDB.search_results db')
              = S (List.length (SQLiteDB.search_results db))
     end.
Proof.
  intros Hs Hup Hr prompt run db' failed. split.
  { intros g. unfold GeminiService.AnalyzeQuery. fold prompt.
    destruct (GeminiService.GenerateContent g prompt) as [[|[[|text parts]|] more]|e];
      (split;
       [ intros Hn; try discriminate Hn; exists more; reflexivity
       | intros [rest Hrest]; try discriminate Hrest; reflexivity ]). }
  assert (Hfail : forall e,
             GeminiService.answer c q (collect (SQLiteDB.articles db)) = Err e ->
             failed e).
  { intros e He.
    destruct (@process_analysis_failed _ GeminiService.GeminiService_AIServiceInterface
                c q db e Hs) as (d & qrow & Hrun & Hq & G);
      [intros i Hi; apply Hup; lia | exact He |].
    subst failed db' run. unfold SearchService.ProcessSearchQuery, SearchService.run.
    cbn [SearchService.db SearchService.aiService]. rewrite Hrun. cbn [fst snd SearchService.db].
    destruct G as (_ & _ & _ & _ & _ & Q & R & _). rewrite app_nil_r in R.
    split; [reflexivity|]. split; [exact R|]. exists qrow. split; assumption. }
  pose proof (answer_returned c q (collect (SQLiteDB.articles db))) as Hai.
  pose proof (GeminiService.content c prompt) as Hc.
  unfold GeminiService.AnalyzeQuery in Hai. fold prompt in Hai.
  destruct (GeminiService.GenerateContent (GeminiService.client c) prompt)
    as [[|[[|text parts]|] more]|e];
    cbn in Hc; try exact Hc;
    injection Hai as Hai; symmetry in Hai; try (apply Hfail; exact Hai).
  rewrite parseResponse_reference, elems_collect in Hai.
  cbv zeta.
  set (lines := strings.Split text "010"%char) in *.
  set (ids := GeminiService.reference_ids (SQLiteDB.articles db) lines) in *.
  assert (Hval : forall i, In i ids -> In i (map Article.ID (SQLiteDB.articles db))).
  { intros i. apply reference_ids_valid. }
  destruct (@process_available _ GeminiService.GeminiService_AIServiceInterface
              c q db _ Hs Hup Hai) as (d & qrow & Hrun & Hq & Hn & srow & stmts & G).
  { cbn [ai.RelevantArticles]. rewrite elems_collect.
    exact (ids_in_range _ _ Hr Hval). }
  exists (Query.ID qrow). subst db' run.
  unfold SearchService.ProcessSearchQuery, SearchService.run.
  cbn [SearchService.db SearchService.aiService]. rewrite Hrun.
  cbn [fst snd SearchService.db ai.Summary ai.RelevantArticles].
  rewrite (relevantRows_listed _ _ Hval).
  split; [reflexivity|]. split; [apply reference_summary_nonempty|].
  destruct G as (_ & _ & _ & _ & _ & _ & R & _). rewrite R, length_app. cbn. lia.
Qed.

(** ** The handlers over the SQLite storage *)

Lemma Error_wrapped (prefix : string) (e : error) :
  Error (Errorf_w prefix e) = (prefix ++ ": " ++ Error e)%string.
Proof. reflexivity. Qed.


(** X14: [GetAllArticles] over the SQLite storage answers 200 with the
    rows of the article table in table order, or 500 with the engine's
    error text; it answers 200 whenever the engine is up, with a nil list
    when the table holds no article; the tables are left as they were. *)
Theorem GetAllArticles_over_sqlite {AI : Type} `{ai.AIServiceInterface AI}
    (h : SearchHandler.t SQLiteDB.t AI) :
  let out := SearchHandler.GetAllArticles h in
  let db := SearchService.db (SearchHandler.searchService h) in
  let db' := SearchService.db (SearchHandler.searchService (fst out)) in
  grown db db' [] [] [SQLiteDB.SelectArticles]
  /\ (snd out = SearchHandler.sendJSONResponse 200
                  (SearchHandler.ArticlesBody (collect (SQLiteDB.articles db)))
      \/ exists e, snd (SQLiteDB.send SQLiteDB.SelectArticles db) = Some e
                   /\ snd out = SearchHandler.sendErrorResponse 500
                                  "Failed to get articles" (Error e))
  /\ (SQLiteDB.schema db = true -> available db 1 ->
      snd out = SearchHandler.sendJSONResponse 200
                  (SearchHandler.ArticlesBody (collect (SQLiteDB.articles db))))
  /\ (SQLiteDB.articles db = [] -> SearchHandler.Code (snd out) = 200 ->
      SearchHandler.Body (snd out) = SearchHandler.ArticlesBody None).
Proof.
  cbv zeta. unfold SearchHandler.GetAllArticles, SearchService.GetAllArticles,
    SearchService.run.
  cbn [database.GetAllArticles SQLiteDB.SQLiteDB_DatabaseInterface].
  set (db := SearchService.db (SearchHandler.searchService h)).
  unfold SQLiteDB.GetAllArticles.
  destruct (SQLiteDB.send SQLiteDB.SelectArticles db) as [d o] eqn:Hs.
  pose proof (send_grown _ _ _ _ Hs) as G.
  assert (A : SQLiteDB.articles d = SQLiteDB.articles db) by apply G.
  destruct o as [e|]; cbn [fst snd SearchHandler.searchService SearchService.db].
  - split; [exact G|]. split; [right; exists e; split; reflexivity|].
    split.
    + intros Hsch Hup. rewrite (send_healthy _ _ (available_now _ _ Hup) Hsch) in Hs.
      discriminate.
    + intros _ Hc. discriminate.
  - rewrite A. split; [exact G|]. split; [left; reflexivity|].
    split; [reflexivity|]. intros -> _. reflexivity.
Qed.

(** ** Article ids in the path *)

Lemma digit_sign : strconv.digit "-" = None /\ strconv.digit "+" = None.
Proof. split; reflexivity. Qed.

Lemma Atoi_natural (p : positive) :
  strconv.splitSign (NilEmpty.string_of_uint (Pos.to_uint p))
  = (false, NilEmpty.string_of_uint (Pos.to_uint p))
  /\ strconv.unsigned (NilEmpty.string_of_uint (Pos.to_uint p)) = Some (Z.pos p).
Proof.
  pose proof (digits_of_uint (Pos.to_uint p)) as Hd.
  rewrite DecimalPos.Unsigned.of_to in Hd. cbn [Z.of_N] in Hd.
  destruct (NilEmpty.string_of_uint (Pos.to_uint p)) as [|c s] eqn:Hs.
  - cbn in Hd. discriminate.
  - split; [|exact Hd]. cbn [strconv.digits] in Hd. unfold strconv.splitSign.
    destruct (Ascii.eqb_spec c "-") as [->|_]; [cbn in Hd; discriminate|].
    destruct (Ascii.eqb_spec c "+") as [->|_]; [cbn in Hd; discriminate|].
    reflexivity.
Qed.

Lemma Atoi_Itoa (z : int) : is_int z = true -> strconv.Atoi (strconv.Itoa z) = Ok z.
Proof.
  intros Hz. destruct z as [|p|p].
  - reflexivity.
  - rewrite Itoa_pos. unfold strconv.Atoi.
    destruct (Atoi_natural p) as [-> ->]. rewrite Hz. reflexivity.
  - rewrite Itoa_neg. unfold strconv.Atoi.
    cbn [strconv.splitSign]. rewrite Ascii.eqb_refl.
    destruct (Atoi_natural p) as [_ ->].
    change (- Z.pos p) with (Z.neg p). rewrite Hz. reflexivity.
Qed.

(** X15: a stored article is served under its id as [strconv.Itoa] prints
    it: with the engine up, [GetArticle] on that path segment answers 200
    with the article itself. *)
Theorem GetArticle_printed_id {AI : Type} `{ai.AIServiceInterface AI}
    (h : SearchHandler.t SQLiteDB.t AI) (a : Article.t) :
  let db := SearchService.db (SearchHandler.searchService h) in
  unique_ids db -> SQLiteDB.schema db = true -> available db 1 ->
  In a (SQLiteDB.articles db) -> is_int (Article.ID a) = true ->
  snd (SearchHandler.GetArticle h (strconv.Itoa (Article.ID a)))
  = SearchHandler.sendJSONResponse 200 (SearchHandler.ArticleBody a).
Proof.
  intros db Hu Hs Hup Ha Hi. unfold SearchHandler.GetArticle.
  rewrite (Atoi_Itoa _ Hi).
  unfold SearchService.GetArticleByID, SearchService.run.
  cbn [database.GetArticleByID SQLiteDB.SQLiteDB_DatabaseInterface].
  fold db. unfold SQLiteDB.GetArticleByID.
  rewrite (send_healthy _ _ (available_now _ _ Hup) Hs).
  cbn [SQLiteDB.articles SQLiteDB.with_journal].
  rewrite (find_unique_id _ _ Hu Ha). reflexivity.
Qed.

(** ** Start-up on an engine that is up *)

Lemma insertArticles_available (rows : list (string * string)) (db : SQLiteDB.t) :
  SQLiteDB.schema db = true -> available db (List.length rows) ->
  snd (SQLiteDB.insertArticles rows db) = None.
Proof.
  revert db. induction rows as [|[title content] rows IH]; intros db Hs Hup; [reflexivity|].
  cbn [SQLiteDB.insertArticles].
  rewrite (send_healthy _ _ (available_now _ _ Hup) Hs).
  apply IH; [exact Hs|].
  intros i Hi. cbn [SQLiteDB.fault SQLiteDB.journal SQLiteDB.with_articles
                    SQLiteDB.with_journal].
  rewrite length_app, <- Nat.add_assoc. apply Hup. cbn [List.length Nat.add]. lia.
Qed.

Lemma Initialize_available (db : SQLiteDB.t) :
  available db (2 + List.length SQLiteDB.seed) -> snd (SQLiteDB.Initialize db) = None.
Proof.
  intros Hup. unfold SQLiteDB.Initialize, SQLiteDB.createTables.
  assert (H0 : SQLiteDB.fault db (List.length (SQLiteDB.journal db)) = None).
  { rewrite <- (Nat.add_0_r (List.length _)). apply Hup. lia. }
  unfold SQLiteDB.send at 1. rewrite H0.
  set (d1 := SQLiteDB.with_schema _ true).
  assert (U1 : available d1 (1 + List.length SQLiteDB.seed)).
  { intros i Hi. subst d1. cbn [SQLiteDB.fault SQLiteDB.journal SQLiteDB.with_schema
                                 SQLiteDB.with_journal].
    rewrite length_app, <- Nat.add_assoc. apply Hup. cbn [List.length Nat.add]. lia. }
  unfold SQLiteDB.seedArticles.
  rewrite (send_healthy _ d1 (available_now _ _ U1) eq_refl).
  cbn [SQLiteDB.articles SQLiteDB.with_journal].
  destruct (0 <? Z.of_nat (List.length (SQLiteDB.articles d1))); [reflexivity|].
  rewrite (surjective_pairing (SQLiteDB.insertArticles _ _)).
  rewrite insertArticles_available; [reflexivity | reflexivity |].
  intros i Hi. cbn [SQLiteDB.fault SQLiteDB.journal SQLiteDB.with_journal].
  rewrite length_app, <- Nat.add_assoc. apply U1. cbn [List.length Nat.add]. lia.
Qed.

(** X16: on an engine that serves the statements of start-up, [main]
    stops for one of two reasons only: the generative strategy was asked
    for with a key and the client could not be created, or
    [http.ListenAndServe] returned an error; the message names the
    failure and carries the text of its error.  In every other case it
    serves, on the configured port. *)
Theorem main_outcome (host : main.Host) :
  let cfg := config.LoadConfig (main.environ host) in
  let addr := (":" ++ config.Port cfg)%string in
  let strategy :=
    config.UseMockAI cfg = true \/ config.GeminiKey cfg = ""
    \/ exists g, main.dial host (config.GeminiKey cfg) = Ok g in
  available (main.disk host (config.DBPath cfg)) (3 + List.length SQLiteDB.seed) ->
  match main.main host with
  | main.Serving a _ => a = addr /\ main.listen host addr = None /\ strategy
  | main.Fatal msg =>
      (config.UseMockAI cfg = false /\ config.GeminiKey cfg <> ""
       /\ exists e,
            main.dial host (config.GeminiKey cfg) = Err e
            /\ msg = ("Failed to initialize Gemini AI service: "
                      ++ "failed to create Gemini client: " ++ Error e)%string)
      \/ (strategy
          /\ exists e,
               main.listen host addr = Some e
               /\ msg = ("Server failed to start: " ++ Error e)%string)
  end.
Proof.
  intros cfg addr strategy Hup. unfold main.main. fold cfg. fold addr.
  set (file := main.disk host (config.DBPath cfg)) in *.
  unfold SQLiteDB.OpenSQLiteDB, SQLiteDB.send.
  rewrite (available_now _ _ Hup).
  set (db0 := SQLiteDB.with_foreign_keys _ true).
  assert (U0 : available db0 (2 + List.length SQLiteDB.seed)).
  { intros i Hi. subst db0. cbn [SQLiteDB.fault SQLiteDB.journal SQLiteDB.with_foreign_keys
                                 SQLiteDB.with_journal].
    rewrite length_app, <- Nat.add_assoc. apply Hup. cbn [List.length Nat.add]. lia. }
  pose proof (Initialize_available db0 U0) as Hi.
  destruct (SQLiteDB.Initialize db0) as [db1 r]. cbn [snd] in Hi. subst r.
  assert (Hserve : forall aiService, strategy ->
             match
               match main.listen host addr with
               | Some err => main.Fatal ("Server failed to start: " ++ Error err)
               | None =>
                   main.Serving addr
                     (SearchHandler.NewSearchHandler
                        (SearchService.NewSearchService db1 aiService))
               end
             with
             | main.Serving a _ => a = addr /\ main.listen host addr = None /\ strategy
             | main.Fatal msg =>
                 (config.UseMockAI cfg = false /\ config.GeminiKey cfg <> ""
                  /\ exists e,
                       main.dial host (config.GeminiKey cfg) = Err e
                       /\ msg = ("Failed to initialize Gemini AI service: "
                                 ++ "failed to create Gemini client: " ++ Error e)%string)
                 \/ (strategy
                     /\ exists e,
                          main.listen host addr = Some e
                          /\ msg = ("Server failed to start: " ++ Error e)%string)
             end).
  { intros aiService Hst. destruct (main.listen host addr) as [e|].
    - right. split; [exact Hst|]. exists e. split; reflexivity.
    - split; [reflexivity|]. split; [reflexivity | exact Hst]. }
  destruct (config.UseMockAI cfg) eqn:Hmock; cbn [orb];
    [apply Hserve; left; reflexivity|].
  unfold Gemini.NewGeminiService.
  destruct (String.eqb_spec (config.GeminiKey cfg) "") as [Hk|Hk];
    [apply Hserve; right; left; exact Hk|].
  destruct (main.dial host (config.GeminiKey cfg)) as [g|e] eqn:Hd.
  - apply Hserve. right. right. exists g. reflexivity.
  - left. split; [reflexivity|]. split; [exact Hk|]. exists e. split; reflexivity.
Qed.

(** ** The reply format the prompt prescribes *)

Lemma visible_solid (a : ascii) :
  visible a = true ->
  strings.asciiSpace a = false
  /\ (forall b, strings.space2 a b = false /\ strings.space2 b a = false)
  /\ (forall b c, strings.space3 a b c = false /\ strings.space3 c b a = false).
Proof.
  unfold visible. intros Hv.
  apply andb_true_iff in Hv. destruct Hv as [Hlo Hhi].
  apply Nat.leb_le in Hlo. apply Nat.leb_le in Hhi.
  split; [|split].
  - apply not_true_is_false. unfold strings.asciiSpace. intros Hs. bytes_arith; lia.
  - intros b. split; apply not_true_is_false; unfold strings.space2; intros Hs;
      bytes_arith; lia.
  - intros b c. split; apply not_true_is_false; unfold strings.space3; intros Hs;
      bytes_arith; lia.
Qed.

Lemma trimLeft_visible (a : ascii) (l : list ascii) :
  visible a = true -> strings.trimLeft (a :: l) = a :: l.
Proof.
  intros Hv. destruct (visible_solid a Hv) as (H1 & H2 & H3).
  cbn [strings.trimLeft]. rewrite H1.
  destruct l as [|b l]; [reflexivity|]. rewrite (proj1 (H2 b)).
  destruct l as [|c l]; [reflexivity|]. rewrite (proj1 (H3 b c)). reflexivity.
Qed.

Lemma trimLeftRev_visible (a : ascii) (l : list ascii) :
  visible a = true -> strings.trimLeftRev (a :: l) = a :: l.
Proof.
  intros Hv. destruct (visible_solid a Hv) as (H1 & H2 & H3).
  cbn [strings.trimLeftRev]. rewrite H1.
  destruct l as [|b l]; [reflexivity|]. rewrite (proj2 (H2 b)).
  destruct l as [|c l]; [reflexivity|]. rewrite (proj2 (H3 b c)). reflexivity.
Qed.

Lemma TrimSpace_tidy (s : string) : tidy s = true -> strings.TrimSpace s = s.
Proof.
  unfold tidy, strings.TrimSpace. intros Ht.
  destruct (strings.bytes s) as [|a l] eqn:Hb; [discriminate|].
  apply andb_true_iff in Ht. destruct Ht as [Ha Hz].
  rewrite (trimLeft_visible _ _ Ha). unfold strings.trimRight.
  assert (Hne : a :: l <> []) by discriminate.
  rewrite (app_removelast_last a Hne) at 1.
  rewrite rev_app_distr. cbn [rev app]. rewrite last_cons.
  rewrite (trimLeftRev_visible _ _ Hz).
  change (last l a :: rev (removelast (a :: l)))
    with (rev [last l a] ++ rev (removelast (a :: l))).
  rewrite <- rev_app_distr, rev_involutive, <- (last_cons l a a).
  rewrite <- (app_removelast_last a Hne), <- Hb.
  apply string_of_list_ascii_of_string.
Qed.

Lemma tidy_padded (s : string) :
  tidy s = true -> strings.TrimSpace (String " " s) = s.
Proof.
  intros Ht. rewrite <- (TrimSpace_tidy s Ht) at 2. reflexivity.
Qed.

Lemma last_behind {A} (l1 l : list A) (a d : A) : last (l1 ++ a :: l) d = last l a.
Proof.
  revert d. induction l1 as [|x l1 IH]; intros d; [apply last_cons|].
  cbn [app]. rewrite last_cons. apply IH.
Qed.

Lemma tidy_headed (c : ascii) (p t : string) :
  visible c = true -> tidy t = true -> tidy (String c (p ++ t)) = true.
Proof.
  unfold tidy. intros Hc Ht. cbn [strings.bytes list_ascii_of_string].
  fold (strings.bytes (p ++ t)). rewrite bytes_app.
  destruct (strings.bytes t) as [|a l]; [discriminate|].
  apply andb_true_iff in Ht. rewrite last_behind, Hc. exact (proj2 Ht).
Qed.

Lemma tidy_visible (s : string) :
  s <> "" -> Forall (fun c => visible c = true) (strings.bytes s) -> tidy s = true.
Proof.
  unfold tidy. intros Hne Hall. destruct s as [|a s]; [contradiction|].
  cbn [strings.bytes list_ascii_of_string] in *. fold (strings.bytes s) in *.
  pose proof (proj1 (Forall_forall _ _) Hall) as Hin.
  rewrite (Hin a (or_introl eq_refl)). cbn [andb].
  apply Hin. destruct (strings.bytes s) as [|b l]; [left; reflexivity|].
  right.
  destruct (@exists_last _ (b :: l)) as (l' & z & Hz); [discriminate|].
  rewrite Hz, last_last. apply in_or_app. right. left. reflexivity.
Qed.

Lemma numeric_visible (c : ascii) :
  numeric c = true -> visible c = true /\ Ascii.eqb c "010" = false.
Proof.
  unfold numeric, strconv.digit, visible. intros Hn.
  destruct ((48 <=? nat_of_ascii c) && (nat_of_ascii c <=? 57))%nat eqn:Hd.
  - apply andb_true_iff in Hd. destruct Hd as [Hlo Hhi].
    apply Nat.leb_le in Hlo. apply Nat.leb_le in Hhi. split.
    + apply andb_true_iff. split; apply Nat.leb_le; lia.
    + apply Ascii.eqb_neq. intros ->. cbn in Hlo. lia.
  - apply Ascii.eqb_eq in Hn. subst c. split; reflexivity.
Qed.

Lemma Itoa_tidy (z : int) : tidy (strconv.Itoa z) = true.
Proof.
  apply tidy_visible; [apply Itoa_nonempty|].
  eapply Forall_impl; [|apply Itoa_numeric].
  intros c Hc. exact (proj1 (numeric_visible c Hc)).
Qed.

Lemma validTokens_Itoa (articles : list Article.t) (ids : list int) :
  forallb is_int ids = true ->
  (forall i, In i ids -> In i (map Article.ID articles)) ->
  GeminiService.validTokens articles (map strconv.Itoa ids) = ids.
Proof.
  induction ids as [|i ids IH]; intros Hint Hval; [reflexivity|].
  cbn [forallb] in Hint. apply andb_true_iff in Hint. destruct Hint as [Hi Hint].
  cbn [map GeminiService.validTokens]. unfold GeminiService.validToken.
  rewrite (TrimSpace_tidy _ (Itoa_tidy i)), (Atoi_Itoa _ Hi).
  replace (existsb (fun a => Article.ID a =? i) articles) with true.
  - rewrite IH; [reflexivity | exact Hint |]. intros j Hj. apply Hval. right. exact Hj.
  - symmetry. apply (stored_In articles i). apply Hval. left. reflexivity.
Qed.

Lemma lineIDs_Join (articles : list Article.t) (ids : list int) :
  ids <> [] -> forallb is_int ids = true ->
  (forall i, In i ids -> In i (map Article.ID articles)) ->
  GeminiService.lineIDs articles (strings.Join (map strconv.Itoa ids) ",") = ids.
Proof.
  intros Hne Hint Hval. unfold GeminiService.lineIDs.
  assert (Hmap : map strconv.Itoa ids <> []) by (destruct ids; [contradiction | discriminate]).
  assert (Hpieces : Forall (fun s => Forall (fun c => Ascii.eqb c "," = false)
                                       (strings.bytes s)) (map strconv.Itoa ids)).
  { apply Forall_forall. intros s Hs. apply in_map_iff in Hs. destruct Hs as (i & <- & _).
    eapply Forall_impl; [|apply Itoa_numeric].
    intros c Hc. exact (proj1 (proj2 (numeric_plain c Hc))). }
  assert (Hnone : String.eqb (strings.Join (map strconv.Itoa ids) ",") "none" = false).
  { destruct ids as [|i ids]; [contradiction|]. cbn [map].
    pose proof (Itoa_nonempty i) as Hn. pose proof (Itoa_numeric i) as Hnum.
    destruct (strconv.Itoa i) as [|c s]; [contradiction|].
    cbn [strings.bytes list_ascii_of_string] in Hnum. inversion Hnum as [|? ? Hc _]; subst.
    destruct (numeric_plain c Hc) as (_ & _ & Hcn).
    destruct (map strconv.Itoa ids); cbn [strings.Join String.append String.eqb];
      rewrite Hcn; reflexivity. }
  assert (Hempty : String.eqb (strings.Join (map strconv.Itoa ids) ",") "" = false).
  { apply String.eqb_neq. apply Join_nonempty; [exact Hmap|].
    apply Forall_forall. intros s Hs. apply in_map_iff in Hs. destruct Hs as (i & <- & _).
    apply Itoa_nonempty. }
  rewrite Hnone, Hempty. cbn [orb].
  rewrite (Split_Join _ _ Hmap Hpieces). apply validTokens_Itoa; assumption.
Qed.

Lemma append_assoc (a b c : string) : ((a ++ b) ++ c)%string = (a ++ b ++ c)%string.
Proof. induction a as [|x a IH]; cbn [String.append]; [|rewrite IH]; reflexivity. Qed.

Lemma oneLine_bytes (s : string) :
  oneLine s = true -> Forall (fun c => Ascii.eqb c "010" = false) (strings.bytes s).
Proof.
  unfold oneLine. intros H. apply Forall_forall. intros c Hc.
  apply negb_true_iff. exact (proj1 (forallb_forall _ _) H c Hc).
Qed.

(** X17: a reply written in the format the prompt prescribes is read
    back as it was meant: the summary line gives the summary, and the
    list line gives the ids in the order written, or no id for [none]. *)
Theorem parseResponse_prescribed_format (summary : string) (ids : list int)
    (articles : slice Article.t) :
  tidy summary = true -> oneLine summary = true ->
  forallb is_int ids = true ->
  (forall i, In i ids -> In i (map Article.ID (elems articles))) ->
  let listed :=
    match ids with
    | [] => "none"
    | _ => strings.Join (map strconv.Itoa ids) ","
    end in
  GeminiService.parseResponse
    ("SUMMARY: " ++ summary ++ GeminiService.nl ++ "RELEVANT_ARTICLES: " ++ listed)%string
    articles
  = Ok (ai.mkResult summary (collect ids)).
Proof.
  intros Hts Hol Hint Hval listed.
  assert (Htl : tidy listed = true).
  { subst listed. destruct ids as [|i ids]; [reflexivity|].
    apply tidy_visible.
    - apply Join_nonempty; [discriminate|]. apply Forall_forall. intros s Hs.
      apply in_map_iff in Hs. destruct Hs as (j & <- & _). apply Itoa_nonempty.
    - apply Join_bytes; [reflexivity|]. apply Forall_forall. intros s Hs.
      apply in_map_iff in Hs. destruct Hs as (j & <- & _).
      eapply Forall_impl; [|apply Itoa_numeric].
      intros c Hc. exact (proj1 (numeric_visible c Hc)). }
  assert (Hll : Forall (fun c => Ascii.eqb c "010" = false) (strings.bytes listed)).
  { subst listed. destruct ids as [|i ids]; [repeat constructor|].
    apply Join_bytes; [reflexivity|]. apply Forall_forall. intros s Hs.
    apply in_map_iff in Hs. destruct Hs as (j & <- & _).
    eapply Forall_impl; [|apply Itoa_numeric].
    intros c Hc. exact (proj2 (numeric_visible c Hc)). }
  assert (Hids : GeminiService.lineIDs (elems articles) listed = ids).
  { subst listed. destruct ids as [|i ids]; [reflexivity|].
    apply lineIDs_Join; [discriminate | exact Hint | exact Hval]. }
  replace ("SUMMARY: " ++ summary ++ GeminiService.nl ++ "RELEVANT_ARTICLES: " ++ listed)%string
    with (("SUMMARY: " ++ summary) ++ String "010" ("RELEVANT_ARTICLES: " ++ listed))%string
    by (rewrite append_assoc; reflexivity).
  set (L1 := ("SUMMARY: " ++ summary)%string).
  set (L2 := ("RELEVANT_ARTICLES: " ++ listed)%string).
  assert (Hsplit : strings.Split (L1 ++ String "010" L2) "010" = [L1; L2]).
  { rewrite Split_app, Split_piece; [reflexivity | |].
    - subst L2. rewrite bytes_app. apply Forall_app. split; [repeat constructor | exact Hll].
    - subst L1. rewrite bytes_app. apply Forall_app.
      split; [repeat constructor | apply oneLine_bytes; exact Hol]. }
  assert (T1 : strings.TrimSpace L1 = L1).
  { apply TrimSpace_tidy. exact (tidy_headed "S" "UMMARY: " summary eq_refl Hts). }
  assert (T2 : strings.TrimSpace L2 = L2).
  { apply TrimSpace_tidy. exact (tidy_headed "R" "ELEVANT_ARTICLES: " listed eq_refl Htl). }
  assert (P1 : GeminiService.payload "SUMMARY:" L1 = Some summary).
  { unfold GeminiService.payload. rewrite T1. subst L1. cbn [String.append strings.HasPrefix
      Ascii.eqb Bool.eqb andb String.length strings.drop]. rewrite (tidy_padded _ Hts).
    reflexivity. }
  assert (P2 : GeminiService.payload "RELEVANT_ARTICLES:" L1 = None).
  { unfold GeminiService.payload. rewrite T1. reflexivity. }
  assert (P3 : GeminiService.payload "SUMMARY:" L2 = None).
  { unfold GeminiService.payload. rewrite T2. reflexivity. }
  assert (P4 : GeminiService.payload "RELEVANT_ARTICLES:" L2 = Some listed).
  { unfold GeminiService.payload. rewrite T2. subst L2. cbn [String.append strings.HasPrefix
      Ascii.eqb Bool.eqb andb String.length strings.drop]. rewrite (tidy_padded _ Htl).
    reflexivity. }
  rewrite parseResponse_reference, Hsplit. unfold GeminiService.reference_summary, GeminiService.reference_ids.
  cbn [GeminiService.payloads]. rewrite P1, P2, P3, P4.
  cbn [last flat_map]. rewrite Hids, app_nil_r.
  destruct summary; [discriminate | reflexivity].
Qed.

(** ** What the prompt holds *)

Lemma HasPrefix_app (sub t : string) : strings.HasPrefix (sub ++ t) sub = true.
Proof.
  induction sub as [|c sub IH]; [destruct t; reflexivity|].
  cbn [String.append strings.HasPrefix]. rewrite Ascii.eqb_refl. exact IH.
Qed.

Lemma HasPrefix_front (s t sub : string) :
  strings.HasPrefix s sub = true -> strings.HasPrefix (s ++ t) sub = true.
Proof.
  revert s. induction sub as [|c sub IH]; intros s Hp; [destruct (s ++ t)%string; reflexivity|].
  destruct s as [|x s]; [discriminate|].
  cbn [String.append strings.HasPrefix] in *.
  apply andb_true_iff in Hp. destruct Hp as [-> Hp]. exact (IH _ Hp).
Qed.

Lemma Contains_unfold (s substr : string) :
  strings.Contains s substr
  = strings.HasPrefix s substr
    || match s with
       | EmptyString => false
       | String _ s' => strings.Contains s' substr
       end.
Proof. destruct s; reflexivity. Qed.

Lemma Contains_here (sub t : string) : strings.Contains (sub ++ t) sub = true.
Proof. rewrite Contains_unfold, HasPrefix_app. reflexivity. Qed.

Lemma Contains_front (s t sub : string) :
  strings.Contains s sub = true -> strings.Contains (s ++ t) sub = true.
Proof.
  induction s as [|c s IH]; intros Hc; rewrite Contains_unfold in Hc;
    apply orb_true_iff in Hc; rewrite Contains_unfold; apply orb_true_iff.
  - destruct Hc as [Hc|Hc]; [|discriminate]. left. exact (HasPrefix_front _ _ _ Hc).
  - destruct Hc as [Hc|Hc]; [left; exact (HasPrefix_front _ _ _ Hc)|].
    right. exact (IH Hc).
Qed.

Lemma Contains_behind (s t sub : string) :
  strings.Contains t sub = true -> strings.Contains (s ++ t) sub = true.
Proof.
  intros Hc. induction s as [|c s IH]; [exact Hc|].
  cbn [String.append]. rewrite Contains_unfold, IH. apply orb_true_r.
Qed.

Lemma Contains_end (s sub : string) : strings.Contains (s ++ sub) sub = true.
Proof.
  apply Contains_behind. rewrite Contains_unfold.
  replace sub with (sub ++ "")%string at 1
    by (induction sub as [|c sub IH]; cbn; [|rewrite IH]; reflexivity).
  rewrite HasPrefix_app. reflexivity.
Qed.

Lemma buildArticlesContext_keeps (articles : list Article.t) (builder sub : string) :
  strings.Contains builder sub = true ->
  strings.Contains
    (fold_left
       (fun builder article =>
          builder
          ++ "Article ID: " ++ strconv.Itoa (Article.ID article) ++ GeminiService.nl
          ++ "Title: " ++ Article.Title article ++ GeminiService.nl
          ++ "Content: " ++ Article.Content article ++ GeminiService.nl
          ++ GeminiService.nl)%string
       articles builder) sub = true.
Proof.
  revert builder. induction articles as [|a articles IH]; intros builder Hc; [exact Hc|].
  cbn [fold_left]. apply IH. apply Contains_front. exact Hc.
Qed.

(** X18: what goes out to the generative service: the prompt holds the
    user's query between quotes exactly as it was typed, and, for every
    article it was given, the article's id, title and content in full. *)
Theorem buildPrompt_embeds (query : string) (articles : slice Article.t) :
  let prompt :=
    GeminiService.buildPrompt query (GeminiService.buildArticlesContext articles) in
  strings.Contains prompt
    ("User Query: " ++ GeminiService.quote ++ query ++ GeminiService.quote)%string = true
  /\ forall a, In a (elems articles) ->
       strings.Contains prompt
         ("Article ID: " ++ strconv.Itoa (Article.ID a) ++ GeminiService.nl
          ++ "Title: " ++ Article.Title a ++ GeminiService.nl
          ++ "Content: " ++ Article.Content a ++ GeminiService.nl
          ++ GeminiService.nl)%string = true.
Proof.
  cbv zeta. split.
  - unfold GeminiService.buildPrompt.
    do 6 apply Contains_behind.
    match goal with
    | |- strings.Contains (?a ++ ?b ++ ?c ++ ?d ++ ?t)%string _ = true =>
        replace (a ++ b ++ c ++ d ++ t)%string with ((a ++ b ++ c ++ d) ++ t)%string
          by (rewrite !append_assoc; reflexivity)
    end.
    apply Contains_here.
  - intros a Ha. unfold GeminiService.buildPrompt.
    do 3 apply Contains_behind. apply Contains_front.
    unfold GeminiService.buildArticlesContext.
    generalize ("Available Knowledge Base Articles:" ++ GeminiService.nl ++ GeminiService.nl)%string.
    induction (elems articles) as [|b l IH]; intros builder; [destruct Ha|].
    cbn [fold_left]. destruct Ha as [->|Ha]; [|apply IH; exact Ha].
    apply buildArticlesContext_keeps. apply Contains_end.
Qed.

(** ** What a search leaves in the tables *)

Lemma CreateQuery_ok_id (text : string) (db db1 : SQLiteDB.t) (row : Query.t) :
  SQLiteDB.CreateQuery text db = (db1, Ok row) ->
  Query.ID row = SQLiteDB.next_id (map Query.ID (SQLiteDB.queries db))
  /\ SQLiteDB.schema db = true.
Proof.
  unfold SQLiteDB.CreateQuery.
  destruct (SQLiteDB.send SQLiteDB.InsertQuery db) as [d1 o1] eqn:H1.
  pose proof (send_grown _ _ _ _ H1) as (_ & _ & _ & _ & _ & Q1 & _).
  rewrite app_nil_r in Q1.
  destruct o1 as [e|]; [discriminate|].
  assert (Hschema : SQLiteDB.schema db = true).
  { apply (send_table_schema _ _ _ H1); discriminate. }
  unfold SQLiteDB.GetQueryByID.
  destruct (SQLiteDB.send SQLiteDB.SelectQueryByID _) as [d2 o2] eqn:H2.
  pose proof (send_grown _ _ _ _ H2) as (_ & _ & _ & _ & _ & Q2 & _).
  rewrite app_nil_r in Q2. cbn [SQLiteDB.queries SQLiteDB.with_queries] in Q2.
  destruct o2 as [e|]; [discriminate|]. rewrite Q2.
  set (new := Query.mk (SQLiteDB.next_id (map Query.ID (SQLiteDB.queries d1))) text
                (SQLiteDB.now db)).
  change (SQLiteDB.next_id (map Query.ID (SQLiteDB.queries d1))) with (Query.ID new).
  rewrite (find_fresh Query.ID) by reflexivity.
  intros Heq. injection Heq as _ <-. split; [|exact Hschema].
  cbn [Query.ID new]. unfold new. cbn [Query.ID]. rewrite Q1. reflexivity.
Qed.

Lemma process_ok_id {AI : Type} `{ai.AIServiceInterface AI} (aiService : AI)
    (q : string) (db db' : SQLiteDB.t) (resp : SearchResponse.t) :
  SearchService.process aiService q db = (db', Ok resp) ->
  SearchResponse.QueryID resp = SQLiteDB.next_id (map Query.ID (SQLiteDB.queries db))
  /\ SQLiteDB.schema db = true.
Proof.
  unfold SearchService.process, bind, wrap, lift, ret.
  cbn [database.CreateQuery database.GetAllArticles database.CreateSearchResult
       database.GetArticlesByIDs SQLiteDB.SQLiteDB_DatabaseInterface].
  destruct (SQLiteDB.CreateQuery q db) as [d1 [query|e]] eqn:H1; [|discriminate].
  destruct (SQLiteDB.GetAllArticles d1) as [d2 [arts|e]]; [|discriminate].
  destruct (ai.AnalyzeQuery aiService q arts) as [r|e]; [|discriminate].
  destruct (SQLiteDB.CreateSearchResult _ _ _ d2) as [d3 [sr|e]]; [|discriminate].
  destruct (SQLiteDB.GetArticlesByIDs _ d3) as [d4 [rel|e]]; [|discriminate].
  intros Heq. injection Heq as _ <-. cbn [SearchResponse.QueryID].
  exact (CreateQuery_ok_id _ _ _ _ H1).
Qed.

(** X19: what a search answered is what it stored.  After a successful
    [ProcessSearchQuery] on a database whose search results all belong to
    stored queries, and with the engine still up, the query id of the
    response fetches a Query row with the response's query text and
    timestamp, and a SearchResult with the response's summary whose ID
    list selects exactly the articles of the response. *)
Theorem ProcessSearchQuery_persisted {AI : Type} `{ai.AIServiceInterface AI}
    (aiService : AI) (q : string) (db db' : SQLiteDB.t) (resp : SearchResponse.t) :
  SearchService.process aiService q db = (db', Ok resp) ->
  (forall r, In r (SQLiteDB.search_results db) ->
             exists row, In row (SQLiteDB.queries db) /\ Query.ID row = SQLiteDB.query_id r) ->
  (forall aiResult,
     ai.AnalyzeQuery aiService q (collect (SQLiteDB.articles db)) = Ok aiResult ->
     forallb is_int (elems (ai.RelevantArticles aiResult)) = true) ->
  available db' 1 ->
  (exists d qrow,
     SQLiteDB.GetQueryByID (SearchResponse.QueryID resp) db' = (d, Ok qrow)
     /\ Query.Query qrow = SearchResponse.Query resp
     /\ Query.CreatedAt qrow = SearchResponse.Timestamp resp)
  /\ (exists d stored,
        SQLiteDB.GetSearchResultByQueryID (SearchResponse.QueryID resp) db' = (d, Ok stored)
        /\ SearchResult.QueryID stored = SearchResponse.QueryID resp
        /\ SearchResult.AISummaryAnswer stored = SearchResponse.AISummaryAnswer resp
        /\ SearchResponse.AIRelevantArticles resp
           = relevantRows (SearchResult.AIRelevantArticles stored) (SQLiteDB.articles db')).
Proof.
  intros Hrun Hrefs Hint Hup.
  destruct (process_ok_id _ _ _ _ _ Hrun) as [Hid Hs].
  apply process_cases in Hrun. destruct Hrun as (newq & news & stmts & G & Hdone).
  destruct Hdone as (qrow & srow & aiResult & -> & -> & Hq & Hai & Hsq & Hsum & Hm & _ & ->).
  cbn [SearchResponse.QueryID SearchResponse.Query SearchResponse.Timestamp
       SearchResponse.AISummaryAnswer SearchResponse.AIRelevantArticles] in *.
  pose proof (grown_schema _ _ _ _ _ G Hs) as Hs'.
  destruct G as (_ & _ & _ & _ & A & Q & R & _).
  split.
  - unfold SQLiteDB.GetQueryByID.
    rewrite (send_healthy _ _ (available_now _ _ Hup) Hs').
    cbn [SQLiteDB.queries SQLiteDB.with_journal].
    rewrite Q, (find_fresh Query.ID) by exact Hid.
    eexists. exists qrow. split; [reflexivity|]. split; [exact Hq | reflexivity].
  - unfold SQLiteDB.GetSearchResultByQueryID.
    rewrite (send_healthy _ _ (available_now _ _ Hup) Hs').
    cbn [SQLiteDB.search_results SQLiteDB.with_journal].
    rewrite R, find_app, find_absent.
    + cbn [find]. rewrite Hsq, Z.eqb_refl.
      rewrite (scanRow_Marshal srow _ (Hint _ Hai) Hm).
      eexists. eexists. split; [reflexivity|].
      cbn [SearchResult.QueryID SearchResult.AISummaryAnswer SearchResult.AIRelevantArticles].
      split; [exact Hsq|]. split; [exact Hsum|]. rewrite A. reflexivity.
    + intros r Hr. apply Z.eqb_neq. destruct (Hrefs r Hr) as (row & Hrow & <-).
      rewrite Hid. apply Z.lt_neq. apply next_id_fresh. apply in_map. exact Hrow.
Qed.

(** ** Sample runs of the properties above *)

Lemma fresh_available (k : nat) : available Sample.fresh k.
Proof. intros i _. reflexivity. Defined.

Lemma fresh_ids_in_range :
  forallb is_int (map Article.ID (SQLiteDB.articles Sample.fresh)) = true.
Proof. vm_compute. reflexivity. Defined.

(** X2 on a machine set up for the generative strategy. *)
Lemma main_strategy_witness :
  exists addr h,
    main.main Sample.configured = main.Serving addr h
    /\ addr = ":8080"
    /\ SearchService.aiService (SearchHandler.searchService h)
       = Strategy.Generative (GeminiService.client (Sample.scripted "SUMMARY: ok")).
Proof.
  eexists. eexists.
  match goal with |- ?P /\ _ => assert (Hm : P) by (vm_compute; reflexivity) end.
  split; [exact Hm|].
  destruct (main_strategy _ _ _ Hm) as [Ha _].
  split; [exact Ha | reflexivity].
Defined.

(** X3 on a machine with nothing configured and a new database file. *)
Lemma main_serves_initialized_witness :
  exists addr h,
    main.main Sample.bare = main.Serving addr h
    /\ SQLiteDB.foreign_keys (SearchService.db (SearchHandler.searchService h)) = true
    /\ map (fun a => (Article.Title a, Article.Content a))
         (SQLiteDB.articles (SearchService.db (SearchHandler.searchService h)))
       = SQLiteDB.seed.
Proof.
  eexists. eexists.
  match goal with |- ?P /\ _ => assert (Hm : P) by (vm_compute; reflexivity) end.
  split; [exact Hm|].
  destruct (main_serves_initialized _ _ _ Hm) as (_ & Hk & _ & Hseed & _).
  split; [exact Hk|]. apply Hseed. reflexivity.
Defined.

(** X4 on the query of the storage tests. *)
Lemma CreateQuery_roundtrip_witness :
  exists db1 row,
    SQLiteDB.CreateQuery "test search query" Sample.fresh = (db1, Ok row)
    /\ Query.Query row = "test search query"
    /\ exists db2, SQLiteDB.GetQueryByID (Query.ID row) db1 = (db2, Ok row).
Proof.
  eexists. eexists.
  match goal with |- ?P /\ _ => assert (Hc : P) by (vm_compute; reflexivity) end.
  split; [exact Hc|].
  destruct (CreateQuery_roundtrip _ _ _ _ Hc) as (Ht & _ & _ & _ & _ & Hget).
  split; [exact Ht|]. apply Hget. reflexivity.
Defined.

(** X5 on the seeded catalog. *)
Lemma GetArticleByID_listed_witness :
  unique_ids Sample.fresh
  /\ exists db1 listed,
       SQLiteDB.GetAllArticles Sample.fresh = (db1, Ok listed)
       /\ List.length (elems listed) = 10%nat
       /\ exists db2, SQLiteDB.GetArticleByID 999 Sample.fresh
                      = (db2, Err SQLiteDB.ErrNoRows).
Proof.
  split; [exact fresh_unique_ids|].
  destruct (GetArticleByID_listed Sample.fresh fresh_unique_ids eq_refl eq_refl)
    as (db1 & listed & Hall & Hrows & _ & Hmiss).
  exists db1, listed. split; [exact Hall|]. split; [rewrite Hrows; reflexivity|].
  apply Hmiss. rewrite Hrows. vm_compute. intuition discriminate.
Defined.

(** X6 on a list with a repeated id and the same ids in another order. *)
Lemma GetArticlesByIDs_same_set_witness :
  SQLiteDB.GetArticlesByIDs (Some [2; 1; 2]) Sample.fresh
  = SQLiteDB.GetArticlesByIDs (Some [1; 2]) Sample.fresh.
Proof.
  apply GetArticlesByIDs_same_set. intros i. cbn [elems In]. tauto.
Defined.

(** X7 on the seeded database, which holds no query. *)
Lemma CreateSearchResult_foreign_key_witness :
  SQLiteDB.foreign_keys Sample.fresh = true
  /\ exists db',
       SQLiteDB.CreateSearchResult 7 "summary" (Some [1]) Sample.fresh
       = (db', Err SQLiteDB.errForeignKey)
       /\ SQLiteDB.search_results db' = [].
Proof.
  assert (Hfk : SQLiteDB.foreign_keys Sample.fresh = true) by (vm_compute; reflexivity).
  assert (Hnone : forall q, In q (SQLiteDB.queries Sample.fresh) -> Query.ID q <> 7).
  { intros q Hq. vm_compute in Hq. destruct Hq. }
  assert (Hf : SQLiteDB.fault Sample.fresh (List.length (SQLiteDB.journal Sample.fresh)) = None)
    by (vm_compute; reflexivity).
  assert (Hs : SQLiteDB.schema Sample.fresh = true) by (vm_compute; reflexivity).
  split; [exact Hfk|].
  destruct (CreateSearchResult_foreign_key 7 "summary" (Some [1]) Sample.fresh Hfk Hnone)
    as (db' & e & Hrun & Hres & _ & He).
  exists db'. rewrite (He Hf Hs) in Hrun. split; [exact Hrun|].
  rewrite Hres. vm_compute. reflexivity.
Defined.

(** X8 on the second result stored for one query. *)
Lemma GetSearchResultByID_created_witness :
  let db0 := fst (SQLiteDB.CreateQuery "test search query" Sample.fresh) in
  let db1 := fst (SQLiteDB.CreateSearchResult 1 "first" (Some [1]) db0) in
  exists db2 created,
    SQLiteDB.CreateSearchResult 1 "second" (Some [3; 2]) db1 = (db2, Ok created)
    /\ SearchResult.AISummaryAnswer created = "second"
    /\ exists db3,
         SQLiteDB.GetSearchResultByID (SearchResult.ID created) db2 = (db3, Ok created).
Proof.
  cbv zeta. eexists. eexists.
  match goal with |- ?P /\ _ => assert (Hc : P) by (vm_compute; reflexivity) end.
  split; [exact Hc|].
  destruct (GetSearchResultByID_created _ _ _ _ _ _ Hc) as (_ & Hs & _ & Hget).
  split; [exact Hs|]. apply Hget. reflexivity.
Defined.

(** X9 on an engine that fails the third insertion of the catalog. *)
Lemma Initialize_partial_catalog_witness :
  let db := Sample.failingFrom 5 Sample.opened in
  SQLiteDB.articles db = []
  /\ exists db1 e,
       SQLiteDB.Initialize db = (db1, Some e)
       /\ map Article.ID (SQLiteDB.articles db1) = [1; 2]
       /\ forall db2 r2, SQLiteDB.Initialize db1 = (db2, r2) ->
                         SQLiteDB.articles db2 = SQLiteDB.articles db1.
Proof.
  cbv zeta.
  assert (He : SQLiteDB.articles (Sample.failingFrom 5 Sample.opened) = [])
    by (vm_compute; reflexivity).
  split; [exact He|]. eexists. eexists.
  match goal with |- ?P /\ _ => assert (Hi : P) by (vm_compute; reflexivity) end.
  split; [exact Hi|].
  destruct (Initialize_partial_catalog (Sample.failingFrom 5 Sample.opened) _ _ He Hi)
    as (k & _ & _ & Hids & _ & Hstay).
  assert (Hk : k = 2%nat).
  { apply (f_equal (@List.length _)) in Hids. rewrite !length_map, length_seq in Hids.
    rewrite <- Hids. vm_compute. reflexivity. }
  subst k. split; [exact Hids|]. apply Hstay. lia.
Defined.

(** X11 on the password question against the seeded catalog. *)
Lemma ProcessSearchQuery_heuristic_witness :
  SQLiteDB.schema Sample.fresh = true /\ unique_ids Sample.fresh
  /\ exists s' id,
       @SearchService.ProcessSearchQuery _ _ _ Sample.mock
         (SearchService.NewSearchService Sample.fresh MockAIService.NewMockAIService)
         "How do I reset my password?"
       = (s', Ok (SearchResponse.mk "How do I reset my password?"
                    MockAIService.summaryPassword
                    (Some (filter (MockAIService.matches strings.ToLowerASCII
                                     "How do I reset my password?")
                             (SQLiteDB.articles Sample.fresh)))
                    id (SQLiteDB.now Sample.fresh))).
Proof.
  assert (Hs : SQLiteDB.schema Sample.fresh = true) by (vm_compute; reflexivity).
  split; [exact Hs|]. split; [exact fresh_unique_ids|].
  destruct (ProcessSearchQuery_heuristic strings.ToLowerASCII MockAIService.NewMockAIService
              Sample.fresh "How do I reset my password?" Hs (fresh_available 6)
              fresh_unique_ids fresh_ids_in_range) as (s' & id & Hrun & _).
  exists s', id. exact Hrun.
Defined.

(** X12 on a reply that lists the second article of the seeded catalog. *)
Lemma ProcessSearchQuery_generative_witness :
  let g := Sample.scripted
             ("SUMMARY: Use the VPN client." ++ Sample.nl ++ "RELEVANT_ARTICLES: 2, 77") in
  let run := SearchService.ProcessSearchQuery
               (SearchService.NewSearchService Sample.fresh g) "vpn?" in
  exists resp,
    snd run = Ok resp
    /\ SearchResponse.AISummaryAnswer resp = "Use the VPN client."
    /\ map Article.ID (elems (SearchResponse.AIRelevantArticles resp)) = [2].
Proof.
  cbv zeta.
  assert (Hs : SQLiteDB.schema Sample.fresh = true) by (vm_compute; reflexivity).
  pose proof (ProcessSearchQuery_generative
                (Sample.scripted
                   ("SUMMARY: Use the VPN client." ++ Sample.nl ++ "RELEVANT_ARTICLES: 2, 77"))
                Sample.fresh "vpn?" Hs (fresh_available 6) fresh_ids_in_range) as Hrun.
  cbv zeta in Hrun.
  cbn [GeminiService.GenerateContent GeminiService.client Sample.scripted] in Hrun.
  destruct Hrun as (_ & id & Hrun & _ & _).
  eexists. split; [exact Hrun|].
  cbn [SearchResponse.AISummaryAnswer SearchResponse.AIRelevantArticles elems].
  split; vm_compute; reflexivity.
Defined.

(** X15 on the first article of the seeded catalog. *)
Lemma GetArticle_printed_id_witness :
  let h := SearchHandler.NewSearchHandler
             (SearchService.NewSearchService Sample.fresh MockAIService.NewMockAIService) in
  let a := hd (Article.mk 0 "" "") (SQLiteDB.articles Sample.fresh) in
  In a (SQLiteDB.articles Sample.fresh)
  /\ snd (SearchHandler.GetArticle h "1")
     = SearchHandler.sendJSONResponse 200 (SearchHandler.ArticleBody a).
Proof.
  cbv zeta.
  assert (Hs : SQLiteDB.schema Sample.fresh = true) by (vm_compute; reflexivity).
  assert (Ha : In (hd (Article.mk 0 "" "") (SQLiteDB.articles Sample.fresh))
                 (SQLiteDB.articles Sample.fresh)).
  { vm_compute. left. reflexivity. }
  assert (Hi : is_int (Article.ID (hd (Article.mk 0 "" "") (SQLiteDB.articles Sample.fresh)))
               = true) by (vm_compute; reflexivity).
  split; [exact Ha|].
  exact (@GetArticle_printed_id MockAIService.t Sample.mock
           (SearchHandler.NewSearchHandler
              (SearchService.NewSearchService Sample.fresh MockAIService.NewMockAIService))
           _ fresh_unique_ids Hs (fresh_available 1) Ha Hi).
Defined.

(** X16 on a machine with nothing configured whose port 8080 is taken. *)
Lemma main_outcome_witness :
  let busy := errorString "listen tcp :8080: bind: address already in use" in
  let host := main.mkHost (main.environ Sample.bare) (main.disk Sample.bare)
                (main.dial Sample.bare)
                (fun addr => if String.eqb addr ":8080" then Some busy else None) in
  main.main host
  = main.Fatal "Server failed to start: listen tcp :8080: bind: address already in use".
Proof.
  cbv zeta.
  set (host := main.mkHost (main.environ Sample.bare) (main.disk Sample.bare)
                 (main.dial Sample.bare)
                 (fun addr =>
                    if String.eqb addr ":8080"
                    then Some (errorString "listen tcp :8080: bind: address already in use")
                    else None)).
  assert (Hup : available
                  (main.disk host (config.DBPath (config.LoadConfig (main.environ host))))
                  (3 + List.length SQLiteDB.seed)).
  { intros i _. reflexivity. }
  pose proof (main_outcome host Hup) as Hout. cbv zeta in Hout.
  destruct (main.main host) as [msg|addr h].
  - destruct Hout as [(Hmock & _) | (_ & e & He & ->)].
    + vm_compute in Hmock. discriminate.
    + vm_compute in He. injection He as <-. reflexivity.
  - exfalso. destruct Hout as (_ & Hl & _). vm_compute in Hl. discriminate.
Defined.

(** X17 on a two-article reply. *)
Lemma parseResponse_prescribed_format_witness :
  let articles := Some [Article.mk 1 "Password Reset" "Reset the password";
                        Article.mk 2 "VPN Setup" "VPN configuration guide"] in
  GeminiService.parseResponse
    ("SUMMARY: Use the VPN client." ++ GeminiService.nl ++ "RELEVANT_ARTICLES: 2,1")%string
    articles
  = Ok (ai.mkResult "Use the VPN client." (Some [2; 1])).
Proof.
  cbv zeta.
  apply (parseResponse_prescribed_format "Use the VPN client." [2; 1]
           (Some [Article.mk 1 "Password Reset" "Reset the password";
                  Article.mk 2 "VPN Setup" "VPN configuration guide"])).
  - vm_compute. reflexivity.
  - vm_compute. reflexivity.
  - vm_compute. reflexivity.
  - intros i Hi. cbn [elems map Article.ID In] in *. tauto.
Defined.

(** X19 on the password question against the seeded catalog. *)
Lemma ProcessSearchQuery_persisted_witness :
  let run := @SearchService.process _ _ _ Sample.mock MockAIService.NewMockAIService
               "How do I reset my password?" Sample.fresh in
  exists resp d stored,
    snd run = Ok resp
    /\ SQLiteDB.GetSearchResultByQueryID (SearchResponse.QueryID resp) (fst run)
       = (d, Ok stored)
    /\ SearchResult.AISummaryAnswer stored = SearchResponse.AISummaryAnswer resp
    /\ SearchResult.AIRelevantArticles stored = Some [1; 2; 4].
Proof.
  cbv zeta.
  destruct (@SearchService.process _ _ _ Sample.mock MockAIService.NewMockAIService
              "How do I reset my password?" Sample.fresh) as [db' r] eqn:Hrun.
  assert (Hr : exists resp, r = Ok resp /\ SQLiteDB.fault db' = Sample.healthy).
  { vm_compute in Hrun. injection Hrun as <- <-. eexists. split; reflexivity. }
  destruct Hr as (resp & -> & Hf).
  destruct (@ProcessSearchQuery_persisted _ Sample.mock MockAIService.NewMockAIService
              "How do I reset my password?" Sample.fresh db' resp Hrun)
    as (_ & d & stored & Hget & _ & Hsum & _).
  - intros r Hr. vm_compute in Hr. destruct Hr.
  - intros aiResult Hai. vm_compute in Hai. injection Hai as <-. reflexivity.
  - intros i _. rewrite Hf. reflexivity.
  - exists resp, d, stored. cbn [fst snd].
    split; [reflexivity|]. split; [exact Hget|]. split; [exact Hsum|].
    vm_compute in Hrun. injection Hrun as <- <-.
    vm_compute in Hget. injection Hget as _ <-. reflexivity.
Defined.
